(** * setuptools/msvc.py: locating the Microsoft Visual C++ build environment

    A shallow embedding of [setuptools/msvc.py] and the properties of its
    toolchain locator.

    Conventions of the embedding.
    - A Python [str] is the list of its Unicode code points ([list N]), a
      Python [bytes] a list of [byte].
    - [str.lower()] is CPython's [do_lower] over the tables of the Unicode
      database 14.0: simple mappings, the two code points of U+0130 and the
      final sigma.
    - A Python [dict] with string keys is a [gmap]; [os.environ], whose
      iteration order matters to the dict comprehension built from it, is an
      association list.
    - A call either returns or raises; what it did to the outside world
      (processes spawned, registry keys opened, glob searches) is recorded in
      a trace.  [M A] is the corresponding monad: an outcome and a trace.
    - Registry, file system, process table, the unpatched distutils functions
      and the platform's [os.path.join], [mbcs] codec and float parser are
      fields of a [Host]: the code only reads them. *)

From Stdlib Require Import ZArith NArith QArith_base Strings.String Strings.Ascii Strings.Byte
  DecimalString List Bool Lia.
From stdpp Require Import base option list gmap.
Import ListNotations.

Local Open Scope N_scope.

(** ** Python strings *)

Abbreviation str := (list N).
Abbreviation bytes := (list byte).

(** A string literal of the source, as its code points. *)
Definition lit (s : string) : str := List.map N_of_ascii (list_ascii_of_string s).

(** [bool(s)] for a string: non-empty. *)
Definition truthy (s : str) : bool :=
  match s with [] => false | _ :: _ => true end.

(** [s.startswith(p)]. *)
Fixpoint startswith (p s : str) : bool :=
  match p, s with
  | [], _ => true
  | _ :: _, [] => false
  | a :: p', b :: s' => (a =? b) && startswith p' s'
  end.

(** [sub in s]: [sub] occurs in [s] as a contiguous substring. *)
Fixpoint str_in (sub s : str) : bool :=
  startswith sub s ||
  match s with
  | [] => false
  | _ :: s' => str_in sub s'
  end.

(** [str.lower()] is [do_lower] of CPython's unicodeobject.c over the
    Unicode database (version 14.0, that of Python 3.11).  A code point is
    replaced by its full lower-case mapping; the capital sigma U+03A3 becomes
    the final sigma U+03C2 when a cased letter precedes it and none follows
    it, case-ignorable code points aside, and the small sigma U+03C3
    otherwise. *)

(** The simple lower-case mappings, in runs [(first, count, step, target)]:
    [first + i * step] lowers to [target + i * step] for [i < count]. *)
Definition lower_runs : list (N * N * N * N) :=
  [
   (65, 26, 1, 97); (192, 23, 1, 224); (216, 7, 1, 248); (256, 24, 2, 257);
   (306, 3, 2, 307); (313, 8, 2, 314); (330, 23, 2, 331); (376, 1, 1, 255);
   (377, 3, 2, 378); (385, 1, 1, 595); (386, 2, 2, 387); (390, 1, 1, 596);
   (391, 1, 1, 392); (393, 2, 1, 598); (395, 1, 1, 396); (398, 1, 1, 477);
   (399, 1, 1, 601); (400, 1, 1, 603); (401, 1, 1, 402); (403, 1, 1, 608);
   (404, 1, 1, 611); (406, 1, 1, 617); (407, 1, 1, 616); (408, 1, 1, 409);
   (412, 1, 1, 623); (413, 1, 1, 626); (415, 1, 1, 629); (416, 3, 2, 417);
   (422, 1, 1, 640); (423, 1, 1, 424); (425, 1, 1, 643); (428, 1, 1, 429);
   (430, 1, 1, 648); (431, 1, 1, 432); (433, 2, 1, 650); (435, 2, 2, 436);
   (439, 1, 1, 658); (440, 1, 1, 441); (444, 1, 1, 445); (452, 1, 1, 454);
   (453, 1, 1, 454); (455, 1, 1, 457); (456, 1, 1, 457); (458, 1, 1, 460);
   (459, 9, 2, 460); (478, 9, 2, 479); (497, 1, 1, 499); (498, 2, 2, 499);
   (502, 1, 1, 405); (503, 1, 1, 447); (504, 20, 2, 505); (544, 1, 1, 414);
   (546, 9, 2, 547); (570, 1, 1, 11365); (571, 1, 1, 572); (573, 1, 1, 410);
   (574, 1, 1, 11366); (577, 1, 1, 578); (579, 1, 1, 384); (580, 1, 1, 649);
   (581, 1, 1, 652); (582, 5, 2, 583); (880, 2, 2, 881); (886, 1, 1, 887);
   (895, 1, 1, 1011); (902, 1, 1, 940); (904, 3, 1, 941); (908, 1, 1, 972);
   (910, 2, 1, 973); (913, 17, 1, 945); (931, 9, 1, 963); (975, 1, 1, 983);
   (984, 12, 2, 985); (1012, 1, 1, 952); (1015, 1, 1, 1016);
   (1017, 1, 1, 1010); (1018, 1, 1, 1019); (1021, 3, 1, 891);
   (1024, 16, 1, 1104); (1040, 32, 1, 1072); (1120, 17, 2, 1121);
   (1162, 27, 2, 1163); (1216, 1, 1, 1231); (1217, 7, 2, 1218);
   (1232, 48, 2, 1233); (1329, 38, 1, 1377); (4256, 38, 1, 11520);
   (4295, 1, 1, 11559); (4301, 1, 1, 11565); (5024, 80, 1, 43888);
   (5104, 6, 1, 5112); (7312, 43, 1, 4304); (7357, 3, 1, 4349);
   (7680, 75, 2, 7681); (7838, 1, 1, 223); (7840, 48, 2, 7841);
   (7944, 8, 1, 7936); (7960, 6, 1, 7952); (7976, 8, 1, 7968);
   (7992, 8, 1, 7984); (8008, 6, 1, 8000); (8025, 4, 2, 8017);
   (8040, 8, 1, 8032); (8072, 8, 1, 8064); (8088, 8, 1, 8080);
   (8104, 8, 1, 8096); (8120, 2, 1, 8112); (8122, 2, 1, 8048);
   (8124, 1, 1, 8115); (8136, 4, 1, 8050); (8140, 1, 1, 8131);
   (8152, 2, 1, 8144); (8154, 2, 1, 8054); (8168, 2, 1, 8160);
   (8170, 2, 1, 8058); (8172, 1, 1, 8165); (8184, 2, 1, 8056);
   (8186, 2, 1, 8060); (8188, 1, 1, 8179); (8486, 1, 1, 969);
   (8490, 1, 1, 107); (8491, 1, 1, 229); (8498, 1, 1, 8526);
   (8544, 16, 1, 8560); (8579, 1, 1, 8580); (9398, 26, 1, 9424);
   (11264, 48, 1, 11312); (11360, 1, 1, 11361); (11362, 1, 1, 619);
   (11363, 1, 1, 7549); (11364, 1, 1, 637); (11367, 3, 2, 11368);
   (11373, 1, 1, 593); (11374, 1, 1, 625); (11375, 1, 1, 592);
   (11376, 1, 1, 594); (11378, 1, 1, 11379); (11381, 1, 1, 11382);
   (11390, 2, 1, 575); (11392, 50, 2, 11393); (11499, 2, 2, 11500);
   (11506, 1, 1, 11507); (42560, 23, 2, 42561); (42624, 14, 2, 42625);
   (42786, 7, 2, 42787); (42802, 31, 2, 42803); (42873, 2, 2, 42874);
   (42877, 1, 1, 7545); (42878, 5, 2, 42879); (42891, 1, 1, 42892);
   (42893, 1, 1, 613); (42896, 2, 2, 42897); (42902, 10, 2, 42903);
   (42922, 1, 1, 614); (42923, 1, 1, 604); (42924, 1, 1, 609);
   (42925, 1, 1, 620); (42926, 1, 1, 618); (42928, 1, 1, 670);
   (42929, 1, 1, 647); (42930, 1, 1, 669); (42931, 1, 1, 43859);
   (42932, 8, 2, 42933); (42948, 1, 1, 42900); (42949, 1, 1, 642);
   (42950, 1, 1, 7566); (42951, 2, 2, 42952); (42960, 1, 1, 42961);
   (42966, 2, 2, 42967); (42997, 1, 1, 42998); (65313, 26, 1, 65345);
   (66560, 40, 1, 66600); (66736, 36, 1, 66776); (66928, 11, 1, 66967);
   (66940, 15, 1, 66979); (66956, 7, 1, 66995); (66964, 2, 1, 67003);
   (68736, 51, 1, 68800); (71840, 32, 1, 71872); (93760, 32, 1, 93792);
   (125184, 34, 1, 125218)
  ].

(** The code points with the property Cased, in ranges [(first, last)]. *)
Definition cased_ranges : list (N * N) :=
  [
   (65, 90); (97, 122); (170, 170); (181, 181); (186, 186); (192, 214);
   (216, 246); (248, 442); (444, 447); (452, 659); (661, 696); (704, 705);
   (736, 740); (837, 837); (880, 883); (886, 887); (890, 893); (895, 895);
   (902, 902); (904, 906); (908, 908); (910, 929); (931, 1013); (1015, 1153);
   (1162, 1327); (1329, 1366); (1376, 1416); (4256, 4293); (4295, 4295);
   (4301, 4301); (4304, 4346); (4349, 4351); (5024, 5109); (5112, 5117);
   (7296, 7304); (7312, 7354); (7357, 7359); (7424, 7615); (7680, 7957);
   (7960, 7965); (7968, 8005); (8008, 8013); (8016, 8023); (8025, 8025);
   (8027, 8027); (8029, 8029); (8031, 8061); (8064, 8116); (8118, 8124);
   (8126, 8126); (8130, 8132); (8134, 8140); (8144, 8147); (8150, 8155);
   (8160, 8172); (8178, 8180); (8182, 8188); (8305, 8305); (8319, 8319);
   (8336, 8348); (8450, 8450); (8455, 8455); (8458, 8467); (8469, 8469);
   (8473, 8477); (8484, 8484); (8486, 8486); (8488, 8488); (8490, 8493);
   (8495, 8500); (8505, 8505); (8508, 8511); (8517, 8521); (8526, 8526);
   (8544, 8575); (8579, 8580); (9398, 9449); (11264, 11492); (11499, 11502);
   (11506, 11507); (11520, 11557); (11559, 11559); (11565, 11565);
   (42560, 42605); (42624, 42653); (42786, 42887); (42891, 42894);
   (42896, 42954); (42960, 42961); (42963, 42963); (42965, 42969);
   (42997, 42998); (43000, 43002); (43824, 43866); (43868, 43880);
   (43888, 43967); (64256, 64262); (64275, 64279); (65313, 65338);
   (65345, 65370); (66560, 66639); (66736, 66771); (66776, 66811);
   (66928, 66938); (66940, 66954); (66956, 66962); (66964, 66965);
   (66967, 66977); (66979, 66993); (66995, 67001); (67003, 67004);
   (67456, 67456); (67459, 67461); (67463, 67504); (67506, 67514);
   (68736, 68786); (68800, 68850); (71840, 71903); (93760, 93823);
   (119808, 119892); (119894, 119964); (119966, 119967); (119970, 119970);
   (119973, 119974); (119977, 119980); (119982, 119993); (119995, 119995);
   (119997, 120003); (120005, 120069); (120071, 120074); (120077, 120084);
   (120086, 120092); (120094, 120121); (120123, 120126); (120128, 120132);
   (120134, 120134); (120138, 120144); (120146, 120485); (120488, 120512);
   (120514, 120538); (120540, 120570); (120572, 120596); (120598, 120628);
   (120630, 120654); (120656, 120686); (120688, 120712); (120714, 120744);
   (120746, 120770); (120772, 120779); (122624, 122633); (122635, 122654);
   (125184, 125251); (127280, 127305); (127312, 127337); (127344, 127369)
  ].

(** The code points with the property Case_Ignorable. *)
Definition case_ignorable_ranges : list (N * N) :=
  [
   (39, 39); (46, 46); (58, 58); (94, 94); (96, 96); (168, 168); (173, 173);
   (175, 175); (180, 180); (183, 184); (688, 879); (884, 885); (890, 890);
   (900, 901); (903, 903); (1155, 1161); (1369, 1369); (1375, 1375);
   (1425, 1469); (1471, 1471); (1473, 1474); (1476, 1477); (1479, 1479);
   (1524, 1524); (1536, 1541); (1552, 1562); (1564, 1564); (1600, 1600);
   (1611, 1631); (1648, 1648); (1750, 1757); (1759, 1768); (1770, 1773);
   (1807, 1807); (1809, 1809); (1840, 1866); (1958, 1968); (2027, 2037);
   (2042, 2042); (2045, 2045); (2070, 2093); (2137, 2139); (2184, 2184);
   (2192, 2193); (2200, 2207); (2249, 2306); (2362, 2362); (2364, 2364);
   (2369, 2376); (2381, 2381); (2385, 2391); (2402, 2403); (2417, 2417);
   (2433, 2433); (2492, 2492); (2497, 2500); (2509, 2509); (2530, 2531);
   (2558, 2558); (2561, 2562); (2620, 2620); (2625, 2626); (2631, 2632);
   (2635, 2637); (2641, 2641); (2672, 2673); (2677, 2677); (2689, 2690);
   (2748, 2748); (2753, 2757); (2759, 2760); (2765, 2765); (2786, 2787);
   (2810, 2815); (2817, 2817); (2876, 2876); (2879, 2879); (2881, 2884);
   (2893, 2893); (2901, 2902); (2914, 2915); (2946, 2946); (3008, 3008);
   (3021, 3021); (3072, 3072); (3076, 3076); (3132, 3132); (3134, 3136);
   (3142, 3144); (3146, 3149); (3157, 3158); (3170, 3171); (3201, 3201);
   (3260, 3260); (3263, 3263); (3270, 3270); (3276, 3277); (3298, 3299);
   (3328, 3329); (3387, 3388); (3393, 3396); (3405, 3405); (3426, 3427);
   (3457, 3457); (3530, 3530); (3538, 3540); (3542, 3542); (3633, 3633);
   (3636, 3642); (3654, 3662); (3761, 3761); (3764, 3772); (3782, 3782);
   (3784, 3789); (3864, 3865); (3893, 3893); (3895, 3895); (3897, 3897);
   (3953, 3966); (3968, 3972); (3974, 3975); (3981, 3991); (3993, 4028);
   (4038, 4038); (4141, 4144); (4146, 4151); (4153, 4154); (4157, 4158);
   (4184, 4185); (4190, 4192); (4209, 4212); (4226, 4226); (4229, 4230);
   (4237, 4237); (4253, 4253); (4348, 4348); (4957, 4959); (5906, 5908);
   (5938, 5939); (5970, 5971); (6002, 6003); (6068, 6069); (6071, 6077);
   (6086, 6086); (6089, 6099); (6103, 6103); (6109, 6109); (6155, 6159);
   (6211, 6211); (6277, 6278); (6313, 6313); (6432, 6434); (6439, 6440);
   (6450, 6450); (6457, 6459); (6679, 6680); (6683, 6683); (6742, 6742);
   (6744, 6750); (6752, 6752); (6754, 6754); (6757, 6764); (6771, 6780);
   (6783, 6783); (6823, 6823); (6832, 6862); (6912, 6915); (6964, 6964);
   (6966, 6970); (6972, 6972); (6978, 6978); (7019, 7027); (7040, 7041);
   (7074, 7077); (7080, 7081); (7083, 7085); (7142, 7142); (7144, 7145);
   (7149, 7149); (7151, 7153); (7212, 7219); (7222, 7223); (7288, 7293);
   (7376, 7378); (7380, 7392); (7394, 7400); (7405, 7405); (7412, 7412);
   (7416, 7417); (7468, 7530); (7544, 7544); (7579, 7679); (8125, 8125);
   (8127, 8129); (8141, 8143); (8157, 8159); (8173, 8175); (8189, 8190);
   (8203, 8207); (8216, 8217); (8228, 8228); (8231, 8231); (8234, 8238);
   (8288, 8292); (8294, 8303); (8305, 8305); (8319, 8319); (8336, 8348);
   (8400, 8432); (11388, 11389); (11503, 11505); (11631, 11631);
   (11647, 11647); (11744, 11775); (11823, 11823); (12293, 12293);
   (12330, 12333); (12337, 12341); (12347, 12347); (12441, 12446);
   (12540, 12542); (40981, 40981); (42232, 42237); (42508, 42508);
   (42607, 42610); (42612, 42621); (42623, 42623); (42652, 42655);
   (42736, 42737); (42752, 42785); (42864, 42864); (42888, 42890);
   (42994, 42996); (43000, 43001); (43010, 43010); (43014, 43014);
   (43019, 43019); (43045, 43046); (43052, 43052); (43204, 43205);
   (43232, 43249); (43263, 43263); (43302, 43309); (43335, 43345);
   (43392, 43394); (43443, 43443); (43446, 43449); (43452, 43453);
   (43471, 43471); (43493, 43494); (43561, 43566); (43569, 43570);
   (43573, 43574); (43587, 43587); (43596, 43596); (43632, 43632);
   (43644, 43644); (43696, 43696); (43698, 43700); (43703, 43704);
   (43710, 43711); (43713, 43713); (43741, 43741); (43756, 43757);
   (43763, 43764); (43766, 43766); (43867, 43871); (43881, 43883);
   (44005, 44005); (44008, 44008); (44013, 44013); (64286, 64286);
   (64434, 64450); (65024, 65039); (65043, 65043); (65056, 65071);
   (65106, 65106); (65109, 65109); (65279, 65279); (65287, 65287);
   (65294, 65294); (65306, 65306); (65342, 65342); (65344, 65344);
   (65392, 65392); (65438, 65439); (65507, 65507); (65529, 65531);
   (66045, 66045); (66272, 66272); (66422, 66426); (67456, 67461);
   (67463, 67504); (67506, 67514); (68097, 68099); (68101, 68102);
   (68108, 68111); (68152, 68154); (68159, 68159); (68325, 68326);
   (68900, 68903); (69291, 69292); (69446, 69456); (69506, 69509);
   (69633, 69633); (69688, 69702); (69744, 69744); (69747, 69748);
   (69759, 69761); (69811, 69814); (69817, 69818); (69821, 69821);
   (69826, 69826); (69837, 69837); (69888, 69890); (69927, 69931);
   (69933, 69940); (70003, 70003); (70016, 70017); (70070, 70078);
   (70089, 70092); (70095, 70095); (70191, 70193); (70196, 70196);
   (70198, 70199); (70206, 70206); (70367, 70367); (70371, 70378);
   (70400, 70401); (70459, 70460); (70464, 70464); (70502, 70508);
   (70512, 70516); (70712, 70719); (70722, 70724); (70726, 70726);
   (70750, 70750); (70835, 70840); (70842, 70842); (70847, 70848);
   (70850, 70851); (71090, 71093); (71100, 71101); (71103, 71104);
   (71132, 71133); (71219, 71226); (71229, 71229); (71231, 71232);
   (71339, 71339); (71341, 71341); (71344, 71349); (71351, 71351);
   (71453, 71455); (71458, 71461); (71463, 71467); (71727, 71735);
   (71737, 71738); (71995, 71996); (71998, 71998); (72003, 72003);
   (72148, 72151); (72154, 72155); (72160, 72160); (72193, 72202);
   (72243, 72248); (72251, 72254); (72263, 72263); (72273, 72278);
   (72281, 72283); (72330, 72342); (72344, 72345); (72752, 72758);
   (72760, 72765); (72767, 72767); (72850, 72871); (72874, 72880);
   (72882, 72883); (72885, 72886); (73009, 73014); (73018, 73018);
   (73020, 73021); (73023, 73029); (73031, 73031); (73104, 73105);
   (73109, 73109); (73111, 73111); (73459, 73460); (78896, 78904);
   (92912, 92916); (92976, 92982); (92992, 92995); (94031, 94031);
   (94095, 94111); (94176, 94177); (94179, 94180); (110576, 110579);
   (110581, 110587); (110589, 110590); (113821, 113822); (113824, 113827);
   (118528, 118573); (118576, 118598); (119143, 119145); (119155, 119170);
   (119173, 119179); (119210, 119213); (119362, 119364); (121344, 121398);
   (121403, 121452); (121461, 121461); (121476, 121476); (121499, 121503);
   (121505, 121519); (122880, 122886); (122888, 122904); (122907, 122913);
   (122915, 122916); (122918, 122922); (123184, 123197); (123566, 123566);
   (123628, 123631); (125136, 125142); (125252, 125259); (127995, 127999);
   (917505, 917505); (917536, 917631); (917760, 917999)
  ].

Fixpoint lower_lookup (runs : list (N * N * N * N)) (c : N) : option N :=
  match runs with
  | [] => None
  | (first, count, step, target) :: runs' =>
      if (first <=? c) && (c <? first + count * step)
         && ((c - first) mod step =? 0)
      then Some (target + (c - first))
      else lower_lookup runs' c
  end.

Definition in_ranges (ranges : list (N * N)) (c : N) : bool :=
  existsb (fun '(first, last) => (first <=? c) && (c <=? last)) ranges.

(** [_PyUnicode_ToLowerFull]: U+0130 is the one code point whose lower-case
    mapping has two code points. *)
Definition to_lower_full (c : N) : str :=
  if c =? 304 then [105; 775]
  else match lower_lookup lower_runs c with
       | Some l => [l]
       | None => [c]
       end.

Definition IsCased (c : N) : bool := in_ranges cased_ranges c.

Definition IsCaseIgnorable (c : N) : bool := in_ranges case_ignorable_ranges c.

(** The nearest code point that is not case-ignorable. *)
Fixpoint first_not_ignorable (s : str) : option N :=
  match s with
  | [] => None
  | c :: s' => if IsCaseIgnorable c then first_not_ignorable s' else Some c
  end.

(** [handle_capital_sigma]: [before] is the text before the sigma, the
    nearest code point first, [after] the text after it. *)
Definition handle_capital_sigma (before after : str) : N :=
  let final_sigma :=
    match first_not_ignorable before with
    | Some c =>
        IsCased c
        && match first_not_ignorable after with
           | Some d => negb (IsCased d)
           | None => true
           end
    | None => false
    end in
  if final_sigma then 962 else 963.

Definition lower_ucs4 (before : str) (c : N) (after : str) : str :=
  if c =? 931 then [handle_capital_sigma before after] else to_lower_full c.

Fixpoint do_lower (before s : str) : str :=
  match s with
  | [] => []
  | c :: after => lower_ucs4 before c after ++ do_lower (c :: before) after
  end.

Definition lower (s : str) : str := do_lower [] s.

(** [s.partition(sep)]: split at the first occurrence of [sep]; when there is
    none the result is [(s, '', '')]. *)
Fixpoint partition (sep s : str) : str * str * str :=
  if startswith sep s then ([], sep, drop (length sep) s)
  else match s with
       | [] => ([], [], [])
       | c :: s' => let '(a, m, b) := partition sep s' in (c :: a, m, b)
       end.

(** The line boundaries of [str.splitlines()]. *)
Definition is_linebreak (c : N) : bool :=
  (c =? 10) || (c =? 13) || (c =? 11) || (c =? 12) || (c =? 28) || (c =? 29)
  || (c =? 30) || (c =? 133) || (c =? 8232) || (c =? 8233).

(** [s.splitlines()]: [cur] is the current line, reversed.  A carriage return
    followed by a line feed is one boundary; there is no empty last line. *)
Fixpoint splitlines_from (cur s : str) : list str :=
  match s with
  | [] => if truthy cur then [rev cur] else []
  | c :: rest =>
      if is_linebreak c then
        rev cur ::
        match rest with
        | c' :: rest' =>
            if (c =? 13) && (c' =? 10) then splitlines_from [] rest'
            else splitlines_from [] rest
        | [] => splitlines_from [] rest
        end
      else splitlines_from (c :: cur) rest
  end.

Definition splitlines (s : str) : list str := splitlines_from [] s.

(** [str.isspace()] on one code point. *)
Definition isspace (c : N) : bool :=
  ((9 <=? c) && (c <=? 13)) || ((28 <=? c) && (c <=? 32)) || (c =? 133)
  || (c =? 160) || (c =? 5760) || ((8192 <=? c) && (c <=? 8202))
  || (c =? 8232) || (c =? 8233) || (c =? 8239) || (c =? 8287) || (c =? 12288).

Fixpoint lstrip (s : str) : str :=
  match s with
  | c :: s' => if isspace c then lstrip s' else s
  | [] => []
  end.

(** [s.strip()]. *)
Definition strip (s : str) : str := rev (lstrip (rev (lstrip s))).

(** ** Codecs *)

Inductive errors_mode := strict | replace.

Definition REPLACEMENT_CHARACTER : N := 65533.

Definition is_surrogate (u : N) : bool := (55296 <=? u) && (u <=? 57343).
Definition is_high_surrogate (u : N) : bool := (55296 <=? u) && (u <=? 56319).
Definition is_low_surrogate (u : N) : bool := (56320 <=? u) && (u <=? 57343).

(** A little-endian 16-bit code unit. *)
Definition code_unit (b0 b1 : byte) : N := Byte.to_N b0 + 256 * Byte.to_N b1.

Definition join_surrogates (hi lo : N) : N :=
  65536 + (hi - 55296) * 1024 + (lo - 56320).

(** What the error handler does with a malformed sequence: [strict] gives up
    ([None] stands for [UnicodeDecodeError]), [replace] puts U+FFFD and goes
    on with [k], the decoding of what follows the malformed sequence. *)
Definition on_decode_error (errors : errors_mode) (k : option str) : option str :=
  match errors with
  | strict => None
  | replace => cons REPLACEMENT_CHARACTER <$> k
  end.

(** [bs.decode('utf-16le', errors)].  The malformed sequences are a lone low
    surrogate, a high surrogate not followed by a low one (the following unit
    is read again), a high surrogate at the end of the data and an odd last
    byte. *)
Fixpoint utf16le_decode (errors : errors_mode) (bs : bytes) : option str :=
  match bs with
  | [] => Some []
  | [_] => on_decode_error errors (Some [])
  | b0 :: b1 :: tl =>
      let ch := code_unit b0 b1 in
      if negb (is_surrogate ch) then cons ch <$> utf16le_decode errors tl
      else if negb (is_high_surrogate ch) then
        on_decode_error errors (utf16le_decode errors tl)
      else
        match tl with
        | b2 :: b3 :: rest =>
            let ch2 := code_unit b2 b3 in
            if is_low_surrogate ch2
            then cons (join_surrogates ch ch2) <$> utf16le_decode errors rest
            else on_decode_error errors (utf16le_decode errors tl)
        | _ => on_decode_error errors (Some [])
        end
  end.

(** ** Exceptions, effects and the monad of calls *)

Inductive exc_class :=
  | OSError | CalledProcessError | UnicodeDecodeError | ValueError | TypeError
  | OverflowError | NameError | IndexError | KeyError | LookupError
  | ImportError | DistutilsPlatformError.

#[global] Instance exc_class_eq_dec : EqDecision exc_class.
Proof. solve_decision. Defined.

(** The base classes among the modelled ones. *)
Definition bases (c : exc_class) : list exc_class :=
  match c with
  | IndexError | KeyError => [LookupError]
  | UnicodeDecodeError => [ValueError]
  | _ => []
  end.

Definition issubclass (c d : exc_class) : bool :=
  bool_decide (c = d) || existsb (fun b => bool_decide (b = d)) (bases c).

(** What [subprocess.check_output] is asked to run: an argument list or a
    command line. *)
Inductive command :=
  | ArgList (argv : list str)
  | CmdLine (line : str).

(** An exception object: its class, its [args] and, for
    [CalledProcessError], its [cmd]. *)
Record pyexc := {
  exc_type : exc_class;
  exc_args : list str;
  exc_cmd : option command
}.

Definition new_exc (c : exc_class) (args : list str) : pyexc :=
  {| exc_type := c; exc_args := args; exc_cmd := None |}.

Inductive event :=
  | Spawn (c : command)
  | RegOpenKey (subkey : str)
  | GlobSearch (pattern : str).

Inductive outcome (A : Type) :=
  | Returns (a : A)
  | Raises (e : pyexc).
Arguments Returns {A} a.
Arguments Raises {A} e.

Definition M (A : Type) : Type := outcome A * list event.

#[global] Instance M_ret : MRet M := fun A a => (Returns a, []).

#[global] Instance M_bind : MBind M := fun A B f m =>
  match m with
  | (Returns a, t) => let '(r, t') := f a in (r, t ++ t')
  | (Raises e, t) => (Raises e, t)
  end.

#[global] Instance M_fmap : FMap M := fun A B f m =>
  match m with
  | (Returns a, t) => (Returns (f a), t)
  | (Raises e, t) => (Raises e, t)
  end.

Definition raise {A} (e : pyexc) : M A := (Raises e, []).

Definition tell (ev : event) : M unit := (Returns tt, [ev]).

(** [except (c1, ..., cn)] catches [e]. *)
Definition caught (classes : list exc_class) (e : pyexc) : bool :=
  existsb (issubclass (exc_type e)) classes.

(** [try: body / except classes as e: handler e]. *)
Definition try_except {A} (body : M A) (classes : list exc_class)
    (handler : pyexc -> M A) : M A :=
  match body with
  | (Raises e, t) =>
      if caught classes e then let '(r, t') := handler e in (r, t ++ t')
      else (Raises e, t)
  | (Returns a, t) => (Returns a, t)
  end.

(** ** Dictionaries *)

(** A dict display or comprehension: the items are inserted in order, a later
    item replaces an earlier one with the same key. *)
Definition dict_of (items : list (str * str)) : gmap str str :=
  foldl (fun d kv => <[kv.1 := kv.2]> d) ∅ items.

(** [d.get(k)] and [k in d] for the insertion-ordered [os.environ]. *)
Fixpoint environ_get (d : list (str * str)) (k : str) : option str :=
  match d with
  | [] => None
  | (k', v) :: d' => if bool_decide (k' = k) then Some v else environ_get d' k
  end.

Definition environ_contains (d : list (str * str)) (k : str) : bool :=
  match environ_get d k with Some _ => true | None => false end.

(** [a or b] on optional strings. *)
Definition or_else (a b : option str) : option str :=
  match a with
  | Some s => if truthy s then a else b
  | None => b
  end.

Definition truthy_opt (o : option str) : bool :=
  match o with Some s => truthy s | None => false end.

Definition truthy_int (o : option Z) : bool :=
  match o with Some z => negb (z =? 0)%Z | None => false end.

Definition dict_contains (d : gmap str str) (k : str) : bool :=
  match d !! k with Some _ => true | None => false end.

(** [d[k]]. *)
Definition dict_getitem (d : gmap str str) (k : str) : M str :=
  match d !! k with
  | Some v => mret v
  | None => raise (new_exc KeyError [k])
  end.

(** [l[-1]]. *)
Definition getitem_last (l : list str) : M str :=
  match last l with
  | Some x => mret x
  | None => raise (new_exc IndexError [lit "list index out of range"])
  end.

(** ** The host: what the module reads from outside *)

(** The data of a registry value as [winreg.EnumValue] returns it; its type
    code is the one of its constructor. *)
Inductive reg_data :=
  | SZ (s : str)
  | EXPAND_SZ (s : str)
  | MULTI_SZ (l : list str)
  | DWORD (n : Z)
  | QWORD (n : Z)
  | BINARY (b : bytes)
  | NONE.

Definition REG_SZ : Z := 1.

Definition reg_type (d : reg_data) : Z :=
  match d with
  | NONE => 0
  | SZ _ => 1
  | EXPAND_SZ _ => 2
  | BINARY _ => 3
  | DWORD _ => 4
  | MULTI_SZ _ => 7
  | QWORD _ => 11
  end.

(** How a spawned process ends: it ran and exited with a return code and its
    captured output, or it could not be started ([OSError]). *)
Inductive proc_result :=
  | Completed (returncode : Z) (output : bytes)
  | NotStarted.

(** The outcome of [int(float(v))]. *)
Inductive conversion :=
  | Converted (n : Z)
  | NotANumber         (* ValueError *)
  | Infinite.          (* OverflowError *)

Record Host := {
  (** [os.environ] *)
  environ : list (str * str);
  (** the values of HKLM\Software\Microsoft\VisualStudio\SxS\VC7 in the
      32-bit view, in enumeration order; [None] when the key cannot be
      opened *)
  reg_VC7 : option (list (str * reg_data));
  isfile : str -> bool;
  isdir : str -> bool;
  (** [os.path.join(a, *parts)] *)
  join : str -> list str -> str;
  (** [glob.glob(pattern, recursive=True)] *)
  glob : str -> list str;
  (** running a process to its end *)
  run : command -> proc_result;
  (** [bs.decode(encoding='mbcs', errors='strict')]; [None] is
      [UnicodeDecodeError] *)
  mbcs_decode : bytes -> option str;
  (** [int(float(v))] *)
  int_float : str -> conversion;
  (** [get_unpatched(msvc14_get_vc_env)]: distutils' own [_get_vc_env] *)
  unpatched_msvc14_get_vc_env : str -> M (gmap str str);
  (** [get_unpatched(msvc9_query_vcvarsall)] *)
  unpatched_msvc9_query_vcvarsall : Q -> list str -> M (gmap str str)
}.

(** [subprocess.check_output(c)]. *)
Definition check_output (h : Host) (c : command) : M bytes :=
  _ ← tell (Spawn c);
  match run h c with
  | Completed rc out =>
      if (rc =? 0)%Z then mret out
      else raise {| exc_type := CalledProcessError; exc_args := [];
                    exc_cmd := Some c |}
  | NotStarted => raise (new_exc OSError [])
  end.

Definition decode_mbcs (h : Host) (bs : bytes) : M str :=
  match mbcs_decode h bs with
  | Some s => mret s
  | None => raise (new_exc UnicodeDecodeError [lit "mbcs"])
  end.

Definition decode_utf16le (errors : errors_mode) (bs : bytes) : M str :=
  match utf16le_decode errors bs with
  | Some s => mret s
  | None => raise (new_exc UnicodeDecodeError [lit "utf-16-le"])
  end.

Definition VC7_subkey : str := lit "Software\Microsoft\VisualStudio\SxS\VC7".

(** [winreg.OpenKeyEx(HKEY_LOCAL_MACHINE, VC7_subkey, ...)]: the key, as the
    values it enumerates. *)
Definition OpenKeyEx (h : Host) : M (list (str * reg_data)) :=
  _ ← tell (RegOpenKey VC7_subkey);
  match reg_VC7 h with
  | Some values => mret values
  | None => raise (new_exc OSError [])
  end.

Definition glob_glob (h : Host) (pattern : str) : M (list str) :=
  _ ← tell (GlobSearch pattern);
  mret (glob h pattern).

(** [isdir(vc_dir)] on the data of a registry value of type [REG_SZ]. *)
Definition isdir_data (h : Host) (d : reg_data) : bool :=
  match d with SZ vc_dir => isdir h vc_dir | _ => false end.

Definition data_str (d : reg_data) : option str :=
  match d with SZ s => Some s | _ => None end.

(** ** Names of the module *)

(** The names bound at module level: the imports and the definitions. *)
Definition module_globals : list string :=
  ["count"; "join"; "isfile"; "isdir"; "sys"; "platform"; "subprocess";
   "distutils"; "LegacyVersion"; "get_unpatched"; "winreg"; "environ";
   "_msvc9_suppress_errors"; "Reg"; "msvc9_find_vcvarsall";
   "msvc9_query_vcvarsall"; "_msvc14_find_vc2015"; "_msvc14_find_vc2017";
   "PLAT_SPEC_TO_RUNTIME"; "_msvc14_find_vcvarsall"; "_msvc14_get_vc_env";
   "msvc14_get_vc_env"; "msvc14_gen_lib_options"; "_augment_exception"]%string.

(** Looking up a global name that is not a builtin. *)
Definition load_global (name : string) : M unit :=
  if existsb (String.eqb name) module_globals then mret tt
  else raise (new_exc NameError
                [lit "name '" ++ lit name ++ lit "' is not defined"]).

(** ** The discovery strategies *)

(** The body of the enumeration loop of [_msvc14_find_vc2015], for the values
    [EnumValue(key, i)], [EnumValue(key, i + 1)], ... still to come; the loop
    ends when [EnumValue] raises [OSError], past the last value.  The header
    of the loop, [itertools.count()], is evaluated by [_msvc14_find_vc2015]
    before this body: there it raises [NameError], so the program never
    enters the body. *)
Fixpoint enum_values (h : Host) (values : list (str * reg_data))
    (best_version : Z) (best_dir : option str) : M (Z * option str) :=
  match values with
  | [] => mret (best_version, best_dir)
  | (v, vc_dir) :: values' =>
      if truthy v && (reg_type vc_dir =? REG_SZ)%Z && isdir_data h vc_dir then
        match int_float h v with
        | Converted version =>
            if (version >=? 14)%Z && (version >? best_version)%Z
            then enum_values h values' version (data_str vc_dir)
            else enum_values h values' best_version best_dir
        | NotANumber => enum_values h values' best_version best_dir
        | Infinite => raise (new_exc OverflowError [])
        end
      else enum_values h values' best_version best_dir
  end.

Definition _msvc14_find_vc2015 (h : Host) : M (option Z * option str) :=
  key ← try_except (Some <$> OpenKeyEx h) [OSError] (fun _ => mret None);
  match key with
  | None => mret (None, None)
  | Some values =>
      _ ← load_global "itertools";
      '(best_version, best_dir) ← enum_values h values 0 None;
      mret (Some best_version, best_dir)
  end.

Definition vswhere_args (h : Host) (root : str) : command :=
  ArgList [join h root [lit "Microsoft Visual Studio"; lit "Installer";
                        lit "vswhere.exe"];
           lit "-latest";
           lit "-prerelease";
           lit "-requires";
           lit "Microsoft.VisualStudio.Component.VC.Tools.x86.x64";
           lit "-property"; lit "installationPath";
           lit "-products"; lit "*"].

Definition _msvc14_find_vc2017 (h : Host) : M (option Z * option str) :=
  match or_else (environ_get (environ h) (lit "ProgramFiles(x86)"))
                (environ_get (environ h) (lit "ProgramFiles")) with
  | None => mret (None, None)
  | Some root =>
      if negb (truthy root) then mret (None, None)
      else
        path ← try_except
                 (out ← check_output h (vswhere_args h root);
                  s ← decode_mbcs h out;
                  mret (Some (strip s)))
                 [CalledProcessError; OSError; UnicodeDecodeError]
                 (fun _ => mret None);
        match path with
        | None => mret (None, None)
        | Some path =>
            let path := join h path [lit "VC"; lit "Auxiliary"; lit "Build"] in
            if isdir h path then mret (Some 15%Z, Some path)
            else mret (None, None)
        end
  end.

Definition PLAT_SPEC_TO_RUNTIME : gmap str str :=
  dict_of [(lit "x86", lit "x86");
           (lit "x86_amd64", lit "x64");
           (lit "x86_arm", lit "arm");
           (lit "x86_arm64", lit "arm64")].

(** The runtime platform of a platform spec, as [_msvc14_find_vcvarsall]
    derives it. *)
Definition vcruntime_plat (plat_spec : str) : M str :=
  if dict_contains PLAT_SPEC_TO_RUNTIME plat_spec
  then dict_getitem PLAT_SPEC_TO_RUNTIME plat_spec
  else mret (if str_in (lit "amd64") plat_spec then lit "x64" else lit "x86").

(** A value that is a non-empty string. *)
Definition nonempty (o : option str) : option str :=
  match o with
  | Some (c :: s) => Some (c :: s)
  | _ => None
  end.

Definition _msvc14_find_vcvarsall (h : Host) (plat_spec : str)
    : M (option str * option str) :=
  '(_, best_dir) ← _msvc14_find_vc2017 h;
  vcruntime_plat ← vcruntime_plat plat_spec;
  vcruntime ←
    match nonempty best_dir with
    | Some best_dir =>
        let vcredist :=
          join h best_dir [lit ".."; lit ".."; lit "redist"; lit "MSVC";
                           lit "**"; vcruntime_plat;
                           lit "Microsoft.VC14*.CRT"; lit "vcruntime140.dll"] in
        try_except
          (matches ← glob_glob h vcredist;
           Some <$> getitem_last matches)
          [ImportError; OSError; LookupError]
          (fun _ => mret None)
    | None => mret None
    end;
  '(best_dir, vcruntime) ←
    match nonempty best_dir with
    | Some _ => mret (best_dir, vcruntime)
    | None =>
        '(best_version, best_dir) ← _msvc14_find_vc2015 h;
        if truthy_int best_version then
          match best_dir with
          | Some d =>
              mret (best_dir,
                    Some (join h d [lit "redist"; vcruntime_plat;
                                    lit "Microsoft.VC140.CRT";
                                    lit "vcruntime140.dll"]))
          | None => raise (new_exc TypeError [])
          end
        else mret (best_dir, vcruntime)
    end;
  match nonempty best_dir with
  | None => mret (None, None)
  | Some best_dir =>
      let vcvarsall := join h best_dir [lit "vcvarsall.bat"] in
      if negb (isfile h vcvarsall) then mret (None, None)
      else
        match nonempty vcruntime with
        | Some r => if isfile h r then mret (Some vcvarsall, Some r)
                    else mret (Some vcvarsall, None)
        | None => mret (Some vcvarsall, None)
        end
  end.

(** ** Synthesis of the environment *)

Definition dquote : str := [34].

(** ['cmd /u /c "{}" {} && set'.format(vcvarsall, plat_spec)] *)
Definition vcvars_cmd (vcvarsall plat_spec : str) : str :=
  lit "cmd /u /c " ++ dquote ++ vcvarsall ++ dquote ++ lit " " ++ plat_spec
  ++ lit " && set".

(** [{key.lower(): value for key, value in environ.items()}] *)
Definition lowered_environ (items : list (str * str)) : gmap str str :=
  dict_of (List.map (fun '(key, value) => (lower key, value)) items).

(** [{key.lower(): value for key, _, value in
      (line.partition('=') for line in out.splitlines()) if key and value}] *)
Definition parse_env (out : str) : gmap str str :=
  dict_of
    (List.map (fun '(key, _, value) => (lower key, value))
       (List.filter (fun '(key, _, value) => truthy key && truthy value)
          (List.map (partition (lit "=")) (splitlines out)))).

(** The text of [exc.cmd] in a message.  The handler of [_msvc14_get_vc_env]
    only sees the command line that it has run itself. *)
Definition format_cmd (c : option command) : str :=
  match c with
  | Some (CmdLine line) => line
  | Some (ArgList argv) => concat argv
  | None => []
  end.

Definition py_vcruntime_redist : str := lit "py_vcruntime_redist".

Definition _msvc14_get_vc_env (h : Host) (plat_spec : str) : M (gmap str str) :=
  if environ_contains (environ h) (lit "DISTUTILS_USE_SDK") then
    mret (lowered_environ (environ h))
  else
    '(vcvarsall, vcruntime) ← _msvc14_find_vcvarsall h plat_spec;
    match nonempty vcvarsall with
    | None =>
        raise (new_exc DistutilsPlatformError
                 [lit "Unable to find vcvarsall.bat"])
    | Some vcvarsall =>
        out ← try_except
                (out ← check_output h (CmdLine (vcvars_cmd vcvarsall plat_spec));
                 decode_utf16le replace out)
                [CalledProcessError]
                (fun exc =>
                   raise (new_exc DistutilsPlatformError
                            [lit "Error executing " ++ format_cmd (exc_cmd exc)]));
        let env := parse_env out in
        match nonempty vcruntime with
        | Some vcruntime => mret (<[py_vcruntime_redist := vcruntime]> env)
        | None => mret env
        end
    end.

(** ** Failure messages *)

(** [str(n)] for a natural number. *)
Definition str_of_N (n : N) : str := lit (NilZero.string_of_uint (N.to_uint n)).

(** ['{:0.1f}'.format(x)] for a finite float, taken as the rational it is:
    the nearest number with one decimal, a tie going to the even digit. *)
Definition format_0_1f (x : Q) : str :=
  let d := Zpos (Qden x) in
  let a := (Z.abs (Qnum x) * 10)%Z in
  let fl := (a / d)%Z in
  let r2 := (2 * (a mod d))%Z in
  let t := if (r2 <? d)%Z then fl
           else if (d <? r2)%Z then (fl + 1)%Z
           else if Z.even fl then fl else (fl + 1)%Z in
  (if (Qnum x <? 0)%Z then lit "-" else [])
  ++ str_of_N (Z.to_N (t / 10)) ++ lit "." ++ str_of_N (Z.to_N (t mod 10)).

Definition required_message (version : Q) : str :=
  lit "Microsoft Visual C++ " ++ format_0_1f version ++ lit " is required.".

Definition vcpython27_hint : str := lit " Get it from http://aka.ms/vcpython27".

Definition build_tools_hint : str :=
  lit " Get it with " ++ dquote ++ lit "Build Tools for Visual Studio" ++ dquote
  ++ lit ": https://visualstudio.microsoft.com/downloads/".

(** The message names the missing compiler. *)
Definition mentions_compiler (message : str) : bool :=
  str_in (lit "vcvarsall") (lower message)
  || str_in (lit "visual c") (lower message).

(** [_augment_exception(exc, version)]: the exception object after the call. *)
Definition _augment_exception (exc : pyexc) (version : Q) : M pyexc :=
  match exc_args exc with
  | [] => raise (new_exc IndexError [lit "tuple index out of range"])
  | message :: _ =>
      let message :=
        if mentions_compiler message then
          let message := required_message version in
          if Qeq_bool version (9 # 1) then message ++ vcpython27_hint
          else if Qle_bool (14 # 1) version then message ++ build_tools_hint
          else message
        else message in
      mret {| exc_type := exc_type exc; exc_args := [message];
              exc_cmd := exc_cmd exc |}
  end.

(** ** The patched entry points *)

Definition msvc9_query_vcvarsall (h : Host) (ver : Q) (args : list str)
    : M (gmap str str) :=
  try_except (unpatched_msvc9_query_vcvarsall h ver args)
    [DistutilsPlatformError]
    (fun exc => exc ← _augment_exception exc ver; raise exc).

Definition msvc14_get_vc_env (h : Host) (plat_spec : str) : M (gmap str str) :=
  classical ← try_except (Some <$> unpatched_msvc14_get_vc_env h plat_spec)
                [DistutilsPlatformError]
                (fun _ => mret None);
  match classical with
  | Some env => mret env
  | None =>
      try_except (_msvc14_get_vc_env h plat_spec)
        [DistutilsPlatformError]
        (fun exc => exc ← _augment_exception exc (14 # 1); raise exc)
  end.

(** ** Hosts for the examples *)

(** [os.path.join] on Windows, for relative parts added to a path that is
    not a bare drive. *)
Definition backslash_join (a : str) (parts : list str) : str :=
  foldl (fun path part =>
           match last path with
           | None => part
           | Some c => if (c =? 92) || (c =? 47) then path ++ part
                       else path ++ [92] ++ part
           end) a parts.

Definition is_digit (c : N) : bool := (48 <=? c) && (c <=? 57).

Fixpoint digits_value (acc : Z) (s : str) : Z :=
  match s with
  | [] => acc
  | c :: s' => digits_value (10 * acc + Z.of_N (c - 48)) s'
  end.

(** [int(float(v))] for the version names of the examples: up to fifteen
    ASCII digits with at most one decimal point, not first, convert to their
    integer part; [inf] is infinite; the other names used in the examples
    are not numbers. *)
Definition decimal_int_float (v : str) : conversion :=
  let '(whole, _, fraction) := partition (lit ".") v in
  if truthy whole && forallb is_digit (whole ++ fraction)
     && (length v <=? 15)%nat
  then Converted (digits_value 0 whole)
  else if bool_decide (v = lit "inf") then Infinite
  else NotANumber.

Definition byte_of_N (n : N) : byte :=
  match Byte.of_N (n mod 256) with Some b => b | None => x00 end.

(** [s.encode('utf-16le')] for code points below U+D800. *)
Definition utf16le_encode (s : str) : bytes :=
  flat_map (fun c => [byte_of_N c; byte_of_N (c / 256)]) s.

(** [s.encode('ascii')]. *)
Definition ascii_encode (s : str) : bytes := List.map byte_of_N s.

(** A code page that agrees with ASCII and has no character for the bytes
    from 128 on. *)
Definition ascii_decode (bs : bytes) : option str :=
  if forallb (fun b => Byte.to_N b <? 128) bs
  then Some (List.map Byte.to_N bs) else None.

Definition str_mem (x : str) (l : list str) : bool :=
  existsb (fun y => bool_decide (x = y)) l.

Definition DPE (message : string) : pyexc :=
  new_exc DistutilsPlatformError [lit message].

(** A host given by its environment, its registry key, its files and
    directories, the matches of any glob search, its processes and the
    outcome of distutils' own [_get_vc_env]. *)
Definition make_host (env : list (str * str))
    (vc7 : option (list (str * reg_data))) (files dirs matches : list str)
    (procs : command -> proc_result) (classical : M (gmap str str)) : Host :=
  {| environ := env;
     reg_VC7 := vc7;
     isfile := fun p => str_mem p files;
     isdir := fun p => str_mem p dirs;
     join := backslash_join;
     glob := fun _ => matches;
     run := procs;
     mbcs_decode := ascii_decode;
     int_float := decimal_int_float;
     unpatched_msvc14_get_vc_env := fun _ => classical;
     unpatched_msvc9_query_vcvarsall := fun _ _ => classical |}.

Definition no_process : command -> proc_result := fun _ => NotStarted.

(** Distutils finds no compiler. *)
Definition classical_fails : M (gmap str str) :=
  raise (DPE "Unable to find vcvarsall.bat").

(** Nothing is installed: no registry key, no installer, no files. *)
Definition bare_host : Host :=
  make_host [] None [] [] [] no_process classical_fails.

(** The registry key is there, with the given values; their data are
    directories. *)
Definition vc7_host (values : list (str * reg_data)) : Host :=
  make_host [] (Some values) []
    (omap (fun '(_, d) => data_str d) values) [] no_process classical_fails.

Definition vc7_10_bogus_14_13 : list (str * reg_data) :=
  [(lit "10", SZ (lit "C:\VS10\VC\"));
   (lit "bogus", SZ (lit "C:\bogus\VC\"));
   (lit "14", SZ (lit "C:\VS14\VC\"));
   (lit "13", SZ (lit "C:\VS13\VC\"))].

(** Visual Studio 2017 or later is installed under [C:\VS]; [vswhere.exe]
    reports it, the script is there, and the command interpreter answers with
    [dump], or cannot be started when [dump] is [None]. *)
Definition vs_root : str := lit "C:\VS".
Definition vs_build : str := lit "C:\VS\VC\Auxiliary\Build".
Definition vs_vcvarsall : str := lit "C:\VS\VC\Auxiliary\Build\vcvarsall.bat".
Definition vs_redist : str :=
  lit "C:\VS\VC\redist\MSVC\14.16.27012\x64\Microsoft.VC141.CRT\vcruntime140.dll".

Definition vs_procs (dump : option proc_result) (c : command) : proc_result :=
  match c with
  | ArgList _ => Completed 0 (ascii_encode (vs_root ++ [13; 10]))
  | CmdLine _ => match dump with Some r => r | None => NotStarted end
  end.

Definition vs_host (env : list (str * str)) (files matches : list str)
    (dump : option proc_result) : Host :=
  make_host ((lit "ProgramFiles(x86)", lit "C:\Program Files (x86)") :: env)
    None files [vs_build] matches (vs_procs dump) classical_fails.

Definition crlf : str := [13; 10].


(** ** Specification vocabulary *)

(** [sub] occurs in [s]. *)
Definition contains (sub s : str) : Prop := ∃ pre post, s = pre ++ sub ++ post.

(** The platform specs of the table. *)
Definition enumerated_specs : list str :=
  [lit "x86"; lit "x86_amd64"; lit "x86_arm"; lit "x86_arm64"].

(** The items of the comprehension in [parse_env]. *)
Definition env_items (lines : list str) : list (str * str) :=
  List.map (fun '(key, _, value) => (lower key, value))
    (List.filter (fun '(key, _, value) => truthy key && truthy value)
       (List.map (partition (lit "=")) lines)).

(** [line] is [name=value], with [name] up to the first [=] and both parts
    non-empty. *)
Definition assignment (line name value : str) : Prop :=
  line = name ++ lit "=" ++ value ∧ (61 ∉ name) ∧ name ≠ [] ∧ value ≠ [].

(** The output ["FOO=bar\nBAZ=\nQUX\n=empty\n"]. *)
Definition dump_example : str :=
  lit "FOO=bar" ++ [10] ++ lit "BAZ=" ++ [10] ++ lit "QUX" ++ [10]
  ++ lit "=empty" ++ [10].

Definition itertools_NameError : pyexc :=
  new_exc NameError [lit "name 'itertools' is not defined"].

(** The last step of [_msvc14_find_vcvarsall]: the script must be a file, and
    the redistributable is kept only when it is one. *)
Definition check_files (h : Host) (best_dir vcruntime : option str)
    : M (option str * option str) :=
  match nonempty best_dir with
  | None => mret (None, None)
  | Some best_dir =>
      let vcvarsall := join h best_dir [lit "vcvarsall.bat"] in
      if negb (isfile h vcvarsall) then mret (None, None)
      else
        match nonempty vcruntime with
        | Some r => if isfile h r then mret (Some vcvarsall, Some r)
                    else mret (Some vcvarsall, None)
        | None => mret (Some vcvarsall, None)
        end
  end.

Definition DISTUTILS_USE_SDK : str := lit "DISTUTILS_USE_SDK".

(** The environment that synthesis returns from the decoded dump [out] and
    the redistributable [r]. *)
Definition synthesized (out : str) (r : option str) : gmap str str :=
  match nonempty r with
  | Some path => <[py_vcruntime_redist := path]> (parse_env out)
  | None => parse_env out
  end.

(** Running the script: what [_msvc14_get_vc_env] does once it is found. *)
Definition run_vcvarsall (h : Host) (vcvarsall plat_spec : str) : M str :=
  try_except
    (out ← check_output h (CmdLine (vcvars_cmd vcvarsall plat_spec));
     decode_utf16le replace out)
    [CalledProcessError]
    (fun exc =>
       raise (new_exc DistutilsPlatformError
                [lit "Error executing " ++ format_cmd (exc_cmd exc)])).

(** Visual Studio is installed with its redistributable, and the script
    runs and prints [vs_out]. *)
Definition vs_out : str :=
  lit "INCLUDE=C:\VS\VC\include" ++ crlf
  ++ lit "Path=C:\VS\VC\bin;C:\Windows" ++ crlf.

Definition vs_host_complete : Host :=
  vs_host [] [vs_vcvarsall; vs_redist] [vs_redist]
    (Some (Completed 0 (utf16le_encode vs_out))).

(** The dump itself defines the variable of the redistributable. *)
Definition stale_out : str :=
  lit "PY_VCRUNTIME_REDIST=C:\gone\vcruntime140.dll" ++ crlf
  ++ lit "Path=C:\Windows" ++ crlf.

(** Visual Studio is installed without a redistributable, and the
    environment of the build already has [PY_VCRUNTIME_REDIST]. *)
Definition vs_host_stale : Host :=
  vs_host [] [vs_vcvarsall] []
    (Some (Completed 0 (utf16le_encode stale_out))).

(** Visual Studio is installed and the script is there, but the command
    interpreter cannot be started. *)
Definition vs_host_no_cmd : Host := vs_host [] [vs_vcvarsall] [] None.

(** The fallback of [msvc14_get_vc_env]: what it does once distutils' own
    function has failed with [DistutilsPlatformError]. *)
Definition fallback (h : Host) (plat_spec : str) : M (gmap str str) :=
  try_except (_msvc14_get_vc_env h plat_spec)
    [DistutilsPlatformError]
    (fun exc => exc ← _augment_exception exc (14 # 1); raise exc).

(** The marker is set, to the empty string, together with a variable
    [DUMMY]. *)
Definition sdk_environ : list (str * str) :=
  [(lit "DISTUTILS_USE_SDK", []); (lit "DUMMY", lit "value")].

(** What distutils' own [_get_vc_env], which wants the marker non-empty,
    returns after it has run the script of an installed compiler. *)
Definition classical_env : gmap str str :=
  {[ lit "path" := lit "C:\VC\bin" ]}.

Definition classical_cmd : command :=
  CmdLine (vcvars_cmd (lit "C:\VC\vcvarsall.bat") (lit "x86")).

Definition sdk_host_classical : Host :=
  make_host sdk_environ None [] [] [] no_process
    (Returns classical_env, [Spawn classical_cmd]).

(** The marker is set and distutils finds no compiler. *)
Definition sdk_host : Host :=
  make_host sdk_environ None [] [] [] no_process classical_fails.

Definition is_decimal_char (c : N) : Prop := c = 45 ∨ c = 46 ∨ 48 ≤ c ≤ 57.

(** The message mentions the script or the compiler, in any case of the
    letters. *)
Definition mentions (message : str) : Prop :=
  contains (lit "vcvarsall") (lower message)
  ∨ contains (lit "visual c") (lower message).

(** The message that replaces one that mentions the compiler. *)
Definition augmented_message (version : Q) : str :=
  required_message version
  ++ (if Qeq_bool version (9 # 1) then vcpython27_hint
      else if Qle_bool (14 # 1) version then build_tools_hint
      else []).

Definition with_message (exc : pyexc) (message : str) : pyexc :=
  {| exc_type := exc_type exc; exc_args := [message]; exc_cmd := exc_cmd exc |}.

Definition unable_to_find : str := lit "Unable to find vcvarsall.bat".

(** The message that the caller gets when no compiler is found. *)
Definition build_tools_required : str :=
  lit "Microsoft Visual C++ 14.0 is required. Get it with " ++ dquote
  ++ lit "Build Tools for Visual Studio" ++ dquote
  ++ lit ": https://visualstudio.microsoft.com/downloads/".

(** The version of a registry value that counts: its name is not empty, its
    data is a string naming a directory, and its name converts to an integer
    that is at least 14. *)
Definition candidate (h : Host) (value : str * reg_data) : option (Z * str) :=
  match value with
  | (v, SZ vc_dir) =>
      if truthy v && isdir h vc_dir then
        match int_float h v with
        | Converted version =>
            if (version >=? 14)%Z then Some (version, vc_dir) else None
        | _ => None
        end
      else None
  | _ => None
  end.

(** The running best of the enumeration: a strictly greater version
    replaces it. *)
Definition better (best : Z * option str) (c : Z * str) : Z * option str :=
  if (c.1 >? best.1)%Z then (c.1, Some c.2) else best.

(** ** Vocabulary of lower-casing *)

(** The pairs of a run of [lower_runs]. *)
Definition run_pairs (run : N * N * N * N) : list (N * N) :=
  let '(first, count, step, target) := run in
  List.map (fun i => (first + N.of_nat i * step, target + N.of_nat i * step))
    (seq 0 (N.to_nat count)).

(** Lower-casing leaves the code point as it is, wherever it stands. *)
Definition fixed_by_lower (c : N) : bool :=
  negb (c =? 304) && negb (c =? 931)
  && match lower_lookup lower_runs c with Some _ => false | None => true end.

(** A capital letter of ASCII or of Latin-1. *)
Definition capital_letter (c : N) : Prop :=
  (65 ≤ c ≤ 90) ∨ ((192 ≤ c ≤ 222) ∧ c ≠ 215).

Definition is_capital_letter (c : N) : bool :=
  ((65 <=? c) && (c <=? 90))
  || ((192 <=? c) && (c <=? 222) && negb (c =? 215)).

(** A small sigma, final or not. *)
Definition small_sigma (c : N) : Prop := c = 962 ∨ c = 963.

(** Equal code points, or two small sigmas. *)
Definition same_but_sigma (c d : N) : Prop :=
  c = d ∨ (small_sigma c ∧ small_sigma d).

(** ** The legacy compiler: Visual C++ 9.0 *)

(** What [msvc9_find_vcvarsall] reads besides the host: [Reg.get_value] of
    distutils, when the import of line 51 succeeded (its [None] is
    [KeyError]), and distutils' own [find_vcvarsall]. *)
Record Legacy := {
  Reg : option (str -> str -> option str);
  unpatched_msvc9_find_vcvarsall : Q -> M (option str)
}.

Definition Reg_NameError : pyexc :=
  new_exc NameError [lit "name 'Reg' is not defined"].

(** [Reg.get_value(key, name)]. *)
Definition Reg_get_value (l : Legacy) (key name : str) : M str :=
  match Reg l with
  | None => raise Reg_NameError
  | Some get_value =>
      _ ← tell (RegOpenKey key);
      match get_value key name with
      | Some v => mret v
      | None => raise (new_exc KeyError [name])
      end
  end.

(** [r'Software\%sMicrosoft\DevDiv\VCForPython\%0.1f' % (prefix, version)] *)
Definition vc_base (prefix : str) (version : Q) : str :=
  lit "Software\" ++ prefix ++ lit "Microsoft\DevDiv\VCForPython\"
  ++ format_0_1f version.

Definition msvc9_find_vcvarsall (h : Host) (l : Legacy) (version : Q)
    : M (option str) :=
  productdir ←
    try_except (Some <$> Reg_get_value l (vc_base [] version) (lit "installdir"))
      [KeyError]
      (fun _ =>
         try_except
           (Some <$> Reg_get_value l (vc_base (lit "Wow6432Node\") version)
                       (lit "installdir"))
           [KeyError]
           (fun _ => mret None));
  match nonempty productdir with
  | Some productdir =>
      let vcvarsall := join h productdir [lit "vcvarsall.bat"] in
      if isfile h vcvarsall then mret (Some vcvarsall)
      else unpatched_msvc9_find_vcvarsall l version
  | None => unpatched_msvc9_find_vcvarsall l version
  end.

(** ** Vocabulary of the further properties *)

(** The root that [_msvc14_find_vc2017] uses: the first of the variables
    [ProgramFiles(x86)] and [ProgramFiles] that is set and not empty. *)
Definition program_files (h : Host) : option str :=
  nonempty (or_else (environ_get (environ h) (lit "ProgramFiles(x86)"))
                    (environ_get (environ h) (lit "ProgramFiles"))).

(** Where [vswhere.exe] says the installation is, when it says so. *)
Definition vswhere_path (h : Host) (root : str) : option str :=
  match run h (vswhere_args h root) with
  | Completed rc out =>
      if (rc =? 0)%Z then
        match mbcs_decode h out with
        | Some s => Some (join h (strip s) [lit "VC"; lit "Auxiliary"; lit "Build"])
        | None => None
        end
      else None
  | NotStarted => None
  end.

(** The pattern of the search for the redistributable under [best_dir]. *)
Definition redist_pattern (h : Host) (best_dir plat : str) : str :=
  join h best_dir [lit ".."; lit ".."; lit "redist"; lit "MSVC"; lit "**";
                   plat; lit "Microsoft.VC14*.CRT"; lit "vcruntime140.dll"].

(** A path that is kept only when it is not empty and names a file. *)
Definition checked_file (h : Host) (o : option str) : option str :=
  match nonempty o with
  | Some r => if isfile h r then Some r else None
  | None => None
  end.

(** The message of a failed run of the script. *)
Definition error_executing (script plat_spec : str) : str :=
  lit "Error executing " ++ vcvars_cmd script plat_spec.

(** The command interpreter runs and exits with status 1. *)
Definition vs_host_exit1 : Host :=
  vs_host [] [vs_vcvarsall] [] (Some (Completed 1 [])).

(** The compiler for Python 2.7 is registered for the user only, for all
    users only, or not at all; distutils finds nothing. *)
Definition vcforpython_dir : str := lit "C:\VCForPython27".
Definition vcforpython_script : str := lit "C:\VCForPython27\vcvarsall.bat".

Definition legacy_of (user all_users : option str)
    (original : M (option str)) : Legacy :=
  {| Reg := Some (fun key name =>
       if bool_decide (name = lit "installdir") then
         if bool_decide (key = lit "Software\Microsoft\DevDiv\VCForPython\9.0")
         then user
         else if bool_decide
                   (key = lit "Software\Wow6432Node\Microsoft\DevDiv\VCForPython\9.0")
         then all_users
         else None
       else None);
     unpatched_msvc9_find_vcvarsall := fun _ => original |}.

Definition python27_host : Host :=
  make_host [] None [vcforpython_script] [] [] no_process classical_fails.

(** The keys that [msvc9_find_vcvarsall] reads. *)
Definition installdir : str := lit "installdir".
Definition user_key (version : Q) : str := vc_base [] version.
Definition all_users_key (version : Q) : str :=
  vc_base (lit "Wow6432Node\") version.

(** The directory that the registry gives and the keys read to get it. *)
Definition registered (get_value : str -> str -> option str) (version : Q)
    : option str :=
  match get_value (user_key version) installdir with
  | Some d => Some d
  | None => get_value (all_users_key version) installdir
  end.

Definition keys_read (get_value : str -> str -> option str) (version : Q)
    : list event :=
  RegOpenKey (user_key version)
  :: match get_value (user_key version) installdir with
     | Some _ => []
     | None => [RegOpenKey (all_users_key version)]
     end.

(** The outcome of [m] after the effects [t]. *)
Definition after {A} (t : list event) (m : M A) : M A := (m.1, t ++ m.2).

(** Distutils finds Visual Studio 2008. *)
Definition vs2008_script : str :=
  lit "C:\Program Files\Microsoft Visual Studio 9.0\VC\vcvarsall.bat".

(** * Properties *)

(** ** Strings *)

Lemma startswith_spec (p s : str) :
  startswith p s = true ↔ ∃ post, s = p ++ post.
Proof.
  revert s. induction p as [|a p IH]; intros s; simpl.
  - split; [intros _; by exists s | done].
  - destruct s as [|b s].
    + split; [done | intros [post H]; discriminate].
    + rewrite andb_true_iff, N.eqb_eq, IH. split.
      * intros [-> [post ->]]. by exists post.
      * intros [post H]. injection H as -> ->. eauto.
Qed.

Lemma str_in_spec (sub s : str) : str_in sub s = true ↔ contains sub s.
Proof.
  unfold contains. induction s as [|c s IH]; simpl.
  - rewrite orb_false_r, startswith_spec. split.
    + intros [post H]. by exists [], post.
    + intros (pre & post & H). destruct pre; [by exists post | discriminate].
  - rewrite orb_true_iff, startswith_spec, IH. split.
    + intros [[post H] | (pre & post & H)].
      * by exists [], post.
      * exists (c :: pre), post. by rewrite H.
    + intros (pre & post & H). destruct pre as [|c' pre].
      * left. by exists post.
      * right. injection H as -> ->. eauto.
Qed.

Lemma str_in_false (sub s : str) : str_in sub s = false ↔ ¬ contains sub s.
Proof.
  rewrite <- str_in_spec. destruct (str_in sub s); intuition congruence.
Qed.

(** ** The runtime platform of a platform spec *)

Lemma PLAT_SPEC_TO_RUNTIME_lookup (s : str) :
  PLAT_SPEC_TO_RUNTIME !! s =
    if decide (s = lit "x86_arm64") then Some (lit "arm64")
    else if decide (s = lit "x86_arm") then Some (lit "arm")
    else if decide (s = lit "x86_amd64") then Some (lit "x64")
    else if decide (s = lit "x86") then Some (lit "x86")
    else None.
Proof.
  unfold PLAT_SPEC_TO_RUNTIME, dict_of. cbn [foldl fst snd].
  repeat (rewrite lookup_insert; case_decide; [subst; by rewrite decide_True|];
          rewrite decide_False by done).
  apply lookup_empty.
Qed.

Lemma vcruntime_plat_outside (s : str) :
  s ∉ enumerated_specs →
  vcruntime_plat s =
    mret (if str_in (lit "amd64") s then lit "x64" else lit "x86").
Proof.
  intros Hs. unfold vcruntime_plat, dict_contains.
  rewrite PLAT_SPEC_TO_RUNTIME_lookup.
  repeat (case_decide;
          [exfalso; apply Hs; subst; unfold enumerated_specs; set_solver|]).
  done.
Qed.

(** C1: the runtime platform is the table's value for the four enumerated
    specs; for any other string it is x64 exactly when the string contains
    amd64, and x86 otherwise; and the derivation returns for every string. *)
Theorem runtime_platform_derivation :
  (vcruntime_plat (lit "x86") = mret (lit "x86")
   ∧ vcruntime_plat (lit "x86_amd64") = mret (lit "x64")
   ∧ vcruntime_plat (lit "x86_arm") = mret (lit "arm")
   ∧ vcruntime_plat (lit "x86_arm64") = mret (lit "arm64"))
  ∧ (∀ s : str, s ∉ enumerated_specs →
       (vcruntime_plat s = mret (lit "x64") ↔ contains (lit "amd64") s)
       ∧ (vcruntime_plat s = mret (lit "x86") ↔ ¬ contains (lit "amd64") s))
  ∧ (∀ s : str, ∃ r : str, vcruntime_plat s = (Returns r, [])).
Proof.
  split; [by repeat split|]. split.
  - intros s Hs. rewrite (vcruntime_plat_outside s Hs).
    rewrite <- str_in_false, <- str_in_spec.
    destruct (str_in (lit "amd64") s); split; split; try done;
      intros H; by vm_compute in H.
  - intros s. unfold vcruntime_plat, dict_contains, dict_getitem.
    destruct (PLAT_SPEC_TO_RUNTIME !! s) as [r|]; eauto.
Qed.

Lemma runtime_platform_derivation_witness :
  vcruntime_plat (lit "foo_amd64_bar") = mret (lit "x64")
  ∧ vcruntime_plat (lit "foo") = mret (lit "x86").
Proof.
  assert (H1 : lit "foo_amd64_bar" ∉ enumerated_specs).
  { intros H. apply list_elem_of_In in H. vm_compute in H.
    repeat destruct H as [H|H]; try discriminate H. done. }
  assert (H2 : lit "foo" ∉ enumerated_specs).
  { intros H. apply list_elem_of_In in H. vm_compute in H.
    repeat destruct H as [H|H]; try discriminate H. done. }
  split.
  - apply (proj1 (proj2 runtime_platform_derivation) _ H1).
    by exists (lit "foo_"), (lit "_bar").
  - apply (proj1 (proj2 runtime_platform_derivation) _ H2).
    apply str_in_false. reflexivity.
Defined.

(** ** Lower-casing *)

Lemma lower_lookup_In (runs : list (N * N * N * N)) (c l : N) :
  lower_lookup runs c = Some l → In (c, l) (flat_map run_pairs runs).
Proof.
  induction runs as [|[[[first count] step] target] runs IH]; [done|].
  cbn [lower_lookup flat_map]. intros H. apply in_app_iff.
  destruct ((first <=? c) && (c <? first + count * step)
            && ((c - first) mod step =? 0)) eqn:Hin; [|right; by apply IH].
  injection H as <-. left.
  apply andb_true_iff in Hin as [[Hf Hl]%andb_true_iff Hm].
  apply N.leb_le in Hf. apply N.ltb_lt in Hl. apply N.eqb_eq in Hm.
  assert (Hstep : step ≠ 0) by (intros ->; lia).
  pose proof (N.div_mod (c - first) step Hstep) as Hdiv. rewrite Hm in Hdiv.
  unfold run_pairs. apply in_map_iff.
  exists (N.to_nat ((c - first) / step)). rewrite N2Nat.id. split.
  - f_equal; lia.
  - apply in_seq. split; [lia|].
    assert ((c - first) / step < count); [|lia].
    apply N.Div0.div_lt_upper_bound. lia.
Qed.

Lemma lower_targets_fixed :
  forallb (fun p => fixed_by_lower p.2) (flat_map run_pairs lower_runs) = true.
Proof. vm_compute. reflexivity. Qed.

Lemma handle_capital_sigma_small (before after : str) :
  small_sigma (handle_capital_sigma before after).
Proof.
  unfold handle_capital_sigma, small_sigma. cbv zeta.
  destruct (match first_not_ignorable before with Some _ => _ | None => _ end);
    auto.
Qed.

Lemma lower_ucs4_fixed (before after : str) (c d : N) :
  In d (lower_ucs4 before c after) → fixed_by_lower d = true.
Proof.
  unfold lower_ucs4, to_lower_full. destruct (c =? 931).
  { intros [<- | []].
    by destruct (handle_capital_sigma_small before after) as [-> | ->]. }
  destruct (N.eqb_spec c 304) as [->|Hc]; [by intros [<- | [<- | []]]|].
  destruct (lower_lookup lower_runs c) as [l|] eqn:Hl; intros [<- | []].
  - apply lower_lookup_In in Hl.
    by apply (proj1 (forallb_forall _ _) lower_targets_fixed (c, l)).
  - unfold fixed_by_lower. rewrite Hl.
    destruct (N.eqb_spec c 304); [done|].
    destruct (N.eqb_spec c 931) as [->|]; [done|done].
Qed.

Lemma fixed_lower_ucs4 (before after : str) (d : N) :
  fixed_by_lower d = true → lower_ucs4 before d after = [d].
Proof.
  unfold fixed_by_lower, lower_ucs4, to_lower_full.
  destruct (d =? 304), (d =? 931); try done.
  by destruct (lower_lookup lower_runs d).
Qed.

Lemma do_lower_image (before s : str) :
  Forall (fun d => fixed_by_lower d = true) (do_lower before s).
Proof.
  revert before. induction s as [|c s IH]; intros before; [constructor|].
  cbn [do_lower]. apply Forall_app. split; [|apply IH].
  apply List.Forall_forall. intros d. apply lower_ucs4_fixed.
Qed.

Lemma do_lower_fixed (before s : str) :
  Forall (fun d => fixed_by_lower d = true) s → do_lower before s = s.
Proof.
  intros H. revert before. induction H as [|d s Hd _ IH]; intros before;
    [done|].
  cbn [do_lower]. by rewrite (fixed_lower_ucs4 _ _ _ Hd), IH.
Qed.

(** Lower-casing a lower-cased string changes nothing. *)
Lemma lower_idem (s : str) : lower (lower s) = lower s.
Proof. apply do_lower_fixed, do_lower_image. Qed.

Lemma lower_ucs4_nonempty (before after : str) (c : N) :
  lower_ucs4 before c after ≠ [].
Proof.
  unfold lower_ucs4, to_lower_full. destruct (c =? 931); [done|].
  destruct (c =? 304); [done|]. by destruct (lower_lookup lower_runs c).
Qed.

Lemma lower_nonempty (s : str) : s ≠ [] → lower s ≠ [].
Proof.
  destruct s as [|c s]; [done|]. intros _. unfold lower. cbn [do_lower].
  intros [H _]%app_eq_nil. by apply lower_ucs4_nonempty in H.
Qed.

Lemma forallb_below (P : N → bool) (bound : nat) :
  forallb P (List.map N.of_nat (seq 0 bound)) = true →
  ∀ c, c < N.of_nat bound → P c = true.
Proof.
  intros H c Hc. apply (proj1 (forallb_forall _ _) H).
  apply in_map_iff. exists (N.to_nat c). rewrite N2Nat.id. split; [done|].
  apply in_seq. lia.
Qed.

Lemma is_capital_letter_spec (c : N) :
  is_capital_letter c = true ↔ capital_letter c.
Proof.
  unfold is_capital_letter, capital_letter.
  rewrite orb_true_iff, !andb_true_iff, negb_true_iff, !N.leb_le, N.eqb_neq.
  tauto.
Qed.

Lemma fixed_not_capital (d : N) :
  fixed_by_lower d = true → ¬ capital_letter d.
Proof.
  intros Hd Hc.
  assert (Hb : d < N.of_nat 223) by (destruct Hc as [?|[? _]]; lia).
  apply is_capital_letter_spec in Hc.
  pose proof (forallb_below
                (fun c => negb (fixed_by_lower c && is_capital_letter c)) 223
                ltac:(vm_compute; reflexivity) d Hb) as H.
  cbv beta in H. by rewrite Hd, Hc in H.
Qed.

(** No capital letter of ASCII or Latin-1 is left in a lower-cased string. *)
Lemma lower_no_capital (s : str) (d : N) :
  In d (lower s) → ¬ capital_letter d.
Proof.
  intros H. apply fixed_not_capital.
  by apply (proj1 (List.Forall_forall _ _) (do_lower_image [] s)).
Qed.

(** The text around a string changes its lower-casing at most by the form of
    its sigmas. *)
Lemma lower_ucs4_same (before before' after after' : str) (c : N) :
  Forall2 same_but_sigma (lower_ucs4 before c after)
    (lower_ucs4 before' c after').
Proof.
  unfold lower_ucs4. destruct (c =? 931).
  - constructor; [|constructor]. right.
    split; apply handle_capital_sigma_small.
  - apply Forall_Forall2_diag, List.Forall_forall. intros d _. by left.
Qed.

Lemma do_lower_app (before before' s after : str) :
  ∃ x, do_lower before (s ++ after)
       = x ++ do_lower (rev s ++ before) after
       ∧ Forall2 same_but_sigma x (do_lower before' s).
Proof.
  revert before before'. induction s as [|c s IH]; intros before before'.
  - exists []. split; [done|constructor].
  - destruct (IH (c :: before) (c :: before')) as (x & Hx & Hsame).
    exists (lower_ucs4 before c (s ++ after) ++ x). split.
    + cbn [app do_lower rev]. rewrite Hx, <- !app_assoc. done.
    + cbn [do_lower]. apply Forall2_app; [apply lower_ucs4_same | done].
Qed.

Lemma same_but_sigma_eq (x sub : str) :
  Forall2 same_but_sigma x sub → (∀ c, In c sub → ¬ small_sigma c) → x = sub.
Proof.
  induction 1 as [|c d x sub Hcd _ IH]; intros Hsub; [done|].
  f_equal.
  - destruct Hcd as [-> | [_ Hd]]; [done|].
    destruct (Hsub d (or_introl eq_refl) Hd).
  - apply IH. intros e He. apply Hsub. by right.
Qed.

Lemma not_In_small_sigma (sub : str) :
  forallb (fun c => negb ((c =? 962) || (c =? 963))) sub = true →
  ∀ c, In c sub → ¬ small_sigma c.
Proof.
  intros H c Hc [-> | ->];
    by apply (proj1 (forallb_forall _ _) H) in Hc.
Qed.

Lemma contains_lower_within (sub a s b : str) :
  (∀ c, In c sub → ¬ small_sigma c) →
  contains sub (lower s) → contains sub (lower (a ++ s ++ b)).
Proof.
  intros Hsub (pre & post & Hs). unfold lower.
  destruct (do_lower_app [] [] a (s ++ b)) as (xa & -> & _).
  destruct (do_lower_app (rev a ++ []) [] s b) as (xs & -> & Hsame).
  fold (lower s) in Hsame. rewrite Hs in Hsame.
  apply Forall2_app_inv_r in Hsame as (x1 & x23 & _ & Hsame & ->).
  apply Forall2_app_inv_r in Hsame as (x2 & x3 & Hsame & _ & ->).
  apply same_but_sigma_eq in Hsame as ->; [|done].
  exists (xa ++ x1), (x3 ++ do_lower (rev s ++ rev a ++ []) b).
  by rewrite <- !app_assoc.
Qed.

(** Lower-casing as Python does it, on a Greek word, on the capital I with
    a dot above, and on letters of Latin-1 and beyond. *)
Example lower_examples :
  lower [927; 916; 927; 931] = [959; 948; 959; 962]
  ∧ lower [931; 927; 934; 927; 931; 46] = [963; 959; 966; 959; 962; 46]
  ∧ lower [304; 73] = [105; 775; 105]
  ∧ lower [201; 215; 7838; 1046] = [233; 215; 223; 1078]
  ∧ lower (lit "INCLUDE") = lit "include".
Proof. repeat split; vm_compute; reflexivity. Qed.

Lemma truthy_true (s : str) : truthy s = true ↔ s ≠ [].
Proof. destruct s; simpl; split; congruence. Qed.

(** The separator of [partition] in the parser. *)
Lemma lit_equals : lit "=" = [61].
Proof. reflexivity. Qed.

(** The three parts that [partition] returns for the separator [=]. *)
Lemma partition_equals_inv (line key m value : str) :
  partition [61] line = (key, m, value) →
  (61 ∉ key)
  ∧ ((m = [61] ∧ line = key ++ [61] ++ value)
     ∨ (m = [] ∧ value = [] ∧ line = key)).
Proof.
  revert key m value. induction line as [|c line IH]; intros key m value.
  - simpl. intros [= <- <- <-]. split; [set_solver | by right].
  - cbn [partition startswith length drop]. rewrite andb_true_r.
    destruct (N.eqb_spec 61 c) as [<- | Hc].
    + intros [= <- <- <-]. split; [set_solver | by left].
    + destruct (partition [61] line) as [[a m'] b] eqn:Hp.
      intros Heq. injection Heq as Hkey Hm Hvalue.
      destruct (IH _ _ _ eq_refl) as [Ha Hline]. clear IH.
      subst key m value. split; [apply not_elem_of_cons; by split|].
      destruct Hline as [[Hm Hl] | (Hm & Hv & Hl)]; subst; [by left | by right].
Qed.

Lemma partition_equals_found (name value : str) :
  61 ∉ name → partition [61] (name ++ [61] ++ value) = (name, [61], value).
Proof.
  induction name as [|c name IH]; intros Hn; [done|].
  cbn [app partition startswith length drop]. rewrite andb_true_r.
  destruct (N.eqb_spec 61 c) as [<- | Hc]; [set_solver|].
  change (name ++ 61 :: value) with (name ++ [61] ++ value).
  rewrite IH; [done | set_solver].
Qed.

(** ** Dictionaries built from items *)

Lemma dict_of_snoc (items : list (str * str)) (k v : str) :
  dict_of (items ++ [(k, v)]) = <[k := v]> (dict_of items).
Proof. unfold dict_of. by rewrite foldl_app. Qed.

Lemma dict_of_lookup_Some (items : list (str * str)) (k v : str) :
  dict_of items !! k = Some v → In (k, v) items.
Proof.
  induction items as [|[k' v'] items IH] using rev_ind; [done|].
  rewrite dict_of_snoc, lookup_insert, in_app_iff. case_decide.
  - intros [= <-]. subst. right. by left.
  - auto.
Qed.

Lemma dict_of_lookup_last (before after : list (str * str)) (k v : str) :
  (∀ v', ¬ In (k, v') after) →
  dict_of (before ++ (k, v) :: after) !! k = Some v.
Proof.
  induction after as [|[k' v'] after IH] using rev_ind; intros Hafter.
  - by rewrite dict_of_snoc, lookup_insert_eq.
  - change (before ++ (k, v) :: after ++ [(k', v')])
      with (before ++ ((k, v) :: after) ++ [(k', v')]).
    rewrite app_assoc, dict_of_snoc, lookup_insert_ne.
    + apply IH. intros v0 H. apply (Hafter v0), in_app_iff. by left.
    + intros ->. apply (Hafter v'), in_app_iff. right. by left.
Qed.

Lemma dict_of_lookup_is_Some (items : list (str * str)) (k v : str) :
  In (k, v) items → is_Some (dict_of items !! k).
Proof.
  induction items as [|[k' v'] items IH] using rev_ind; [done|].
  rewrite dict_of_snoc, lookup_insert, in_app_iff. case_decide; [eauto|].
  intros [H'|[[= -> ->]|[]]]; [auto | done].
Qed.

(** ** Parsing the dump of the environment *)

Lemma parse_env_items (out : str) :
  parse_env out = dict_of (env_items (splitlines out)).
Proof. reflexivity. Qed.

Lemma env_items_app (l1 l2 : list str) :
  env_items (l1 ++ l2) = env_items l1 ++ env_items l2.
Proof.
  unfold env_items. by rewrite List.map_app, List.filter_app, List.map_app.
Qed.

Lemma env_items_In (lines : list str) (k v : str) :
  In (k, v) (env_items lines) ↔
  ∃ line key m, In line lines ∧ partition [61] line = (key, m, v)
                ∧ key ≠ [] ∧ v ≠ [] ∧ k = lower key.
Proof.
  unfold env_items. rewrite in_map_iff. split.
  - intros ([[key m] value] & [= <- <-] & H).
    apply filter_In in H as [H Ht]. apply in_map_iff in H as (line & Hp & Hl).
    apply andb_true_iff in Ht as [Hk Hv].
    exists line, key, m. rewrite <- !truthy_true. by rewrite <- lit_equals.
  - intros (line & key & m & Hl & Hp & Hk & Hv & ->).
    exists (key, m, v). split; [done|]. apply filter_In. split.
    + apply in_map_iff. exists line. by rewrite lit_equals.
    + apply andb_true_iff. by rewrite !truthy_true.
Qed.

Lemma env_items_assignment (line name value : str) :
  assignment line name value → env_items [line] = [(lower name, value)].
Proof.
  intros (-> & Hn & Hname & Hvalue). unfold env_items. cbn [List.map].
  rewrite lit_equals, partition_equals_found by done. cbn [List.filter].
  apply truthy_true in Hname, Hvalue. by rewrite Hname, Hvalue.
Qed.

Lemma env_items_In_assignment (lines : list str) (k v : str) :
  In (k, v) (env_items lines) ↔
  ∃ line name, In line lines ∧ assignment line name v ∧ k = lower name.
Proof.
  rewrite env_items_In. split.
  - intros (line & key & m & Hl & Hp & Hk & Hv & ->).
    exists line, key. split; [done|]. split; [|done].
    apply partition_equals_inv in Hp as [Hkey [[_ ->] | (_ & -> & _)]]; done.
  - intros (line & name & Hl & (-> & Hn & Hname & Hv) & ->).
    exists (name ++ lit "=" ++ v), name, [61]. rewrite lit_equals.
    by rewrite partition_equals_found.
Qed.

Lemma parse_env_sound (out k v : str) :
  parse_env out !! k = Some v →
  ∃ line name, In line (splitlines out) ∧ assignment line name v
               ∧ k = lower name.
Proof.
  rewrite parse_env_items. intros H.
  by apply env_items_In_assignment, dict_of_lookup_Some.
Qed.

Lemma parse_env_complete (out line name value : str) :
  In line (splitlines out) → assignment line name value →
  is_Some (parse_env out !! lower name).
Proof.
  intros Hl Ha. rewrite parse_env_items.
  apply (dict_of_lookup_is_Some _ _ value), env_items_In_assignment; eauto.
Qed.

Lemma parse_env_last_wins (out : str) (before after : list str)
    (line name value : str) :
  splitlines out = before ++ line :: after →
  assignment line name value →
  (∀ line' name' value', In line' after → assignment line' name' value' →
                         lower name' ≠ lower name) →
  parse_env out !! lower name = Some value.
Proof.
  intros Hout Ha Hafter. rewrite parse_env_items, Hout.
  change (line :: after) with ([line] ++ after).
  rewrite !env_items_app, (env_items_assignment _ _ _ Ha).
  apply dict_of_lookup_last. intros v' Hin.
  apply env_items_In_assignment in Hin as (line' & name' & Hl' & Ha' & Heq).
  by apply (Hafter line' name' v').
Qed.

Lemma env_items_dropped (line : str) :
  (∀ name value, ¬ assignment line name value) → env_items [line] = [].
Proof.
  intros Hno. destruct (env_items [line]) as [|[k v] items] eqn:Hi; [done|].
  assert (Hin : In (k, v) (env_items [line])) by (rewrite Hi; by left).
  apply env_items_In_assignment in Hin as (l & name & [<-|[]] & Ha & _).
  by destruct (Hno name v).
Qed.

(** C6: the parser of the environment dump keeps exactly the lines
    [NAME=VALUE] with both parts non-empty, under the lower-cased name (every
    binding comes from such a line, every such line binds its name, the last
    line of a name gives its value, and any other line contributes nothing),
    and the output FOO=bar / BAZ= / QUX / =empty parses to exactly
    [{foo: bar}]. *)
Theorem parse_env_keeps_assignments :
  (∀ out k v : str,
     parse_env out !! k = Some v →
     ∃ line name, In line (splitlines out) ∧ assignment line name v
                  ∧ k = lower name)
  ∧ (∀ out line name value : str,
       In line (splitlines out) → assignment line name value →
       is_Some (parse_env out !! lower name))
  ∧ (∀ (out : str) (before after : list str) (line name value : str),
       splitlines out = before ++ line :: after →
       assignment line name value →
       (∀ line' name' value', In line' after → assignment line' name' value' →
                              lower name' ≠ lower name) →
       parse_env out !! lower name = Some value)
  ∧ (∀ line : str,
       (∀ name value, ¬ assignment line name value) → env_items [line] = [])
  ∧ parse_env dump_example = {[ lit "foo" := lit "bar" ]}.
Proof.
  split; [exact parse_env_sound|]. split; [exact parse_env_complete|].
  split; [exact parse_env_last_wins|]. split; [exact env_items_dropped|].
  by vm_compute.
Qed.

Lemma parse_env_keeps_assignments_witness :
  (∃ line name, In line (splitlines dump_example)
                ∧ assignment line name (lit "bar") ∧ lit "foo" = lower name)
  ∧ is_Some (parse_env dump_example !! lower (lit "FOO")).
Proof.
  split.
  - apply (proj1 parse_env_keeps_assignments dump_example (lit "foo")
             (lit "bar")).
    by vm_compute.
  - apply (proj1 (proj2 parse_env_keeps_assignments) dump_example
             (lit "FOO=bar") (lit "FOO") (lit "bar")).
    + by left.
    + repeat split; [|done|done]. change (lit "FOO") with [70; 79; 79].
      rewrite !not_elem_of_cons. repeat split; try done. apply not_elem_of_nil.
Defined.

(** ** The monad of calls *)

Lemma bind_Returns_inv {A B} (m : M A) (f : A → M B) (b : B) (t : list event) :
  m ≫= f = (Returns b, t) →
  ∃ a t1 t2, m = (Returns a, t1) ∧ f a = (Returns b, t2) ∧ t = t1 ++ t2.
Proof.
  unfold mbind, M_bind. destruct m as [[a|e] t1]; [|done].
  destruct (f a) as [r t2] eqn:Hf. intros [= -> <-]. eauto 6.
Qed.

Lemma bind_Raises_inv {A B} (m : M A) (f : A → M B) (e : pyexc)
    (t : list event) :
  m ≫= f = (Raises e, t) →
  m = (Raises e, t)
  ∨ ∃ a t1 t2, m = (Returns a, t1) ∧ f a = (Raises e, t2) ∧ t = t1 ++ t2.
Proof.
  unfold mbind, M_bind. destruct m as [[a|e'] t1].
  - destruct (f a) as [r t2] eqn:Hf. intros [= -> <-]. right. eauto 6.
  - intros [= -> ->]. by left.
Qed.

Lemma try_except_Returns_inv {A} (body : M A) (classes : list exc_class)
    (handler : pyexc → M A) (a : A) (t : list event) :
  try_except body classes handler = (Returns a, t) →
  body = (Returns a, t)
  ∨ ∃ e t1 t2, body = (Raises e, t1) ∧ caught classes e = true
               ∧ handler e = (Returns a, t2) ∧ t = t1 ++ t2.
Proof.
  unfold try_except. destruct body as [[a'|e] t1]; [by left|].
  destruct (caught classes e) eqn:Hc; [|done].
  destruct (handler e) as [r t2] eqn:Hh. intros [= -> <-]. right. eauto 8.
Qed.

Lemma try_except_Raises_inv {A} (body : M A) (classes : list exc_class)
    (handler : pyexc → M A) (e : pyexc) (t : list event) :
  try_except body classes handler = (Raises e, t) →
  (body = (Raises e, t) ∧ caught classes e = false)
  ∨ ∃ e' t1 t2, body = (Raises e', t1) ∧ caught classes e' = true
                ∧ handler e' = (Raises e, t2) ∧ t = t1 ++ t2.
Proof.
  unfold try_except. destruct body as [[a'|e'] t1]; [done|].
  destruct (caught classes e') eqn:Hc.
  - destruct (handler e') as [r t2] eqn:Hh. intros [= -> <-]. right. eauto 8.
  - intros [= -> ->]. by left.
Qed.

(** ** Decoding the dump *)

Lemma utf16le_decode_replace_length (n : nat) (bs : bytes) :
  (length bs ≤ n)%nat → is_Some (utf16le_decode replace bs).
Proof.
  revert bs. induction n as [n IH] using lt_wf_ind. intros bs Hn.
  destruct bs as [|b0 [|b1 tl]]; [by eexists | by eexists |].
  assert (Htl : is_Some (utf16le_decode replace tl)).
  { apply (IH (length tl)); simpl in *; lia. }
  cbn [utf16le_decode]. cbv zeta.
  destruct (negb (is_surrogate (code_unit b0 b1))).
  { destruct Htl as [s ->]. by eexists. }
  destruct (negb (is_high_surrogate (code_unit b0 b1))).
  { destruct Htl as [s ->]. by eexists. }
  destruct tl as [|b2 [|b3 rest]]; [by eexists | by eexists |].
  destruct (is_low_surrogate (code_unit b2 b3)).
  - assert (Hrest : is_Some (utf16le_decode replace rest)).
    { apply (IH (length rest)); simpl in *; lia. }
    destruct Hrest as [s ->]. by eexists.
  - destruct Htl as [s Hs]. unfold on_decode_error. rewrite Hs. by eexists.
Qed.

Lemma utf16le_decode_replace_total (bs : bytes) :
  ∃ s : str, utf16le_decode replace bs = Some s.
Proof. apply (utf16le_decode_replace_length (length bs)). lia. Qed.

Lemma decode_utf16le_replace_returns (bs : bytes) :
  ∃ s : str, decode_utf16le replace bs = (Returns s, []).
Proof.
  unfold decode_utf16le. destruct (utf16le_decode_replace_total bs) as [s ->].
  by exists s.
Qed.

Example utf16le_strict_truncated : utf16le_decode strict [x41; x00; x42] = None.
Proof. reflexivity. Qed.

Example utf16le_replace_truncated :
  utf16le_decode replace [x41; x00; x42] = Some [65; REPLACEMENT_CHARACTER].
Proof. reflexivity. Qed.

Example utf16le_replace_lone_surrogates :
  utf16le_decode replace [x00; xdc; x41; x00; x00; xd8; x42; x00; x3d; xd8]
  = Some [REPLACEMENT_CHARACTER; 65; REPLACEMENT_CHARACTER; 66;
          REPLACEMENT_CHARACTER].
Proof. reflexivity. Qed.

Example utf16le_surrogate_pair :
  utf16le_decode strict [x3d; xd8; x00; xde] = Some [128512].
Proof. reflexivity. Qed.

Lemma byte_of_N_to_N (n : N) : Byte.to_N (byte_of_N n) = n mod 256.
Proof.
  unfold byte_of_N. destruct (Byte.of_N (n mod 256)) as [b|] eqn:Hb.
  - by apply Byte.to_of_N.
  - apply Byte.of_N_None_iff in Hb.
    pose proof (N.mod_upper_bound n 256). lia.
Qed.

Lemma code_unit_encode (c : N) :
  c < 65536 → code_unit (byte_of_N c) (byte_of_N (c / 256)) = c.
Proof.
  intros Hc. unfold code_unit. rewrite !byte_of_N_to_N.
  rewrite (N.mod_small (c / 256)).
  - rewrite N.add_comm. symmetry. apply N.div_mod. lia.
  - apply N.Div0.div_lt_upper_bound. lia.
Qed.

(** Text outside the surrogates decodes to itself, whatever the error
    handler. *)
Lemma utf16le_decode_encode (errors : errors_mode) (s : str) :
  Forall (fun c => c < 55296) s →
  utf16le_decode errors (utf16le_encode s) = Some s.
Proof.
  induction 1 as [|c s Hc Hs IH]; [done|].
  cbn [utf16le_encode flat_map app utf16le_decode]. cbv zeta.
  rewrite code_unit_encode by lia. fold (utf16le_encode s). rewrite IH.
  unfold is_surrogate. destruct (N.leb_spec 55296 c); [lia | done].
Qed.

(** ** The discovery strategies *)

(** What [_msvc14_find_vc2015] does: nothing is found when the key cannot be
    opened, and the name [itertools] is looked up, in vain, when it can. *)
Lemma find_vc2015_outcome (h : Host) :
  _msvc14_find_vc2015 h =
    match reg_VC7 h with
    | None => (Returns (None, None), [RegOpenKey VC7_subkey])
    | Some _ => (Raises itertools_NameError, [RegOpenKey VC7_subkey])
    end.
Proof.
  unfold _msvc14_find_vc2015, OpenKeyEx. by destruct (reg_VC7 h).
Qed.

(** [_msvc14_find_vc2017] returns, with version 15 and an existing directory
    or with nothing. *)
Lemma find_vc2017_returns (h : Host) :
  ∃ r t, _msvc14_find_vc2017 h = (Returns r, t)
         ∧ (r = (None, None)
            ∨ ∃ path, r = (Some 15%Z, Some path) ∧ isdir h path = true).
Proof.
  unfold _msvc14_find_vc2017.
  destruct (or_else _ _) as [root|]; [|by eauto].
  destruct (truthy root); simpl; [|by eauto].
  unfold check_output, decode_mbcs.
  destruct (run h _) as [rc out|]; simpl; [|by eauto].
  destruct (rc =? 0)%Z; simpl; [|by eauto].
  destruct (mbcs_decode h out) as [s|]; simpl; [|by eauto].
  destruct (isdir h _) eqn:Hd; eauto 7.
Qed.

(** The runtime platform is always derived. *)
Lemma vcruntime_plat_returns (s : str) :
  ∃ r : str, vcruntime_plat s = (Returns r, []).
Proof.
  unfold vcruntime_plat, dict_contains, dict_getitem.
  destruct (PLAT_SPEC_TO_RUNTIME !! s) as [r|]; eauto.
Qed.

Lemma nonempty_Some (o : option str) (s : str) :
  nonempty o = Some s → o = Some s ∧ s ≠ [].
Proof. destruct o as [[|c s']|]; simpl; by intros [= <-]. Qed.

(** The search of the redistributable by [glob] never raises. *)
Lemma glob_search_returns (h : Host) (pattern : str) :
  ∃ r t,
    try_except (matches ← glob_glob h pattern; Some <$> getitem_last matches)
      [ImportError; OSError; LookupError] (fun _ => mret None)
    = (Returns r, t).
Proof.
  unfold glob_glob, getitem_last. simpl.
  destruct (last (glob h pattern)); simpl; eauto.
Qed.

Lemma check_files_inv (h : Host) (best_dir vcruntime vcvarsall r : option str)
    (t : list event) :
  check_files h best_dir vcruntime = (Returns (vcvarsall, r), t) →
  t = []
  ∧ ((vcvarsall = None ∧ r = None)
     ∨ ∃ script, vcvarsall = Some script ∧ isfile h script = true
                 ∧ (r = None
                    ∨ ∃ path, r = Some path ∧ path ≠ []
                              ∧ isfile h path = true)).
Proof.
  unfold check_files. destruct (nonempty best_dir) as [d|].
  2:{ intros [= <- <- <-]. auto. }
  destruct (isfile h (join h d _)) eqn:Hs; simpl.
  2:{ intros [= <- <- <-]. auto. }
  destruct (nonempty vcruntime) as [path|] eqn:Hr.
  2:{ intros [= <- <- <-]. eauto 8. }
  apply nonempty_Some in Hr as [_ Hpath].
  destruct (isfile h path) eqn:Hp; intros [= <- <- <-]; eauto 12.
Qed.

Lemma find_vcvarsall_check_files (h : Host) (plat_spec : str)
    (r : option str * option str) (t : list event) :
  _msvc14_find_vcvarsall h plat_spec = (Returns r, t) →
  ∃ best_dir vcruntime, check_files h best_dir vcruntime = (Returns r, []).
Proof.
  unfold _msvc14_find_vcvarsall. intros H.
  apply bind_Returns_inv in H as ([v bd] & t1 & t2 & _ & H & ->).
  apply bind_Returns_inv in H as (plat & t3 & t4 & _ & H & ->).
  apply bind_Returns_inv in H as (vcr & t5 & t6 & _ & H & ->).
  apply bind_Returns_inv in H as ([bd' vcr'] & t7 & t8 & _ & H & ->).
  fold (check_files h bd' vcr') in H. destruct r as [s r].
  destruct (check_files_inv _ _ _ _ _ _ H) as [-> _]. eauto.
Qed.

(** What [_msvc14_find_vcvarsall] returns: nothing, or a script that is a
    file together with no redistributable or one that is a file. *)
Lemma find_vcvarsall_Returns_inv (h : Host) (plat_spec : str)
    (vcvarsall r : option str) (t : list event) :
  _msvc14_find_vcvarsall h plat_spec = (Returns (vcvarsall, r), t) →
  (vcvarsall = None ∧ r = None)
  ∨ ∃ script, vcvarsall = Some script ∧ isfile h script = true
              ∧ (r = None
                 ∨ ∃ path, r = Some path ∧ path ≠ [] ∧ isfile h path = true).
Proof.
  intros H. apply find_vcvarsall_check_files in H as (bd & vcr & H).
  by apply check_files_inv in H as [_ H].
Qed.

Lemma check_files_returns (h : Host) (best_dir vcruntime : option str) :
  ∃ r, check_files h best_dir vcruntime = (Returns r, []).
Proof.
  unfold check_files. destruct (nonempty best_dir); [|by eauto].
  destruct (negb _); [by eauto|].
  destruct (nonempty vcruntime); [destruct (isfile h _)|]; by eauto.
Qed.

(** [_msvc14_find_vcvarsall] raises only when the registry key opens: the
    exception is the [NameError] of [_msvc14_find_vc2015]. *)
Lemma find_vcvarsall_Raises_inv (h : Host) (plat_spec : str) (e : pyexc)
    (t : list event) :
  _msvc14_find_vcvarsall h plat_spec = (Raises e, t) →
  e = itertools_NameError ∧ ∃ values, reg_VC7 h = Some values.
Proof.
  unfold _msvc14_find_vcvarsall. intros H.
  destruct (find_vc2017_returns h) as (r17 & t17 & H17 & _).
  apply bind_Raises_inv in H as [H | ([v bd] & t1 & t2 & _ & H & ->)];
    [congruence|].
  destruct (vcruntime_plat_returns plat_spec) as [plat Hplat].
  apply bind_Raises_inv in H as [H | (plat' & t3 & t4 & _ & H & ->)];
    [congruence|].
  apply bind_Raises_inv in H as [H | (vcr & t5 & t6 & _ & H & ->)].
  { destruct (nonempty bd) as [d|]; [|done].
    destruct (glob_search_returns h
                (join h d [lit ".."; lit ".."; lit "redist"; lit "MSVC";
                           lit "**"; plat'; lit "Microsoft.VC14*.CRT";
                           lit "vcruntime140.dll"])) as (r & t' & Hg).
    congruence. }
  apply bind_Raises_inv in H as [H | ([bd' vcr'] & t7 & t8 & _ & H & ->)].
  - destruct (nonempty bd); [done|]. rewrite find_vc2015_outcome in H.
    destruct (reg_VC7 h) as [values|]; [|done].
    injection H as <- <-. eauto.
  - fold (check_files h bd' vcr') in H.
    destruct (check_files_returns h bd' vcr') as [r Hr]. congruence.
Qed.

(** ** Synthesis of the environment *)

Lemma get_vc_env_override (h : Host) (plat_spec : str) :
  environ_contains (environ h) DISTUTILS_USE_SDK = true →
  _msvc14_get_vc_env h plat_spec = (Returns (lowered_environ (environ h)), []).
Proof.
  unfold _msvc14_get_vc_env, DISTUTILS_USE_SDK. by intros ->.
Qed.

Lemma run_vcvarsall_outcome (h : Host) (vcvarsall plat_spec : str) :
  let cmd := CmdLine (vcvars_cmd vcvarsall plat_spec) in
  match run h cmd with
  | Completed rc bs =>
      if (rc =? 0)%Z then
        ∃ out, utf16le_decode replace bs = Some out
               ∧ run_vcvarsall h vcvarsall plat_spec = (Returns out, [Spawn cmd])
      else
        run_vcvarsall h vcvarsall plat_spec =
          (Raises (new_exc DistutilsPlatformError
                     [lit "Error executing " ++ vcvars_cmd vcvarsall plat_spec]),
           [Spawn cmd])
  | NotStarted =>
      run_vcvarsall h vcvarsall plat_spec =
        (Raises (new_exc OSError []), [Spawn cmd])
  end.
Proof.
  intros cmd. unfold run_vcvarsall, check_output. fold cmd.
  destruct (run h cmd) as [rc bs|]; [|done].
  destruct (rc =? 0)%Z; [|done]. unfold decode_utf16le.
  destruct (utf16le_decode_replace_total bs) as [out Hout].
  exists out. split; [done|]. simpl. by rewrite Hout.
Qed.

Lemma get_vc_env_unfold (h : Host) (plat_spec : str) :
  environ_contains (environ h) DISTUTILS_USE_SDK = false →
  _msvc14_get_vc_env h plat_spec =
    '(vcvarsall, vcruntime) ← _msvc14_find_vcvarsall h plat_spec;
    match nonempty vcvarsall with
    | None =>
        raise (new_exc DistutilsPlatformError
                 [lit "Unable to find vcvarsall.bat"])
    | Some vcvarsall =>
        out ← run_vcvarsall h vcvarsall plat_spec;
        mret (synthesized out vcruntime)
    end.
Proof.
  unfold _msvc14_get_vc_env, DISTUTILS_USE_SDK. intros ->.
  unfold run_vcvarsall.
  destruct (_msvc14_find_vcvarsall h plat_spec) as [[[s r]|e] t];
    [|reflexivity].
  cbn [mbind M_bind]. destruct (nonempty s) as [script|]; [|reflexivity].
  destruct (try_except _ _ _) as [[out|e] t']; [|reflexivity].
  unfold synthesized. destruct (nonempty r); reflexivity.
Qed.

Lemma get_vc_env_Returns_inv (h : Host) (plat_spec : str) (env : gmap str str)
    (t : list event) :
  environ_contains (environ h) DISTUTILS_USE_SDK = false →
  _msvc14_get_vc_env h plat_spec = (Returns env, t) →
  ∃ script r bs out t1,
    _msvc14_find_vcvarsall h plat_spec = (Returns (Some script, r), t1)
    ∧ script ≠ []
    ∧ run h (CmdLine (vcvars_cmd script plat_spec)) = Completed 0 bs
    ∧ utf16le_decode replace bs = Some out
    ∧ env = synthesized out r
    ∧ t = t1 ++ [Spawn (CmdLine (vcvars_cmd script plat_spec))].
Proof.
  intros Hm H. rewrite (get_vc_env_unfold _ _ Hm) in H.
  apply bind_Returns_inv in H as ([s r] & t1 & t2 & Hfind & H & ->).
  destruct (nonempty s) as [script|] eqn:Hs; [|done].
  apply nonempty_Some in Hs as [-> Hscript].
  apply bind_Returns_inv in H as (out & t3 & t4 & Hrun & [= <- <-] & ->).
  pose proof (run_vcvarsall_outcome h script plat_spec) as Ho. cbv zeta in Ho.
  destruct (run h _) as [rc bs|] eqn:Hr; [|congruence].
  destruct (rc =? 0)%Z eqn:Hrc; [|congruence].
  apply Z.eqb_eq in Hrc as ->. destruct Ho as (out' & Hd & Ho).
  rewrite Ho in Hrun. injection Hrun as <- <-.
  exists script, r, bs, out', t1. by rewrite app_nil_r.
Qed.

Lemma get_vc_env_Raises_inv (h : Host) (plat_spec : str) (e : pyexc)
    (t : list event) :
  environ_contains (environ h) DISTUTILS_USE_SDK = false →
  _msvc14_get_vc_env h plat_spec = (Raises e, t) →
  _msvc14_find_vcvarsall h plat_spec = (Raises e, t)
  ∨ (∃ s r, _msvc14_find_vcvarsall h plat_spec = (Returns (s, r), t)
            ∧ nonempty s = None
            ∧ e = DPE "Unable to find vcvarsall.bat")
  ∨ (∃ script r t1,
       _msvc14_find_vcvarsall h plat_spec = (Returns (Some script, r), t1)
       ∧ script ≠ []
       ∧ t = t1 ++ [Spawn (CmdLine (vcvars_cmd script plat_spec))]
       ∧ ((∃ rc bs,
             run h (CmdLine (vcvars_cmd script plat_spec)) = Completed rc bs
             ∧ rc ≠ 0%Z
             ∧ e = new_exc DistutilsPlatformError
                     [lit "Error executing " ++ vcvars_cmd script plat_spec])
          ∨ (run h (CmdLine (vcvars_cmd script plat_spec)) = NotStarted
             ∧ e = new_exc OSError []))).
Proof.
  intros Hm H. rewrite (get_vc_env_unfold _ _ Hm) in H.
  apply bind_Raises_inv in H as [H | ([s r] & t1 & t2 & Hfind & H & ->)];
    [by left|].
  right. destruct (nonempty s) as [script|] eqn:Hs.
  2:{ left. injection H as <- <-. exists s, r. by rewrite app_nil_r. }
  right. apply nonempty_Some in Hs as [-> Hscript].
  apply bind_Raises_inv in H as [H | (out & t3 & t4 & _ & [=] & _)].
  pose proof (run_vcvarsall_outcome h script plat_spec) as Ho. cbv zeta in Ho.
  exists script, r, t1. split; [done|]. split; [done|].
  destruct (run h _) as [rc bs|] eqn:Hr.
  - destruct (rc =? 0)%Z eqn:Hrc.
    + destruct Ho as (out & _ & Ho). congruence.
    + apply Z.eqb_neq in Hrc. rewrite Ho in H. injection H as <- <-.
      split; [done|]. left. eauto.
  - rewrite Ho in H. injection H as <- <-. split; [done|]. by right.
Qed.

Lemma synthesized_lookup (out : str) (r : option str) (k v : str) :
  synthesized out r !! k = Some v →
  (∃ path, nonempty r = Some path ∧ k = py_vcruntime_redist ∧ v = path)
  ∨ parse_env out !! k = Some v.
Proof.
  unfold synthesized. destruct (nonempty r) as [path|]; [|by right].
  rewrite lookup_insert. case_decide; [|by right].
  intros [= <-]. left. eauto.
Qed.

(** C10: on the path without the override, every key of the environment
    that synthesis returns is a non-empty string equal to its lower-case
    form, with no capital letter of ASCII or Latin-1 in it, and every value
    is a non-empty string. *)
Theorem synthesized_env_invariant (h : Host) (plat_spec : str)
    (env : gmap str str) (t : list event) :
  environ_contains (environ h) DISTUTILS_USE_SDK = false →
  _msvc14_get_vc_env h plat_spec = (Returns env, t) →
  ∀ k v : str,
    env !! k = Some v →
    k ≠ [] ∧ lower k = k ∧ (∀ c, In c k → ¬ capital_letter c) ∧ v ≠ [].
Proof.
  intros Hm H k v Hk.
  apply get_vc_env_Returns_inv in H as (script & r & bs & out & t1 & _ & _
                                        & _ & _ & -> & _); [|done].
  assert (Hlow : lower k = k ∧ k ≠ [] ∧ v ≠ []).
  { apply synthesized_lookup in Hk as [(path & Hr & -> & ->) | Hk].
    - apply nonempty_Some in Hr as [_ Hpath]. split; [|done].
      vm_compute. reflexivity.
    - apply parse_env_sound in Hk
        as (line & name & _ & (_ & _ & Hn & Hv) & ->).
      split; [apply lower_idem|]. split; [by apply lower_nonempty | done]. }
  destruct Hlow as (Hlow & Hkey & Hval). repeat split; try done.
  intros c Hc. rewrite <- Hlow in Hc. by apply lower_no_capital in Hc.
Qed.

Lemma synthesized_env_invariant_witness :
  ∃ t,
    _msvc14_get_vc_env vs_host_complete (lit "x86_amd64")
    = (Returns (synthesized vs_out (Some vs_redist)), t)
    ∧ synthesized vs_out (Some vs_redist) !! lit "include"
      = Some (lit "C:\VS\VC\include")
    ∧ synthesized vs_out (Some vs_redist) !! lit "INCLUDE" = None
    ∧ synthesized vs_out (Some vs_redist) !! lit "path"
      = Some (lit "C:\VS\VC\bin;C:\Windows")
    ∧ synthesized vs_out (Some vs_redist) !! lit "Path" = None
    ∧ ∀ k v : str,
        synthesized vs_out (Some vs_redist) !! k = Some v →
        k ≠ [] ∧ lower k = k ∧ (∀ c, In c k → ¬ capital_letter c) ∧ v ≠ [].
Proof.
  eexists. split; [vm_compute; reflexivity|].
  repeat (split; [vm_compute; reflexivity|]).
  eapply (synthesized_env_invariant vs_host_complete (lit "x86_amd64"));
    vm_compute; reflexivity.
Defined.

(** Once the script is found, synthesis succeeds whenever the subprocess
    exits with status zero, whatever became of the redistributable. *)
Lemma get_vc_env_succeeds (h : Host) (plat_spec script : str)
    (r : option str) (t1 : list event) (bs : bytes) :
  environ_contains (environ h) DISTUTILS_USE_SDK = false →
  _msvc14_find_vcvarsall h plat_spec = (Returns (Some script, r), t1) →
  script ≠ [] →
  run h (CmdLine (vcvars_cmd script plat_spec)) = Completed 0 bs →
  ∃ out, utf16le_decode replace bs = Some out
         ∧ _msvc14_get_vc_env h plat_spec
           = (Returns (synthesized out r),
              t1 ++ [Spawn (CmdLine (vcvars_cmd script plat_spec))]).
Proof.
  intros Hm Hfind Hscript Hrun. rewrite (get_vc_env_unfold _ _ Hm), Hfind.
  pose proof (run_vcvarsall_outcome h script plat_spec) as Ho. cbv zeta in Ho.
  rewrite Hrun in Ho. destruct Ho as (out & Hd & Ho). exists out.
  split; [done|]. cbn [mbind M_bind]. destruct script; [done|].
  cbn [nonempty]. rewrite Ho. cbn [mbind M_bind mret M_ret].
  by rewrite app_nil_r.
Qed.

(** C7, as stated, fails: without a redistributable on disk the returned
    environment still has the dedicated key, bound to a path that is no file,
    when the dump of the subprocess defines that variable. *)
Lemma redistributable_key_unverified :
  ∃ t,
    _msvc14_get_vc_env vs_host_stale (lit "x86_amd64")
    = (Returns (parse_env stale_out), t)
    ∧ parse_env stale_out !! py_vcruntime_redist
      = Some (lit "C:\gone\vcruntime140.dll")
    ∧ isfile vs_host_stale (lit "C:\gone\vcruntime140.dll") = false.
Proof.
  eexists. split; [vm_compute; reflexivity|]. split; by vm_compute.
Qed.

(** C7, amended: the redistributable that [_msvc14_find_vcvarsall] returns
    with a script is none or an existing file; a missing one does not make
    synthesis fail; and in the returned environment the dedicated key is
    bound by the injection to a non-empty path of an existing file, or is
    left as the parsed dump has it. *)
Theorem redistributable_validated :
  (∀ (h : Host) (plat_spec script : str) (r : option str) (t : list event),
     _msvc14_find_vcvarsall h plat_spec = (Returns (Some script, r), t) →
     r = None ∨ ∃ path, r = Some path ∧ path ≠ [] ∧ isfile h path = true)
  ∧ (∀ (h : Host) (plat_spec script : str) (r : option str)
       (t1 : list event) (bs : bytes),
       environ_contains (environ h) DISTUTILS_USE_SDK = false →
       _msvc14_find_vcvarsall h plat_spec = (Returns (Some script, r), t1) →
       script ≠ [] →
       run h (CmdLine (vcvars_cmd script plat_spec)) = Completed 0 bs →
       ∃ env t, _msvc14_get_vc_env h plat_spec = (Returns env, t))
  ∧ (∀ (h : Host) (plat_spec : str) (env : gmap str str) (t : list event),
       environ_contains (environ h) DISTUTILS_USE_SDK = false →
       _msvc14_get_vc_env h plat_spec = (Returns env, t) →
       ∃ script bs out,
         run h (CmdLine (vcvars_cmd script plat_spec)) = Completed 0 bs
         ∧ utf16le_decode replace bs = Some out
         ∧ ((∃ path, env !! py_vcruntime_redist = Some path ∧ path ≠ []
                     ∧ isfile h path = true)
            ∨ env !! py_vcruntime_redist
              = parse_env out !! py_vcruntime_redist)).
Proof.
  split; [|split].
  - intros h p script r t H.
    apply find_vcvarsall_Returns_inv in H as [[[=] _] | (s & _ & _ & H)]; done.
  - intros h p script r t1 bs Hm Hfind Hscript Hrun.
    destruct (get_vc_env_succeeds _ _ _ _ _ _ Hm Hfind Hscript Hrun)
      as (out & _ & H). eauto.
  - intros h p env t Hm H.
    apply get_vc_env_Returns_inv in H
      as (script & r & bs & out & t1 & Hfind & _ & Hrun & Hd & -> & _);
      [|done].
    exists script, bs, out. split; [done|]. split; [done|].
    apply find_vcvarsall_Returns_inv in Hfind
      as [[[=] _] | (s & _ & _ & [-> | (path & -> & Hpath & Hfile)])].
    + by right.
    + left. exists path. unfold synthesized. destruct path; [done|].
      cbn [nonempty]. by rewrite lookup_insert_eq.
Qed.

Lemma redistributable_validated_witness :
  (Some vs_redist = None
   ∨ ∃ path, Some vs_redist = Some path ∧ path ≠ []
             ∧ isfile vs_host_complete path = true)
  ∧ (∃ env t, _msvc14_get_vc_env vs_host_stale (lit "x86_amd64")
              = (Returns env, t)).
Proof.
  split.
  - eapply (proj1 redistributable_validated vs_host_complete
              (lit "x86_amd64") vs_vcvarsall).
    vm_compute. reflexivity.
  - eapply (proj1 (proj2 redistributable_validated) vs_host_stale
              (lit "x86_amd64") vs_vcvarsall None).
    + reflexivity.
    + vm_compute. reflexivity.
    + done.
    + vm_compute. reflexivity.
Defined.

(** ** Failures of synthesis *)

(** C9, as stated, fails: the script is found and no subprocess exits with a
    non-zero status, and synthesis fails all the same, with the [OSError] of
    a subprocess that could not be started. *)
Lemma synthesis_fails_when_not_started :
  ∃ t t1,
    _msvc14_get_vc_env vs_host_no_cmd (lit "x86_amd64")
    = (Raises (new_exc OSError []), t)
    ∧ _msvc14_find_vcvarsall vs_host_no_cmd (lit "x86_amd64")
      = (Returns (Some vs_vcvarsall, None), t1)
    ∧ isfile vs_host_no_cmd vs_vcvarsall = true
    ∧ ∀ line, run vs_host_no_cmd (CmdLine line) = NotStarted.
Proof.
  eexists _, _. split; [vm_compute; reflexivity|].
  split; [vm_compute; reflexivity|]. split; [by vm_compute | done].
Qed.

Lemma get_vc_env_never_decode_error (h : Host) (plat_spec : str) (e : pyexc)
    (t : list event) :
  _msvc14_get_vc_env h plat_spec = (Raises e, t) →
  exc_type e ≠ UnicodeDecodeError.
Proof.
  intros H. destruct (environ_contains (environ h) DISTUTILS_USE_SDK) eqn:Hm.
  { by rewrite (get_vc_env_override _ _ Hm) in H. }
  apply (get_vc_env_Raises_inv _ _ _ _ Hm) in H
    as [H | [(s & r & _ & _ & ->) | (script & r & t1 & _ & _ & _ & H)]].
  - by apply find_vcvarsall_Raises_inv in H as [-> _].
  - done.
  - by destruct H as [(rc & bs & _ & _ & ->) | [_ ->]].
Qed.

(** C9, amended: decoding the dump with [errors='replace'] returns for every
    byte sequence, so synthesis never fails with a decode error; once
    discovery has returned, synthesis fails only for a missing script, for a
    subprocess that exits with a non-zero status, or with the [OSError] of a
    subprocess that could not be started. *)
Theorem dump_decoding_total :
  (∀ bs : bytes, ∃ s : str, decode_utf16le replace bs = (Returns s, []))
  ∧ (∀ (h : Host) (plat_spec : str) (e : pyexc) (t : list event),
       _msvc14_get_vc_env h plat_spec = (Raises e, t) →
       exc_type e ≠ UnicodeDecodeError)
  ∧ (∀ (h : Host) (plat_spec : str) (r : option str * option str)
       (t1 : list event) (e : pyexc) (t : list event),
       environ_contains (environ h) DISTUTILS_USE_SDK = false →
       _msvc14_find_vcvarsall h plat_spec = (Returns r, t1) →
       _msvc14_get_vc_env h plat_spec = (Raises e, t) →
       (nonempty r.1 = None ∧ e = DPE "Unable to find vcvarsall.bat")
       ∨ ∃ script,
           r.1 = Some script ∧ script ≠ []
           ∧ ((∃ rc bs,
                 run h (CmdLine (vcvars_cmd script plat_spec)) = Completed rc bs
                 ∧ rc ≠ 0%Z
                 ∧ e = new_exc DistutilsPlatformError
                         [lit "Error executing "
                          ++ vcvars_cmd script plat_spec])
              ∨ (run h (CmdLine (vcvars_cmd script plat_spec)) = NotStarted
                 ∧ e = new_exc OSError []))).
Proof.
  split; [exact decode_utf16le_replace_returns|].
  split; [exact get_vc_env_never_decode_error|].
  intros h p r t1 e t Hm Hfind H.
  apply (get_vc_env_Raises_inv _ _ _ _ Hm) in H
    as [H | [(s & r' & H & Hs & ->) | (script & r' & t2 & H & Hs & _ & He)]].
  - congruence.
  - left. rewrite Hfind in H. by injection H as -> _.
  - right. rewrite Hfind in H. injection H as -> _. eauto.
Qed.

Lemma dump_decoding_total_witness :
  exc_type (new_exc OSError []) ≠ UnicodeDecodeError
  ∧ ((nonempty (Some vs_vcvarsall) = None
      ∧ new_exc OSError [] = DPE "Unable to find vcvarsall.bat")
     ∨ ∃ script,
         Some vs_vcvarsall = Some script ∧ script ≠ []
         ∧ ((∃ rc bs,
               run vs_host_no_cmd (CmdLine (vcvars_cmd script (lit "x86_amd64")))
               = Completed rc bs
               ∧ rc ≠ 0%Z
               ∧ new_exc OSError []
                 = new_exc DistutilsPlatformError
                     [lit "Error executing "
                      ++ vcvars_cmd script (lit "x86_amd64")])
            ∨ (run vs_host_no_cmd (CmdLine (vcvars_cmd script (lit "x86_amd64")))
               = NotStarted
               ∧ new_exc OSError [] = new_exc OSError []))).
Proof.
  split.
  - eapply (proj1 (proj2 dump_decoding_total) vs_host_no_cmd (lit "x86_amd64")).
    vm_compute. reflexivity.
  - eapply (proj2 (proj2 dump_decoding_total) vs_host_no_cmd (lit "x86_amd64")
              (Some vs_vcvarsall, None)).
    + reflexivity.
    + vm_compute. reflexivity.
    + vm_compute. reflexivity.
Defined.

(** ** The override marker *)

Lemma lowered_environ_items (items : list (str * str)) :
  lowered_environ items =
    dict_of (List.map (fun kv => (lower kv.1, kv.2)) items).
Proof.
  unfold lowered_environ. f_equal. apply List.map_ext. by intros [k v].
Qed.

Lemma lowered_environ_sound (items : list (str * str)) (k v : str) :
  lowered_environ items !! k = Some v →
  ∃ key, In (key, v) items ∧ k = lower key.
Proof.
  rewrite lowered_environ_items. intros H.
  apply dict_of_lookup_Some, in_map_iff in H as ([key v'] & [= <- <-] & H).
  eauto.
Qed.

Lemma lowered_environ_complete (items : list (str * str)) (key value : str) :
  In (key, value) items → is_Some (lowered_environ items !! lower key).
Proof.
  intros H. rewrite lowered_environ_items.
  apply (dict_of_lookup_is_Some _ _ value), in_map_iff. by exists (key, value).
Qed.

Lemma lowered_environ_value (before after : list (str * str))
    (key value : str) :
  (∀ key' value', In (key', value') after → lower key' ≠ lower key) →
  lowered_environ (before ++ (key, value) :: after) !! lower key = Some value.
Proof.
  intros Hafter. rewrite lowered_environ_items, List.map_app. cbn [List.map].
  apply dict_of_lookup_last. intros v' H.
  apply in_map_iff in H as ([key' value'] & [= Hk <-] & H).
  by apply (Hafter key' value').
Qed.

Lemma caught_DistutilsPlatformError (e : pyexc) :
  caught [DistutilsPlatformError] e = true ↔
  exc_type e = DistutilsPlatformError.
Proof.
  unfold caught. destruct e as [c args cmd]. simpl. by destruct c.
Qed.

Lemma try_except_caught {A} (e : pyexc) (t : list event)
    (classes : list exc_class) (handler : pyexc → M A) :
  caught classes e = true →
  try_except (Raises e, t) classes handler =
    let '(r, t') := handler e in (r, t ++ t').
Proof. unfold try_except. by intros ->. Qed.

Lemma msvc14_get_vc_env_classical (h : Host) (plat_spec : str)
    (env : gmap str str) (t : list event) :
  unpatched_msvc14_get_vc_env h plat_spec = (Returns env, t) →
  msvc14_get_vc_env h plat_spec = (Returns env, t).
Proof.
  unfold msvc14_get_vc_env. intros ->. simpl. by rewrite !app_nil_r.
Qed.

Lemma msvc14_get_vc_env_fallback (h : Host) (plat_spec : str) (e : pyexc)
    (t : list event) :
  unpatched_msvc14_get_vc_env h plat_spec = (Raises e, t) →
  exc_type e = DistutilsPlatformError →
  msvc14_get_vc_env h plat_spec =
    let '(r, t') := fallback h plat_spec in (r, t ++ t').
Proof.
  unfold msvc14_get_vc_env. intros -> He.
  apply caught_DistutilsPlatformError in He.
  cbn [fmap M_fmap]. rewrite (try_except_caught _ _ _ _ He).
  cbn [mret M_ret mbind M_bind]. fold (fallback h plat_spec).
  destruct (fallback h plat_spec) as [r t']. by rewrite app_nil_r.
Qed.

(** C3, as stated, fails: with the marker present [msvc14_get_vc_env] first
    calls distutils' own function and returns what that returns, here after
    a subprocess and without the variable [DUMMY] of the environment. *)
Lemma override_after_classical :
  environ_contains (environ sdk_host_classical) DISTUTILS_USE_SDK = true
  ∧ msvc14_get_vc_env sdk_host_classical (lit "x86")
    = (Returns classical_env, [Spawn classical_cmd])
  ∧ classical_env !! lit "dummy" = None
  ∧ lowered_environ (environ sdk_host_classical) !! lit "dummy"
    = Some (lit "value").
Proof.
  split; [reflexivity|]. split; [by apply msvc14_get_vc_env_classical|].
  split; by vm_compute.
Qed.

(** C3, amended: with the marker present [_msvc14_get_vc_env] returns at
    once, before any discovery and without a subprocess, the environment of
    the process with lower-cased keys and unchanged values;
    [msvc14_get_vc_env] returns that environment when distutils' own
    function, which it calls first, has failed with
    [DistutilsPlatformError], and nothing is done besides what that call
    did. *)
Theorem override_short_circuit :
  (∀ (h : Host) (plat_spec : str),
     environ_contains (environ h) DISTUTILS_USE_SDK = true →
     _msvc14_get_vc_env h plat_spec
     = (Returns (lowered_environ (environ h)), []))
  ∧ (∀ (h : Host) (plat_spec : str) (e : pyexc) (t : list event),
       environ_contains (environ h) DISTUTILS_USE_SDK = true →
       unpatched_msvc14_get_vc_env h plat_spec = (Raises e, t) →
       exc_type e = DistutilsPlatformError →
       msvc14_get_vc_env h plat_spec
       = (Returns (lowered_environ (environ h)), t))
  ∧ (∀ (items : list (str * str)) (k v : str),
       lowered_environ items !! k = Some v →
       ∃ key, In (key, v) items ∧ k = lower key)
  ∧ (∀ (items : list (str * str)) (key value : str),
       In (key, value) items → is_Some (lowered_environ items !! lower key))
  ∧ (∀ (before after : list (str * str)) (key value : str),
       (∀ key' value', In (key', value') after → lower key' ≠ lower key) →
       lowered_environ (before ++ (key, value) :: after) !! lower key
       = Some value).
Proof.
  split; [exact get_vc_env_override|]. split.
  - intros h p e t Hm Hc He.
    rewrite (msvc14_get_vc_env_fallback _ _ _ _ Hc He). unfold fallback.
    rewrite (get_vc_env_override _ _ Hm). cbn [try_except].
    by rewrite app_nil_r.
  - split; [exact lowered_environ_sound|].
    split; [exact lowered_environ_complete | exact lowered_environ_value].
Qed.

Lemma override_short_circuit_witness :
  _msvc14_get_vc_env sdk_host (lit "x86")
  = (Returns (lowered_environ sdk_environ), [])
  ∧ msvc14_get_vc_env sdk_host (lit "x86")
    = (Returns (lowered_environ sdk_environ), [])
  ∧ lowered_environ sdk_environ !! lower (lit "DUMMY") = Some (lit "value").
Proof.
  split; [|split].
  - by apply (proj1 override_short_circuit sdk_host).
  - by eapply (proj1 (proj2 override_short_circuit) sdk_host).
  - apply (proj2 (proj2 (proj2 (proj2 override_short_circuit)))
             [(lit "DISTUTILS_USE_SDK", [])] []).
    by intros key' value' [].
Defined.

(** ** The characters of the messages *)

Lemma contains_In (sub s : str) (c : N) : contains sub s → In c sub → In c s.
Proof.
  intros (pre & post & ->) H. apply in_app_iff. right. apply in_app_iff.
  by left.
Qed.

Lemma In_existsb (c : N) (s : str) : existsb (N.eqb c) s = true → In c s.
Proof. intros H. by apply existsb_exists in H as (x & Hx & ->%N.eqb_eq). Qed.

Lemma not_In_existsb (c : N) (s : str) : existsb (N.eqb c) s = false → ¬ In c s.
Proof.
  intros H Hin. apply not_true_iff_false in H. apply H, existsb_exists.
  exists c. split; [done | apply N.eqb_refl].
Qed.

Lemma string_of_uint_digits (d : Decimal.uint) (c : N) :
  In c (lit (NilEmpty.string_of_uint d)) → 48 ≤ c ≤ 57.
Proof.
  induction d as [|d IH|d IH|d IH|d IH|d IH|d IH|d IH|d IH|d IH|d IH];
    [done|..]; (intros [<- | H]; [by vm_compute | by apply IH]).
Qed.

Lemma str_of_N_digits (n c : N) : In c (str_of_N n) → 48 ≤ c ≤ 57.
Proof.
  unfold str_of_N, NilZero.string_of_uint.
  destruct (N.to_uint n) eqn:Hd; try apply string_of_uint_digits.
  intros [<- | []]. by vm_compute.
Qed.

Lemma format_0_1f_chars (x : Q) (c : N) :
  In c (format_0_1f x) → is_decimal_char c.
Proof.
  unfold format_0_1f, is_decimal_char. rewrite !in_app_iff.
  intros [H | [H | [H | H]]].
  - destruct (_ <? _)%Z; [|done]. destruct H as [<- | []]. by left.
  - apply str_of_N_digits in H. auto.
  - destruct H as [<- | []]. right. by left.
  - apply str_of_N_digits in H. auto.
Qed.

(** Neither the letter k nor a double quote occurs in the sentence that
    names the required version. *)
Lemma required_message_chars (version : Q) (c : N) :
  In c (required_message version) → c ≠ 107 ∧ c ≠ 34.
Proof.
  unfold required_message. rewrite !in_app_iff. intros [H | [H | H]].
  - split; intros ->; revert H; by apply not_In_existsb.
  - apply format_0_1f_chars in H. unfold is_decimal_char in H. lia.
  - split; intros ->; revert H; by apply not_In_existsb.
Qed.

Lemma required_message_no_hint (version : Q) :
  ¬ contains vcpython27_hint (required_message version)
  ∧ ¬ contains build_tools_hint (required_message version).
Proof.
  split; intros H.
  - apply (contains_In _ _ 107) in H; [|by apply In_existsb].
    by apply required_message_chars in H as [? _].
  - apply (contains_In _ _ 34) in H; [|by apply In_existsb].
    by apply required_message_chars in H as [_ ?].
Qed.

Lemma vcpython27_message_hints (version : Q) :
  contains vcpython27_hint (required_message version ++ vcpython27_hint)
  ∧ ¬ contains build_tools_hint (required_message version ++ vcpython27_hint).
Proof.
  split.
  - exists (required_message version), []. by rewrite app_nil_r.
  - intros H. apply (contains_In _ _ 34) in H; [|by apply In_existsb].
    apply in_app_iff in H as [H | H].
    + by apply required_message_chars in H as [_ ?].
    + revert H. by apply not_In_existsb.
Qed.

Lemma build_tools_message_hints (version : Q) :
  contains build_tools_hint (required_message version ++ build_tools_hint)
  ∧ ¬ contains vcpython27_hint (required_message version ++ build_tools_hint).
Proof.
  split.
  - exists (required_message version), []. by rewrite app_nil_r.
  - intros H. apply (contains_In _ _ 107) in H; [|by apply In_existsb].
    apply in_app_iff in H as [H | H].
    + by apply required_message_chars in H as [? _].
    + revert H. by apply not_In_existsb.
Qed.

(** ** Augmenting the failure message *)

Lemma mentions_compiler_spec (message : str) :
  mentions_compiler message = true ↔ mentions message.
Proof.
  unfold mentions_compiler, mentions. by rewrite orb_true_iff, !str_in_spec.
Qed.

Lemma augment_exception_outcome (exc : pyexc) (version : Q) (message : str)
    (rest : list str) :
  exc_args exc = message :: rest →
  _augment_exception exc version =
    (Returns (with_message exc
                (if mentions_compiler message then augmented_message version
                 else message)), []).
Proof.
  unfold _augment_exception, augmented_message. intros ->.
  destruct (mentions_compiler message); [|done].
  destruct (Qeq_bool _ _); [done|].
  destruct (Qle_bool _ _); [done|]. by rewrite app_nil_r.
Qed.

Lemma augmented_message_hints (version : Q) :
  (contains vcpython27_hint (augmented_message version)
   ↔ (version == 9 # 1)%Q)
  ∧ (contains build_tools_hint (augmented_message version)
     ↔ (14 # 1 <= version)%Q).
Proof.
  unfold augmented_message.
  destruct (Qeq_bool version (9 # 1)) eqn:H9.
  - apply Qeq_bool_iff in H9.
    destruct (vcpython27_message_hints version) as [Hy Hn].
    split; [done|]. split; [done|]. intros Hle. exfalso.
    revert H9 Hle. unfold Qeq, Qle. simpl. lia.
  - apply Qeq_bool_neq in H9.
    destruct (Qle_bool (14 # 1) version) eqn:H14.
    + apply Qle_bool_iff in H14.
      destruct (build_tools_message_hints version) as [Hy Hn]. done.
    + assert (Hnle : ¬ (14 # 1 <= version)%Q).
      { intros Hle. apply Qle_bool_iff in Hle. congruence. }
      rewrite app_nil_r.
      destruct (required_message_no_hint version) as [Hn1 Hn2]. done.
Qed.

Lemma reraise_augmented {A} (body : M A) (exc : pyexc) (t : list event)
    (version : Q) (message : str) (rest : list str) :
  body = (Raises exc, t) →
  exc_type exc = DistutilsPlatformError →
  exc_args exc = message :: rest →
  try_except body [DistutilsPlatformError]
    (fun exc => exc ← _augment_exception exc version; raise exc)
  = (Raises (with_message exc
               (if mentions_compiler message then augmented_message version
                else message)), t).
Proof.
  intros -> Ht Ha. apply caught_DistutilsPlatformError in Ht.
  rewrite (try_except_caught _ _ _ _ Ht).
  rewrite (augment_exception_outcome _ _ _ _ Ha).
  cbn [mbind M_bind raise]. by rewrite !app_nil_r.
Qed.

(** C8: augmenting a failure changes its message and nothing else.  The
    exception keeps its class and its other fields; a message that mentions
    the script or the compiler becomes the sentence naming the required
    version, followed by the link to the standalone compiler exactly when
    the version is 9.0 and by the link to the build tools exactly when it is
    at least 14.0; any other message is kept.  The patched entry points raise
    the exception so augmented, with its class. *)
Theorem augment_changes_message_only :
  (∀ (exc : pyexc) (version : Q) (message : str) (rest : list str),
     exc_args exc = message :: rest →
     ∃ message' : str,
       _augment_exception exc version
       = (Returns {| exc_type := exc_type exc; exc_args := [message'];
                     exc_cmd := exc_cmd exc |}, [])
       ∧ (¬ mentions message → message' = message)
       ∧ (mentions message →
          (∃ hint, message' = required_message version ++ hint)
          ∧ (contains vcpython27_hint message' ↔ (version == 9 # 1)%Q)
          ∧ (contains build_tools_hint message' ↔ (14 # 1 <= version)%Q)))
  ∧ (∀ (h : Host) (plat_spec : str) (e0 exc : pyexc) (t0 t : list event)
       (message : str) (rest : list str),
       unpatched_msvc14_get_vc_env h plat_spec = (Raises e0, t0) →
       exc_type e0 = DistutilsPlatformError →
       _msvc14_get_vc_env h plat_spec = (Raises exc, t) →
       exc_type exc = DistutilsPlatformError →
       exc_args exc = message :: rest →
       ∃ message' : str,
         msvc14_get_vc_env h plat_spec
         = (Raises {| exc_type := DistutilsPlatformError;
                      exc_args := [message']; exc_cmd := exc_cmd exc |},
            t0 ++ t))
  ∧ (∀ (h : Host) (ver : Q) (args : list str) (exc : pyexc)
       (t : list event) (message : str) (rest : list str),
       unpatched_msvc9_query_vcvarsall h ver args = (Raises exc, t) →
       exc_type exc = DistutilsPlatformError →
       exc_args exc = message :: rest →
       ∃ message' : str,
         msvc9_query_vcvarsall h ver args
         = (Raises {| exc_type := DistutilsPlatformError;
                      exc_args := [message']; exc_cmd := exc_cmd exc |}, t)).
Proof.
  split; [|split].
  - intros exc version message rest Ha.
    rewrite (augment_exception_outcome _ _ _ _ Ha). unfold with_message.
    eexists. split; [reflexivity|].
    rewrite <- mentions_compiler_spec. split.
    + by destruct (mentions_compiler message).
    + intros ->. split; [by eexists|]. apply augmented_message_hints.
  - intros h p e0 exc t0 t message rest Hc He0 Hs He Ha.
    rewrite (msvc14_get_vc_env_fallback _ _ _ _ Hc He0). unfold fallback.
    rewrite (reraise_augmented _ _ _ _ _ _ Hs He Ha). unfold with_message.
    rewrite He. by eexists.
  - intros h ver args exc t message rest Hc He Ha. unfold msvc9_query_vcvarsall.
    rewrite (reraise_augmented _ _ _ _ _ _ Hc He Ha). unfold with_message.
    rewrite He. by eexists.
Qed.

Lemma augment_changes_message_only_witness :
  ∃ message' : str,
    _augment_exception (DPE "Unable to find vcvarsall.bat") (9 # 1)
    = (Returns {| exc_type := DistutilsPlatformError; exc_args := [message'];
                  exc_cmd := None |}, [])
    ∧ (¬ mentions (lit "Unable to find vcvarsall.bat") →
       message' = lit "Unable to find vcvarsall.bat")
    ∧ (mentions (lit "Unable to find vcvarsall.bat") →
       (∃ hint, message' = required_message (9 # 1) ++ hint)
       ∧ (contains vcpython27_hint message' ↔ (9 # 1 == 9 # 1)%Q)
       ∧ (contains build_tools_hint message' ↔ (14 # 1 <= 9 # 1)%Q)).
Proof.
  apply (proj1 augment_changes_message_only
           (DPE "Unable to find vcvarsall.bat") (9 # 1)
           (lit "Unable to find vcvarsall.bat") []).
  reflexivity.
Defined.

(** ** No compiler at all *)

(** When the installer query finds no directory and the registry key cannot
    be opened, [_msvc14_find_vcvarsall] finds nothing. *)
Lemma find_vcvarsall_nothing (h : Host) (plat_spec : str)
    (v17 v15 : option Z) (d17 d15 : option str) (t17 t15 : list event) :
  _msvc14_find_vc2017 h = (Returns (v17, d17), t17) →
  nonempty d17 = None →
  _msvc14_find_vc2015 h = (Returns (v15, d15), t15) →
  nonempty d15 = None →
  _msvc14_find_vcvarsall h plat_spec = (Returns (None, None), t17 ++ t15).
Proof.
  intros H17 Hd17 H15 Hd15. unfold _msvc14_find_vcvarsall.
  rewrite H17. cbn [mbind M_bind].
  destruct (vcruntime_plat_returns plat_spec) as [plat ->].
  rewrite Hd17. rewrite H15. cbn [mbind M_bind mret M_ret].
  rewrite find_vc2015_outcome in H15.
  destruct (reg_VC7 h); [done|]. injection H15 as <- <- <-.
  reflexivity.
Qed.

(** C2, as stated, fails: with nothing installed the failure that reaches
    the caller of [msvc14_get_vc_env] is a [DistutilsPlatformError] whose
    message does not contain vcvarsall. *)
Lemma final_message_without_vcvarsall :
  ∃ t,
    _msvc14_find_vc2017 bare_host = (Returns (None, None), [])
    ∧ _msvc14_find_vc2015 bare_host
      = (Returns (None, None), [RegOpenKey VC7_subkey])
    ∧ msvc14_get_vc_env bare_host (lit "x86")
      = (Raises (new_exc DistutilsPlatformError [build_tools_required]), t)
    ∧ ¬ contains (lit "vcvarsall") build_tools_required.
Proof.
  eexists. split; [reflexivity|]. split; [reflexivity|].
  split; [vm_compute; reflexivity|]. by apply str_in_false.
Qed.

(** C2, amended: when the override marker is absent, distutils' own function
    fails with [DistutilsPlatformError] and each strategy returns without a
    directory, [_msvc14_get_vc_env] fails with a [DistutilsPlatformError]
    whose message, Unable to find vcvarsall.bat, contains vcvarsall, and
    [msvc14_get_vc_env] fails with that exception after its message has
    been replaced by the one that asks for the build tools of version 14.0,
    which does not contain vcvarsall. *)
Theorem no_compiler_failure (h : Host) (plat_spec : str) (e0 : pyexc)
    (t0 t17 t15 : list event) (v17 v15 : option Z) (d17 d15 : option str) :
  environ_contains (environ h) DISTUTILS_USE_SDK = false →
  unpatched_msvc14_get_vc_env h plat_spec = (Raises e0, t0) →
  exc_type e0 = DistutilsPlatformError →
  _msvc14_find_vc2017 h = (Returns (v17, d17), t17) →
  nonempty d17 = None →
  _msvc14_find_vc2015 h = (Returns (v15, d15), t15) →
  nonempty d15 = None →
  _msvc14_get_vc_env h plat_spec
  = (Raises (new_exc DistutilsPlatformError [unable_to_find]), t17 ++ t15)
  ∧ contains (lit "vcvarsall") unable_to_find
  ∧ msvc14_get_vc_env h plat_spec
    = (Raises (new_exc DistutilsPlatformError [build_tools_required]),
       t0 ++ t17 ++ t15)
  ∧ ¬ contains (lit "vcvarsall") build_tools_required.
Proof.
  intros Hm Hc He0 H17 Hd17 H15 Hd15.
  assert (Hs : _msvc14_get_vc_env h plat_spec
               = (Raises (new_exc DistutilsPlatformError [unable_to_find]),
                  t17 ++ t15)).
  { rewrite (get_vc_env_unfold _ _ Hm).
    rewrite (find_vcvarsall_nothing _ _ _ _ _ _ _ _ H17 Hd17 H15 Hd15).
    cbn [mbind M_bind nonempty raise]. by rewrite app_nil_r. }
  split; [done|]. split; [by exists (lit "Unable to find "), (lit ".bat")|].
  split; [|by apply str_in_false].
  rewrite (msvc14_get_vc_env_fallback _ _ _ _ Hc He0). unfold fallback.
  by rewrite (reraise_augmented _ _ _ _ unable_to_find [] Hs).
Qed.

Lemma no_compiler_failure_witness :
  _msvc14_get_vc_env bare_host (lit "x86")
  = (Raises (new_exc DistutilsPlatformError [unable_to_find]),
     [] ++ [RegOpenKey VC7_subkey])
  ∧ contains (lit "vcvarsall") unable_to_find
  ∧ msvc14_get_vc_env bare_host (lit "x86")
    = (Raises (new_exc DistutilsPlatformError [build_tools_required]),
       [] ++ [] ++ [RegOpenKey VC7_subkey])
  ∧ ¬ contains (lit "vcvarsall") build_tools_required.
Proof.
  by apply (no_compiler_failure bare_host (lit "x86")
              (DPE "Unable to find vcvarsall.bat") [] [] [RegOpenKey VC7_subkey]
              None None None None).
Defined.

(** ** The enumeration of the registry *)

(** The loop as it is written selects what the specification asks for,
    unless a name converts to infinity. *)
Lemma enum_values_selects (h : Host) (values : list (str * reg_data))
    (best_version : Z) (best_dir : option str) :
  Forall (fun value => int_float h value.1 ≠ Infinite) values →
  enum_values h values best_version best_dir =
    mret (foldl better (best_version, best_dir) (omap (candidate h) values)).
Proof.
  revert best_version best_dir.
  induction values as [|[v d] values IH]; intros bv bd Hfin; [done|].
  apply Forall_cons in Hfin as [Hv Hfin]. simpl in Hv.
  cbn [enum_values omap list_omap candidate].
  destruct d as [vc_dir| | | | | |]; cbn [reg_type isdir_data];
    rewrite ?andb_false_r; try (by apply IH).
  rewrite andb_true_r. destruct (truthy v && isdir h vc_dir); [|by apply IH].
  destruct (int_float h v) as [version| |]; [|by apply IH|done].
  destruct (version >=? 14)%Z; [|by apply IH].
  cbn [andb foldl data_str]. unfold better at 2. cbn [fst snd].
  destruct (version >? bv)%Z; by apply IH.
Qed.

(** The running best after the enumeration is the first candidate with the
    highest version, when that version exceeds the initial one. *)
Lemma foldl_better_first (cs : list (Z * str)) (bv : Z) (bd : option str) :
  (foldl better (bv, bd) cs = (bv, bd) ∧ ∀ c, In c cs → (c.1 ≤ bv)%Z)
  ∨ ∃ before c after,
      cs = before ++ c :: after
      ∧ foldl better (bv, bd) cs = (c.1, Some c.2)
      ∧ (bv < c.1)%Z
      ∧ (∀ c', In c' before → (c'.1 < c.1)%Z)
      ∧ (∀ c', In c' after → (c'.1 ≤ c.1)%Z).
Proof.
  induction cs as [|c cs IH] using rev_ind; [by left|].
  rewrite foldl_app. cbn [foldl].
  destruct IH as [[Hr Hle] | (before & c0 & after & Hcs & Hr & Hbv & Hb & Ha)];
    rewrite Hr; unfold better; cbn [fst snd].
  - destruct (Z.gtb_spec c.1 bv) as [Hgt | Hngt].
    + right. exists cs, c, []. repeat split; try done.
      intros c' Hc'. specialize (Hle c' Hc'). lia.
    + left. split; [done|]. intros c' [Hc' | [<- | []]]%in_app_iff; auto.
  - subst cs. destruct (Z.gtb_spec c.1 c0.1) as [Hgt | Hngt].
    + right. exists (before ++ c0 :: after), c, []. repeat split; try done.
      * lia.
      * intros c' [Hc' | [<- | Hc']]%in_app_iff;
          [specialize (Hb c' Hc') | | specialize (Ha c' Hc')]; lia.
    + right. exists before, c0, (after ++ [c]). rewrite <- app_assoc.
      repeat split; try done.
      intros c' [Hc' | [<- | []]]%in_app_iff; auto.
Qed.

(** What the loop of [_msvc14_find_vc2015] computes, were it reached: version
    0 and no directory when no value counts, and else the first of the
    values that count with the highest version. *)
Lemma enum_values_highest (h : Host) (values : list (str * reg_data)) :
  Forall (fun value => int_float h value.1 ≠ Infinite) values →
  (enum_values h values 0 None = mret (0%Z, None)
   ∧ omap (candidate h) values = [])
  ∨ ∃ before c after,
      omap (candidate h) values = before ++ c :: after
      ∧ enum_values h values 0 None = mret (c.1, Some c.2)
      ∧ (14 ≤ c.1)%Z
      ∧ (∀ c', In c' before → (c'.1 < c.1)%Z)
      ∧ (∀ c', In c' after → (c'.1 ≤ c.1)%Z).
Proof.
  intros Hfin. rewrite (enum_values_selects _ _ _ _ Hfin).
  assert (H14 : ∀ c, In c (omap (candidate h) values) → (14 ≤ c.1)%Z).
  { intros c Hc. apply list_elem_of_In, list_elem_of_omap in Hc
      as ([v d] & _ & Hc).
    unfold candidate in Hc. destruct d as [vc_dir| | | | | |]; try done.
    destruct (truthy v && isdir h vc_dir); [|done].
    destruct (int_float h v) as [version| |]; try done.
    destruct (Z.geb_spec version 14); [|done]. injection Hc as <-. simpl. lia. }
  destruct (foldl_better_first (omap (candidate h) values) 0 None)
    as [[Hr Hle] | (before & c & after & Hcs & Hr & _ & Hb & Ha)].
  - left. split; [by rewrite Hr|].
    destruct (omap (candidate h) values) as [|c cs]; [done|].
    specialize (Hle c (or_introl eq_refl)).
    specialize (H14 c (or_introl eq_refl)). lia.
  - right. exists before, c, after. rewrite Hr. repeat split; try done.
    apply H14. rewrite Hcs. apply in_app_iff. right. by left.
Qed.

Example enum_values_10_bogus_14_13 :
  enum_values (vc7_host vc7_10_bogus_14_13) vc7_10_bogus_14_13 0 None
  = mret (14%Z, Some (lit "C:\VS14\VC\")).
Proof. reflexivity. Qed.

(** C4: [_msvc14_find_vc2015] on the values 10, bogus, 14, 13, whose data
    are directories: the key opens, and the function raises [NameError]
    before it has looked at a single value. *)
Theorem find_vc2015_10_bogus_14_13 :
  _msvc14_find_vc2015 (vc7_host vc7_10_bogus_14_13)
  = (Raises itertools_NameError, [RegOpenKey VC7_subkey]).
Proof. reflexivity. Qed.

(** C5: [_msvc14_find_vc2015] on a key that opens and has no value at all:
    the function raises [NameError] instead of returning that nothing is
    found, and so do its callers. *)
Theorem find_vc2015_raises :
  _msvc14_find_vc2015 (vc7_host [])
  = (Raises itertools_NameError, [RegOpenKey VC7_subkey])
  ∧ _msvc14_find_vcvarsall (vc7_host []) (lit "x86")
    = (Raises itertools_NameError, [RegOpenKey VC7_subkey])
  ∧ msvc14_get_vc_env (vc7_host []) (lit "x86")
    = (Raises itertools_NameError, [RegOpenKey VC7_subkey]).
Proof. repeat split. Qed.

(** * Further properties *)

(** ** The installer query *)

Lemma find_vc2017_outcome (h : Host) :
  _msvc14_find_vc2017 h =
    match program_files h with
    | None => (Returns (None, None), [])
    | Some root =>
        (Returns match vswhere_path h root with
                 | Some path => if isdir h path then (Some 15%Z, Some path)
                                else (None, None)
                 | None => (None, None)
                 end,
         [Spawn (vswhere_args h root)])
    end.
Proof.
  unfold _msvc14_find_vc2017, program_files, vswhere_path.
  destruct (or_else _ _) as [[|c root]|]; [reflexivity| |reflexivity].
  cbn [truthy negb nonempty]. unfold check_output, decode_mbcs.
  destruct (run h _) as [rc out|]; [|reflexivity].
  destruct (rc =? 0)%Z; [|reflexivity].
  cbn [tell mbind M_bind mret M_ret].
  destruct (mbcs_decode h out) as [s|]; [|reflexivity].
  cbn. destruct (isdir h _); reflexivity.
Qed.

(** X1: [_msvc14_find_vc2017] never raises: it returns version 15 with a
    directory that exists, or nothing; it starts no process when neither
    [ProgramFiles(x86)] nor [ProgramFiles] is set to a non-empty value, and
    only [vswhere.exe] under that root otherwise. *)
Theorem find_vc2017_never_raises (h : Host) :
  ∃ r t,
    _msvc14_find_vc2017 h = (Returns r, t)
    ∧ (r = (None, None)
       ∨ ∃ path, r = (Some 15%Z, Some path) ∧ isdir h path = true)
    ∧ t = match program_files h with
          | None => []
          | Some root => [Spawn (vswhere_args h root)]
          end.
Proof.
  rewrite find_vc2017_outcome. destruct (program_files h) as [root|].
  - eexists _, _. split; [reflexivity|]. split; [|done].
    destruct (vswhere_path h root) as [path|]; [|by left].
    destruct (isdir h path) eqn:Hd; [right; eauto | by left].
  - eexists _, _. split; [reflexivity|]. split; [by left | done].
Qed.

(** X2: [_msvc14_find_vc2017] finds an installation exactly when a root is
    set, [vswhere.exe] under it exits with status zero, its output decodes,
    and the directory VC, Auxiliary, Build under the stripped output exists;
    that directory is what it returns. *)
Theorem find_vc2017_found_iff (h : Host) (v : option Z) (path : str) :
  (∃ t, _msvc14_find_vc2017 h = (Returns (v, Some path), t))
  ↔ v = Some 15%Z
    ∧ ∃ root out s,
        program_files h = Some root
        ∧ run h (vswhere_args h root) = Completed 0 out
        ∧ mbcs_decode h out = Some s
        ∧ path = join h (strip s) [lit "VC"; lit "Auxiliary"; lit "Build"]
        ∧ isdir h path = true.
Proof.
  rewrite find_vc2017_outcome. unfold vswhere_path. split.
  - intros [t H]. destruct (program_files h) as [root|]; [|done].
    destruct (run h _) as [rc out|] eqn:Hrun; [|done].
    destruct (rc =? 0)%Z eqn:Hrc; [|done]. apply Z.eqb_eq in Hrc as ->.
    destruct (mbcs_decode h out) as [s|] eqn:Hs; [|done].
    destruct (isdir h _) eqn:Hd; [|done].
    injection H as <- <- _. split; [done|]. by exists root, out, s.
  - intros [-> (root & out & s & Hroot & Hrun & Hs & -> & Hd)].
    rewrite Hroot, Hrun. cbn [Z.eqb]. rewrite Hs, Hd. by eexists.
Qed.

Lemma find_vc2017_found_iff_witness :
  ∃ t, _msvc14_find_vc2017 vs_host_complete
       = (Returns (Some 15%Z, Some vs_build), t).
Proof.
  apply (proj2 (find_vc2017_found_iff vs_host_complete (Some 15%Z) vs_build)).
  split; [reflexivity|].
  exists (lit "C:\Program Files (x86)"), (ascii_encode (vs_root ++ [13; 10])),
    (vs_root ++ [13; 10]).
  repeat split; vm_compute; reflexivity.
Defined.

(** ** Finding the script *)

Lemma find_vcvarsall_installer (h : Host) (plat_spec : str) (v : option Z)
    (d : str) (t17 : list event) (plat : str) :
  _msvc14_find_vc2017 h = (Returns (v, Some d), t17) →
  d ≠ [] →
  vcruntime_plat plat_spec = mret plat →
  _msvc14_find_vcvarsall h plat_spec =
    (Returns (if isfile h (join h d [lit "vcvarsall.bat"])
              then (Some (join h d [lit "vcvarsall.bat"]),
                    checked_file h (last (glob h (redist_pattern h d plat))))
              else (None, None)),
     t17 ++ [GlobSearch (redist_pattern h d plat)]).
Proof.
  intros H17 Hd Hplat. unfold _msvc14_find_vcvarsall.
  rewrite H17. cbn [mbind M_bind]. rewrite Hplat. cbn [mret M_ret].
  destruct d as [|c d]; [done|]. cbn [nonempty].
  unfold glob_glob, getitem_last, checked_file, redist_pattern. cbv zeta.
  cbn [tell mbind M_bind mret M_ret].
  destruct (last (glob h _)) as [m|];
    cbn [tell mbind M_bind mret M_ret fmap M_fmap raise try_except nonempty].
  - destruct (isfile h (join h (c :: d) [lit "vcvarsall.bat"])); cbn [negb];
      [|reflexivity].
    destruct m as [|c' m]; [reflexivity|]. cbn [nonempty].
    destruct (isfile h (c' :: m)); reflexivity.
  - destruct (isfile h (join h (c :: d) [lit "vcvarsall.bat"])); reflexivity.
Qed.

Lemma find_vc2017_trace (h : Host) (r : option Z * option str)
    (t : list event) :
  _msvc14_find_vc2017 h = (Returns r, t) →
  ∀ subkey, ¬ In (RegOpenKey subkey) t.
Proof.
  rewrite find_vc2017_outcome.
  destruct (program_files h); intros [= _ <-] subkey; [|intros []].
  intros [H | []]. discriminate H.
Qed.

(** X5: when the installer query finds a directory, [_msvc14_find_vcvarsall]
    returns without opening the registry: the script is vcvarsall.bat in that
    directory if it is a file there, and else nothing is found; the registry
    key of Visual Studio 2015 is no fallback for a missing script. *)
Theorem find_vcvarsall_installer_first (h : Host) (plat_spec : str)
    (v : option Z) (d : str) (t17 : list event) :
  _msvc14_find_vc2017 h = (Returns (v, Some d), t17) →
  d ≠ [] →
  ∃ vcvarsall r t,
    _msvc14_find_vcvarsall h plat_spec = (Returns (vcvarsall, r), t)
    ∧ (∀ subkey, ¬ In (RegOpenKey subkey) t)
    ∧ vcvarsall = (if isfile h (join h d [lit "vcvarsall.bat"])
                   then Some (join h d [lit "vcvarsall.bat"]) else None).
Proof.
  intros H17 Hd. destruct (vcruntime_plat_returns plat_spec) as [plat Hplat].
  rewrite (find_vcvarsall_installer _ _ _ _ _ _ H17 Hd Hplat).
  assert (Ht : ∀ subkey,
             ¬ In (RegOpenKey subkey)
                 (t17 ++ [GlobSearch (redist_pattern h d plat)])).
  { intros subkey [H | [[=] | []]]%in_app_iff.
    by apply (find_vc2017_trace _ _ _ H17 subkey). }
  destruct (isfile h (join h d [lit "vcvarsall.bat"])); by eexists _, _, _.
Qed.

Lemma find_vcvarsall_installer_first_witness :
  ∃ vcvarsall r t,
    _msvc14_find_vcvarsall vs_host_complete (lit "x86_amd64")
    = (Returns (vcvarsall, r), t)
    ∧ (∀ subkey, ¬ In (RegOpenKey subkey) t)
    ∧ vcvarsall
      = (if isfile vs_host_complete
              (join vs_host_complete vs_build [lit "vcvarsall.bat"])
         then Some (join vs_host_complete vs_build [lit "vcvarsall.bat"])
         else None).
Proof.
  eapply (find_vcvarsall_installer_first vs_host_complete (lit "x86_amd64")
            (Some 15%Z) vs_build).
  - vm_compute. reflexivity.
  - done.
Defined.

(** X6: in an installation that the installer query has found, with its
    script, the redistributable is looked for by one recursive glob search,
    and only the last match counts: it is returned when it is a file, and
    nothing is returned when it is not, or when there is no match; an earlier
    match is never used. *)
Theorem redistributable_is_last_match (h : Host) (plat_spec : str)
    (v : option Z) (d : str) (t17 : list event) (plat : str) :
  _msvc14_find_vc2017 h = (Returns (v, Some d), t17) →
  d ≠ [] →
  vcruntime_plat plat_spec = mret plat →
  isfile h (join h d [lit "vcvarsall.bat"]) = true →
  ∃ r,
    _msvc14_find_vcvarsall h plat_spec
    = (Returns (Some (join h d [lit "vcvarsall.bat"]), r),
       t17 ++ [GlobSearch (redist_pattern h d plat)])
    ∧ (glob h (redist_pattern h d plat) = [] → r = None)
    ∧ (∀ earlier m, glob h (redist_pattern h d plat) = earlier ++ [m] →
       r = if truthy m && isfile h m then Some m else None).
Proof.
  intros H17 Hd Hplat Hs.
  rewrite (find_vcvarsall_installer _ _ _ _ _ _ H17 Hd Hplat), Hs.
  eexists. split; [reflexivity|]. split.
  - by intros ->.
  - intros earlier m ->. rewrite last_snoc. unfold checked_file.
    by destruct m.
Qed.

Lemma redistributable_is_last_match_witness :
  ∃ r,
    _msvc14_find_vcvarsall vs_host_complete (lit "x86_amd64")
    = (Returns (Some (join vs_host_complete vs_build [lit "vcvarsall.bat"]), r),
       [Spawn (vswhere_args vs_host_complete (lit "C:\Program Files (x86)"))]
       ++ [GlobSearch (redist_pattern vs_host_complete vs_build (lit "x64"))])
    ∧ (glob vs_host_complete (redist_pattern vs_host_complete vs_build (lit "x64"))
       = [] → r = None)
    ∧ (∀ earlier m,
         glob vs_host_complete (redist_pattern vs_host_complete vs_build (lit "x64"))
         = earlier ++ [m] →
         r = if truthy m && isfile vs_host_complete m then Some m else None).
Proof.
  apply (redistributable_is_last_match vs_host_complete (lit "x86_amd64")
           (Some 15%Z) vs_build).
  - vm_compute. reflexivity.
  - done.
  - reflexivity.
  - vm_compute. reflexivity.
Defined.

Lemma find_vcvarsall_registry (h : Host) (plat_spec : str) (v : option Z)
    (d : option str) (t17 : list event) :
  _msvc14_find_vc2017 h = (Returns (v, d), t17) →
  nonempty d = None →
  _msvc14_find_vcvarsall h plat_spec =
    match reg_VC7 h with
    | None => (Returns (None, None), t17 ++ [RegOpenKey VC7_subkey])
    | Some _ => (Raises itertools_NameError, t17 ++ [RegOpenKey VC7_subkey])
    end.
Proof.
  intros H17 Hd. unfold _msvc14_find_vcvarsall.
  rewrite H17. cbn [mbind M_bind].
  destruct (vcruntime_plat_returns plat_spec) as [plat ->].
  rewrite Hd. rewrite find_vc2015_outcome.
  destruct (reg_VC7 h); reflexivity.
Qed.

(** X7: [_msvc14_find_vcvarsall] raises exactly when the installer query finds
    no directory and the registry key of Visual Studio 2015 can be opened; the
    exception is then the [NameError] for [itertools], raised right after the
    key is opened. *)
Theorem find_vcvarsall_raises_iff (h : Host) (plat_spec : str) (v : option Z)
    (d : option str) (t17 : list event) :
  _msvc14_find_vc2017 h = (Returns (v, d), t17) →
  ((∃ e t, _msvc14_find_vcvarsall h plat_spec = (Raises e, t))
   ↔ nonempty d = None ∧ is_Some (reg_VC7 h))
  ∧ (∀ e t, _msvc14_find_vcvarsall h plat_spec = (Raises e, t) →
            e = itertools_NameError ∧ t = t17 ++ [RegOpenKey VC7_subkey]).
Proof.
  intros H17.
  assert (Hn : ∀ e t, _msvc14_find_vcvarsall h plat_spec = (Raises e, t) →
                      nonempty d = None).
  { intros e t H. destruct (nonempty d) as [d'|] eqn:Hd; [|done].
    apply nonempty_Some in Hd as [-> Hd].
    destruct (vcruntime_plat_returns plat_spec) as [plat Hplat].
    by rewrite (find_vcvarsall_installer _ _ _ _ _ _ H17 Hd Hplat) in H. }
  split; [split|].
  - intros (e & t & H). split; [by eapply Hn|].
    apply find_vcvarsall_Raises_inv in H as [_ [values ->]]. by eexists.
  - intros [Hd [values Hv]].
    rewrite (find_vcvarsall_registry _ _ _ _ _ H17 Hd), Hv. by eexists _, _.
  - intros e t H. pose proof (Hn _ _ H) as Hd.
    rewrite (find_vcvarsall_registry _ _ _ _ _ H17 Hd) in H.
    destruct (reg_VC7 h); [|done]. by injection H as <- <-.
Qed.

Lemma find_vcvarsall_raises_iff_witness :
  ((∃ e t, _msvc14_find_vcvarsall (vc7_host []) (lit "x86") = (Raises e, t))
   ↔ nonempty None = None ∧ is_Some (reg_VC7 (vc7_host [])))
  ∧ (∀ e t, _msvc14_find_vcvarsall (vc7_host []) (lit "x86") = (Raises e, t) →
            e = itertools_NameError ∧ t = [] ++ [RegOpenKey VC7_subkey]).
Proof.
  by apply (find_vcvarsall_raises_iff (vc7_host []) (lit "x86") None None []).
Defined.

(** X8: a script is only ever found through the installer query: when
    [_msvc14_find_vcvarsall] returns a script, the query has returned a
    non-empty directory, the script is vcvarsall.bat in it, a file, and the
    registry was not opened. An installation that only the registry knows
    (Visual Studio 2015) is never found. *)
Theorem find_vcvarsall_script_from_installer (h : Host)
    (plat_spec script : str) (r : option str) (t : list event) :
  _msvc14_find_vcvarsall h plat_spec = (Returns (Some script, r), t) →
  ∃ v d t17,
    _msvc14_find_vc2017 h = (Returns (v, Some d), t17)
    ∧ d ≠ []
    ∧ script = join h d [lit "vcvarsall.bat"]
    ∧ isfile h script = true
    ∧ ∀ subkey, ¬ In (RegOpenKey subkey) t.
Proof.
  intros H. destruct (find_vc2017_returns h) as ([v d] & t17 & H17 & _).
  destruct (nonempty d) as [d'|] eqn:Hd.
  - apply nonempty_Some in Hd as [-> Hd].
    destruct (vcruntime_plat_returns plat_spec) as [plat Hplat].
    rewrite (find_vcvarsall_installer _ _ _ _ _ _ H17 Hd Hplat) in H.
    destruct (isfile h (join h d' [lit "vcvarsall.bat"])) eqn:Hf; [|done].
    injection H as <- _ <-. exists v, d', t17. repeat split; try done.
    intros subkey [Hin | [[=] | []]]%in_app_iff.
    by apply (find_vc2017_trace _ _ _ H17 subkey).
  - rewrite (find_vcvarsall_registry _ _ _ _ _ H17 Hd) in H.
    by destruct (reg_VC7 h).
Qed.

Lemma find_vcvarsall_script_from_installer_witness :
  ∃ v d t17,
    _msvc14_find_vc2017 vs_host_complete = (Returns (v, Some d), t17)
    ∧ d ≠ []
    ∧ vs_vcvarsall = join vs_host_complete d [lit "vcvarsall.bat"]
    ∧ isfile vs_host_complete vs_vcvarsall = true
    ∧ ∀ subkey,
        ¬ In (RegOpenKey subkey)
            [Spawn (vswhere_args vs_host_complete (lit "C:\Program Files (x86)"));
             GlobSearch (redist_pattern vs_host_complete vs_build (lit "x64"))].
Proof.
  apply (find_vcvarsall_script_from_installer vs_host_complete
           (lit "x86_amd64") vs_vcvarsall (Some vs_redist)).
  vm_compute. reflexivity.
Defined.

(** ** Running the script *)

(** X9: without the override marker, [_msvc14_get_vc_env] starts the command
    interpreter exactly when discovery has returned a script, once, after
    discovery and with the command line made of that script and the platform
    spec, whatever the outcome of the run; it starts nothing else. *)
Theorem get_vc_env_runs_script_once (h : Host) (plat_spec : str)
    (s rd : option str) (t1 : list event) :
  environ_contains (environ h) DISTUTILS_USE_SDK = false →
  _msvc14_find_vcvarsall h plat_spec = (Returns (s, rd), t1) →
  (_msvc14_get_vc_env h plat_spec).2
  = match nonempty s with
    | Some script => t1 ++ [Spawn (CmdLine (vcvars_cmd script plat_spec))]
    | None => t1
    end.
Proof.
  intros Hm Hfind. rewrite (get_vc_env_unfold _ _ Hm), Hfind.
  cbn [mbind M_bind]. destruct (nonempty s) as [script|].
  - pose proof (run_vcvarsall_outcome h script plat_spec) as Ho.
    cbv zeta in Ho. destruct (run h _) as [rc bs|].
    + destruct (rc =? 0)%Z; [destruct Ho as (out & _ & ->) | rewrite Ho];
        cbn; by rewrite ?app_nil_r.
    + by rewrite Ho.
  - cbn. by rewrite app_nil_r.
Qed.

Lemma get_vc_env_runs_script_once_witness :
  (_msvc14_get_vc_env vs_host_no_cmd (lit "x86_amd64")).2
  = match nonempty (Some vs_vcvarsall) with
    | Some script =>
        [Spawn (vswhere_args vs_host_no_cmd (lit "C:\Program Files (x86)"));
         GlobSearch (redist_pattern vs_host_no_cmd vs_build (lit "x64"))]
        ++ [Spawn (CmdLine (vcvars_cmd script (lit "x86_amd64")))]
    | None =>
        [Spawn (vswhere_args vs_host_no_cmd (lit "C:\Program Files (x86)"));
         GlobSearch (redist_pattern vs_host_no_cmd vs_build (lit "x64"))]
    end.
Proof.
  apply (get_vc_env_runs_script_once vs_host_no_cmd (lit "x86_amd64")
           (Some vs_vcvarsall) None).
  - reflexivity.
  - vm_compute. reflexivity.
Defined.

(** X10: injecting the redistributable changes one key of the parsed dump:
    every other key of the returned environment is bound as the dump binds it,
    and the dedicated key is bound to the redistributable that discovery
    returned, replacing what the dump says, or left as in the dump when
    discovery returned none. *)
Theorem injection_changes_one_key (h : Host) (plat_spec : str)
    (env : gmap str str) (t : list event) :
  environ_contains (environ h) DISTUTILS_USE_SDK = false →
  _msvc14_get_vc_env h plat_spec = (Returns env, t) →
  ∃ script r bs out t1,
    _msvc14_find_vcvarsall h plat_spec = (Returns (Some script, r), t1)
    ∧ run h (CmdLine (vcvars_cmd script plat_spec)) = Completed 0 bs
    ∧ utf16le_decode replace bs = Some out
    ∧ (∀ k, k ≠ py_vcruntime_redist → env !! k = parse_env out !! k)
    ∧ env !! py_vcruntime_redist
      = match r with
        | Some path => Some path
        | None => parse_env out !! py_vcruntime_redist
        end.
Proof.
  intros Hm H.
  apply get_vc_env_Returns_inv in H
    as (script & r & bs & out & t1 & Hfind & _ & Hrun & Hd & -> & _); [|done].
  exists script, r, bs, out, t1. repeat split; try done.
  - intros k Hk. unfold synthesized. destruct (nonempty r); [|done].
    by rewrite lookup_insert_ne.
  - apply find_vcvarsall_Returns_inv in Hfind
      as [[[=] _] | (s & _ & _ & [-> | (path & -> & Hpath & _)])]; [done|].
    unfold synthesized. destruct path; [done|]. cbn [nonempty].
    by rewrite lookup_insert_eq.
Qed.

Lemma injection_changes_one_key_witness :
  ∃ script r bs out t1,
    _msvc14_find_vcvarsall vs_host_complete (lit "x86_amd64")
    = (Returns (Some script, r), t1)
    ∧ run vs_host_complete (CmdLine (vcvars_cmd script (lit "x86_amd64")))
      = Completed 0 bs
    ∧ utf16le_decode replace bs = Some out
    ∧ (∀ k, k ≠ py_vcruntime_redist →
            synthesized vs_out (Some vs_redist) !! k = parse_env out !! k)
    ∧ synthesized vs_out (Some vs_redist) !! py_vcruntime_redist
      = match r with
        | Some path => Some path
        | None => parse_env out !! py_vcruntime_redist
        end.
Proof.
  eapply (injection_changes_one_key vs_host_complete (lit "x86_amd64")).
  - reflexivity.
  - vm_compute. reflexivity.
Defined.

(** ** The entry point for Visual C++ 14 *)

Lemma caught_other (e : pyexc) :
  exc_type e ≠ DistutilsPlatformError →
  caught [DistutilsPlatformError] e = false.
Proof.
  intros H. apply not_true_iff_false. by rewrite caught_DistutilsPlatformError.
Qed.

Lemma try_except_uncaught {A} (e : pyexc) (t : list event)
    (classes : list exc_class) (handler : pyexc → M A) :
  caught classes e = false →
  try_except (Raises e, t) classes handler = (Raises e, t).
Proof. unfold try_except. by intros ->. Qed.

Lemma fallback_other (h : Host) (plat_spec : str) (e : pyexc)
    (t : list event) :
  _msvc14_get_vc_env h plat_spec = (Raises e, t) →
  exc_type e ≠ DistutilsPlatformError →
  fallback h plat_spec = (Raises e, t).
Proof.
  intros H He. unfold fallback, try_except. by rewrite H, (caught_other _ He).
Qed.

(** X11: [msvc14_get_vc_env] falls back to its own synthesis only when
    distutils' own function fails with [DistutilsPlatformError]: what that
    function returns is returned, any other exception it raises is raised
    unchanged, and in both cases nothing else is done; in the fallback, a
    synthesized environment is returned as it is and an exception that is no
    [DistutilsPlatformError] is raised unchanged. *)
Theorem msvc14_get_vc_env_transparent (h : Host) (plat_spec : str) :
  (∀ env t,
     unpatched_msvc14_get_vc_env h plat_spec = (Returns env, t) →
     msvc14_get_vc_env h plat_spec = (Returns env, t))
  ∧ (∀ e t,
       unpatched_msvc14_get_vc_env h plat_spec = (Raises e, t) →
       exc_type e ≠ DistutilsPlatformError →
       msvc14_get_vc_env h plat_spec = (Raises e, t))
  ∧ (∀ e0 t0 env t,
       unpatched_msvc14_get_vc_env h plat_spec = (Raises e0, t0) →
       exc_type e0 = DistutilsPlatformError →
       _msvc14_get_vc_env h plat_spec = (Returns env, t) →
       msvc14_get_vc_env h plat_spec = (Returns env, t0 ++ t))
  ∧ (∀ e0 t0 e t,
       unpatched_msvc14_get_vc_env h plat_spec = (Raises e0, t0) →
       exc_type e0 = DistutilsPlatformError →
       _msvc14_get_vc_env h plat_spec = (Raises e, t) →
       exc_type e ≠ DistutilsPlatformError →
       msvc14_get_vc_env h plat_spec = (Raises e, t0 ++ t)).
Proof.
  split; [apply msvc14_get_vc_env_classical|]. split; [|split].
  - intros e t Hc He. unfold msvc14_get_vc_env. rewrite Hc.
    cbn [fmap M_fmap].
    by rewrite (try_except_uncaught _ _ _ _ (caught_other _ He)).
  - intros e0 t0 env t Hc He0 Hs.
    rewrite (msvc14_get_vc_env_fallback _ _ _ _ Hc He0).
    unfold fallback, try_except. by rewrite Hs.
  - intros e0 t0 e t Hc He0 Hs He.
    rewrite (msvc14_get_vc_env_fallback _ _ _ _ Hc He0).
    by rewrite (fallback_other _ _ _ _ Hs He).
Qed.

Lemma msvc14_get_vc_env_transparent_witness :
  msvc14_get_vc_env sdk_host_classical (lit "x86")
  = (Returns classical_env, [Spawn classical_cmd])
  ∧ msvc14_get_vc_env vs_host_no_cmd (lit "x86_amd64")
    = (Raises (new_exc OSError []),
       [] ++ (_msvc14_get_vc_env vs_host_no_cmd (lit "x86_amd64")).2).
Proof.
  split.
  - by apply (proj1 (msvc14_get_vc_env_transparent sdk_host_classical
                       (lit "x86"))).
  - apply (proj2 (proj2 (proj2 (msvc14_get_vc_env_transparent vs_host_no_cmd
                                  (lit "x86_amd64"))))
             (DPE "Unable to find vcvarsall.bat") [] (new_exc OSError [])).
    + reflexivity.
    + reflexivity.
    + vm_compute. reflexivity.
    + done.
Defined.

(** X12: when distutils' own function fails with [DistutilsPlatformError], the
    marker is absent, discovery returns a script and the command interpreter
    exits with status zero, [msvc14_get_vc_env] returns the environment parsed
    from the decoded output, with the redistributable of discovery injected,
    after exactly the effects of distutils' function, of discovery and of that
    one process. *)
Theorem msvc14_get_vc_env_synthesizes (h : Host) (plat_spec script : str)
    (r : option str) (e0 : pyexc) (t0 t1 : list event) (bs : bytes) :
  unpatched_msvc14_get_vc_env h plat_spec = (Raises e0, t0) →
  exc_type e0 = DistutilsPlatformError →
  environ_contains (environ h) DISTUTILS_USE_SDK = false →
  _msvc14_find_vcvarsall h plat_spec = (Returns (Some script, r), t1) →
  script ≠ [] →
  run h (CmdLine (vcvars_cmd script plat_spec)) = Completed 0 bs →
  ∃ out,
    utf16le_decode replace bs = Some out
    ∧ msvc14_get_vc_env h plat_spec
      = (Returns (synthesized out r),
         t0 ++ t1 ++ [Spawn (CmdLine (vcvars_cmd script plat_spec))]).
Proof.
  intros Hc He0 Hm Hfind Hscript Hrun.
  destruct (get_vc_env_succeeds _ _ _ _ _ _ Hm Hfind Hscript Hrun)
    as (out & Hd & Hs).
  exists out. split; [done|].
  rewrite (msvc14_get_vc_env_fallback _ _ _ _ Hc He0).
  unfold fallback, try_except. by rewrite Hs.
Qed.

Lemma msvc14_get_vc_env_synthesizes_witness :
  ∃ out,
    utf16le_decode replace (utf16le_encode vs_out) = Some out
    ∧ msvc14_get_vc_env vs_host_complete (lit "x86_amd64")
      = (Returns (synthesized out (Some vs_redist)),
         [] ++ [Spawn (vswhere_args vs_host_complete
                         (lit "C:\Program Files (x86)"));
                GlobSearch (redist_pattern vs_host_complete vs_build
                              (lit "x64"))]
         ++ [Spawn (CmdLine (vcvars_cmd vs_vcvarsall (lit "x86_amd64")))]).
Proof.
  apply (msvc14_get_vc_env_synthesizes vs_host_complete (lit "x86_amd64")
           vs_vcvarsall (Some vs_redist) (DPE "Unable to find vcvarsall.bat")).
  - reflexivity.
  - reflexivity.
  - reflexivity.
  - vm_compute. reflexivity.
  - done.
  - vm_compute. reflexivity.
Defined.

Lemma fallback_Raises_inv (h : Host) (plat_spec : str) (e : pyexc)
    (t : list event) :
  fallback h plat_spec = (Raises e, t) →
  e = new_exc DistutilsPlatformError [build_tools_required]
  ∨ (∃ script,
       e = new_exc DistutilsPlatformError [error_executing script plat_spec]
       ∧ mentions_compiler (error_executing script plat_spec) = false)
  ∨ e = new_exc OSError []
  ∨ e = itertools_NameError.
Proof.
  intros H.
  destruct (environ_contains (environ h) DISTUTILS_USE_SDK) eqn:Hm.
  { unfold fallback in H. by rewrite (get_vc_env_override _ _ Hm) in H. }
  unfold fallback in H.
  destruct (_msvc14_get_vc_env h plat_spec) as [[env|e'] t'] eqn:Hs; [done|].
  apply (get_vc_env_Raises_inv _ _ _ _ Hm) in Hs
    as [Hs | [(s & r & _ & _ & ->) | (script & r & t1 & _ & _ & _ & Hs)]].
  - apply find_vcvarsall_Raises_inv in Hs as [-> _].
    rewrite try_except_uncaught in H by done.
    injection H as <- _. auto.
  - rewrite (reraise_augmented _ _ _ _ unable_to_find [] eq_refl) in H
      by done.
    injection H as <- _. by left.
  - destruct Hs as [(rc & bs & _ & _ & ->) | [_ ->]].
    + rewrite (reraise_augmented _ _ _ _ (error_executing script plat_spec) []
                 eq_refl) in H by done.
      injection H as <- _.
      destruct (mentions_compiler (error_executing script plat_spec)) eqn:Hmc.
      * by left.
      * right. left. by exists script.
    + rewrite try_except_uncaught in H by done.
      injection H as <- _. auto.
Qed.

(** X13: when the fallback of [msvc14_get_vc_env] fails, the caller gets one
    of four exceptions: a [DistutilsPlatformError] that asks for the build
    tools of Visual C++ 14.0; a [DistutilsPlatformError] with the command line
    that failed, when that command line mentions neither vcvarsall nor visual
    c; the [OSError] of a process that could not be started; or the
    [NameError] for [itertools]. *)
Theorem msvc14_get_vc_env_failures (h : Host) (plat_spec : str)
    (e0 e : pyexc) (t0 t : list event) :
  unpatched_msvc14_get_vc_env h plat_spec = (Raises e0, t0) →
  exc_type e0 = DistutilsPlatformError →
  msvc14_get_vc_env h plat_spec = (Raises e, t) →
  e = new_exc DistutilsPlatformError [build_tools_required]
  ∨ (∃ script,
       e = new_exc DistutilsPlatformError [error_executing script plat_spec]
       ∧ ¬ mentions (error_executing script plat_spec))
  ∨ e = new_exc OSError []
  ∨ e = itertools_NameError.
Proof.
  intros Hc He0 H. rewrite (msvc14_get_vc_env_fallback _ _ _ _ Hc He0) in H.
  destruct (fallback h plat_spec) as [[env|e'] t'] eqn:Hf; [done|].
  injection H as <- _.
  apply fallback_Raises_inv in Hf
    as [-> | [(script & -> & Hn) | [-> | ->]]]; auto.
  right. left. exists script. split; [done|].
  rewrite <- mentions_compiler_spec. by rewrite Hn.
Qed.

Lemma msvc14_get_vc_env_failures_witness :
  new_exc DistutilsPlatformError [build_tools_required]
  = new_exc DistutilsPlatformError [build_tools_required]
  ∨ (∃ script,
       new_exc DistutilsPlatformError [build_tools_required]
       = new_exc DistutilsPlatformError [error_executing script (lit "x86")]
       ∧ ¬ mentions (error_executing script (lit "x86")))
  ∨ new_exc DistutilsPlatformError [build_tools_required] = new_exc OSError []
  ∨ new_exc DistutilsPlatformError [build_tools_required]
    = itertools_NameError.
Proof.
  eapply (msvc14_get_vc_env_failures bare_host (lit "x86")
            (DPE "Unable to find vcvarsall.bat")).
  - reflexivity.
  - reflexivity.
  - vm_compute. reflexivity.
Defined.

(** X14: when the script, as most paths of it do, has vcvarsall in its name
    and its run exits with a non-zero status, [_msvc14_get_vc_env] fails with
    the command line in the message, and [msvc14_get_vc_env] replaces that
    message: the caller is asked for the build tools of Visual C++ 14.0 and
    does not see the command line. *)
Theorem failed_command_line_is_replaced (h : Host) (plat_spec script : str)
    (r : option str) (e0 : pyexc) (t0 t1 : list event) (rc : Z) (bs : bytes) :
  unpatched_msvc14_get_vc_env h plat_spec = (Raises e0, t0) →
  exc_type e0 = DistutilsPlatformError →
  environ_contains (environ h) DISTUTILS_USE_SDK = false →
  _msvc14_find_vcvarsall h plat_spec = (Returns (Some script, r), t1) →
  script ≠ [] →
  contains (lit "vcvarsall") (lower script) →
  run h (CmdLine (vcvars_cmd script plat_spec)) = Completed rc bs →
  rc ≠ 0%Z →
  _msvc14_get_vc_env h plat_spec
  = (Raises (new_exc DistutilsPlatformError
               [error_executing script plat_spec]),
     t1 ++ [Spawn (CmdLine (vcvars_cmd script plat_spec))])
  ∧ msvc14_get_vc_env h plat_spec
    = (Raises (new_exc DistutilsPlatformError [build_tools_required]),
       t0 ++ t1 ++ [Spawn (CmdLine (vcvars_cmd script plat_spec))])
  ∧ ¬ contains (error_executing script plat_spec) build_tools_required.
Proof.
  intros Hc He0 Hm Hfind Hscript Hv Hrun Hrc.
  assert (Hs : _msvc14_get_vc_env h plat_spec
               = (Raises (new_exc DistutilsPlatformError
                            [error_executing script plat_spec]),
                  t1 ++ [Spawn (CmdLine (vcvars_cmd script plat_spec))])).
  { rewrite (get_vc_env_unfold _ _ Hm), Hfind. cbn [mbind M_bind].
    destruct script as [|c script]; [done|]. cbn [nonempty].
    pose proof (run_vcvarsall_outcome h (c :: script) plat_spec) as Ho.
    cbv zeta in Ho. rewrite Hrun in Ho. apply Z.eqb_neq in Hrc.
    rewrite Hrc in Ho. by rewrite Ho. }
  assert (Hmc : mentions_compiler (error_executing script plat_spec) = true).
  { apply mentions_compiler_spec. left. unfold error_executing, vcvars_cmd.
    rewrite (app_assoc (lit "cmd /u /c ")), (app_assoc (lit "Error executing ")).
    apply contains_lower_within; [|done].
    apply not_In_small_sigma. reflexivity. }
  split; [done|]. split.
  - rewrite (msvc14_get_vc_env_fallback _ _ _ _ Hc He0). unfold fallback.
    rewrite (reraise_augmented _ _ _ _
               (error_executing script plat_spec) [] Hs) by done.
    by rewrite Hmc.
  - intros H. apply (contains_In _ _ 69) in H; [|by left].
    revert H. by apply not_In_existsb.
Qed.

Lemma failed_command_line_is_replaced_witness :
  _msvc14_get_vc_env vs_host_exit1 (lit "x86_amd64")
  = (Raises (new_exc DistutilsPlatformError
               [error_executing vs_vcvarsall (lit "x86_amd64")]),
     [Spawn (vswhere_args vs_host_exit1 (lit "C:\Program Files (x86)"));
      GlobSearch (redist_pattern vs_host_exit1 vs_build (lit "x64"))]
     ++ [Spawn (CmdLine (vcvars_cmd vs_vcvarsall (lit "x86_amd64")))])
  ∧ msvc14_get_vc_env vs_host_exit1 (lit "x86_amd64")
    = (Raises (new_exc DistutilsPlatformError [build_tools_required]),
       [] ++ [Spawn (vswhere_args vs_host_exit1 (lit "C:\Program Files (x86)"));
              GlobSearch (redist_pattern vs_host_exit1 vs_build (lit "x64"))]
       ++ [Spawn (CmdLine (vcvars_cmd vs_vcvarsall (lit "x86_amd64")))])
  ∧ ¬ contains (error_executing vs_vcvarsall (lit "x86_amd64"))
        build_tools_required.
Proof.
  apply (failed_command_line_is_replaced vs_host_exit1 (lit "x86_amd64")
           vs_vcvarsall None (DPE "Unable to find vcvarsall.bat") [] _ 1 []).
  - reflexivity.
  - reflexivity.
  - reflexivity.
  - vm_compute. reflexivity.
  - done.
  - apply str_in_spec. reflexivity.
  - reflexivity.
  - done.
Defined.

(** ** Augmenting twice, and the entry point for Visual C++ 9.0 *)

Lemma augmented_message_mentions (version : Q) :
  mentions_compiler (augmented_message version) = true.
Proof.
  apply mentions_compiler_spec. right.
  unfold augmented_message, required_message.
  rewrite <- !app_assoc.
  apply (contains_lower_within _ [] _ _).
  - apply not_In_small_sigma. reflexivity.
  - apply str_in_spec. vm_compute. reflexivity.
Qed.

(** X15: a second augmentation absorbs the first. After
    [_augment_exception(exc, version)] has returned, augmenting the same
    exception object again, for any version, gives what augmenting the
    original for that version gives; with the same version the exception is
    left as it is. *)
Theorem augment_exception_absorbs (exc exc' : pyexc) (version : Q)
    (t : list event) :
  _augment_exception exc version = (Returns exc', t) →
  _augment_exception exc' version = (Returns exc', [])
  ∧ ∀ version', _augment_exception exc' version'
                = _augment_exception exc version'.
Proof.
  intros H. destruct (exc_args exc) as [|message rest] eqn:Ha.
  { unfold _augment_exception in H. by rewrite Ha in H. }
  rewrite (augment_exception_outcome _ _ _ _ Ha) in H. injection H as <- <-.
  assert (Hagain : ∀ version',
            _augment_exception
              (with_message exc
                 (if mentions_compiler message
                  then augmented_message version else message)) version'
            = _augment_exception exc version').
  { intros version'.
    rewrite (augment_exception_outcome exc version' _ _ Ha).
    destruct (mentions_compiler message) eqn:Hm.
    - rewrite (augment_exception_outcome
                 (with_message exc (augmented_message version)) version'
                 (augmented_message version) [] eq_refl).
      by rewrite augmented_message_mentions.
    - rewrite (augment_exception_outcome (with_message exc message) version'
                 message [] eq_refl).
      by rewrite Hm. }
  split; [|done].
  rewrite Hagain. apply (augment_exception_outcome _ _ _ _ Ha).
Qed.

Lemma augment_exception_absorbs_witness :
  _augment_exception
    (new_exc DistutilsPlatformError [augmented_message (9 # 1)]) (9 # 1)
  = (Returns (new_exc DistutilsPlatformError [augmented_message (9 # 1)]), [])
  ∧ ∀ version',
      _augment_exception
        (new_exc DistutilsPlatformError [augmented_message (9 # 1)]) version'
      = _augment_exception (DPE "Unable to find vcvarsall.bat") version'.
Proof.
  apply (augment_exception_absorbs (DPE "Unable to find vcvarsall.bat")
           (new_exc DistutilsPlatformError [augmented_message (9 # 1)])
           (9 # 1) []).
  reflexivity.
Defined.

(** X16: [msvc9_query_vcvarsall] is distutils' [query_vcvarsall] but for the
    message of a [DistutilsPlatformError]: what that function returns is
    returned, an exception of another class is raised unchanged, no effect is
    added to those of that function, and a [DistutilsPlatformError] without
    arguments is lost, since reading its message raises [IndexError]. *)
Theorem msvc9_query_vcvarsall_transparent (h : Host) (ver : Q)
    (args : list str) :
  (∀ env t,
     unpatched_msvc9_query_vcvarsall h ver args = (Returns env, t) →
     msvc9_query_vcvarsall h ver args = (Returns env, t))
  ∧ (∀ e t,
       unpatched_msvc9_query_vcvarsall h ver args = (Raises e, t) →
       exc_type e ≠ DistutilsPlatformError →
       msvc9_query_vcvarsall h ver args = (Raises e, t))
  ∧ (∀ e t,
       unpatched_msvc9_query_vcvarsall h ver args = (Raises e, t) →
       exc_type e = DistutilsPlatformError →
       exc_args e = [] →
       msvc9_query_vcvarsall h ver args
       = (Raises (new_exc IndexError [lit "tuple index out of range"]), t))
  ∧ (msvc9_query_vcvarsall h ver args).2
    = (unpatched_msvc9_query_vcvarsall h ver args).2.
Proof.
  unfold msvc9_query_vcvarsall. split; [|split; [|split]].
  - by intros env t ->.
  - intros e t -> He. by rewrite (try_except_uncaught _ _ _ _ (caught_other _ He)).
  - intros e t -> He Ha. apply caught_DistutilsPlatformError in He.
    rewrite (try_except_caught _ _ _ _ He). unfold _augment_exception.
    rewrite Ha. cbn [raise mbind M_bind]. by rewrite app_nil_r.
  - destruct (unpatched_msvc9_query_vcvarsall h ver args) as [[env|e] t];
      [done|].
    unfold try_except. destruct (caught _ e); [|done].
    destruct (exc_args e) as [|message rest] eqn:Ha.
    + unfold _augment_exception. rewrite Ha. cbn [raise mbind M_bind snd].
      by rewrite app_nil_r.
    + rewrite (augment_exception_outcome _ _ _ _ Ha).
      cbn [raise mbind M_bind snd]. by rewrite !app_nil_r.
Qed.

Lemma msvc9_query_vcvarsall_transparent_witness :
  msvc9_query_vcvarsall sdk_host_classical (9 # 1) [lit "x86"]
  = (Returns classical_env, [Spawn classical_cmd])
  ∧ msvc9_query_vcvarsall
      (make_host [] None [] [] [] no_process
         (raise (new_exc DistutilsPlatformError []))) (9 # 1) [lit "x86"]
    = (Raises (new_exc IndexError [lit "tuple index out of range"]), []).
Proof.
  split.
  - by apply (proj1 (msvc9_query_vcvarsall_transparent sdk_host_classical
                       (9 # 1) [lit "x86"])).
  - by apply (proj1 (proj2 (proj2 (msvc9_query_vcvarsall_transparent
                       (make_host [] None [] [] [] no_process
                          (raise (new_exc DistutilsPlatformError [])))
                       (9 # 1) [lit "x86"])))
                (new_exc DistutilsPlatformError [])).
Defined.

(** ** The standalone compiler for Python 2.7 *)

Lemma Reg_get_value_bound (l : Legacy) (get_value : str → str → option str)
    (key name : str) :
  Reg l = Some get_value →
  Reg_get_value l key name
  = match get_value key name with
    | Some v => (Returns v, [RegOpenKey key])
    | None => (Raises (new_exc KeyError [name]), [RegOpenKey key])
    end.
Proof.
  unfold Reg_get_value. intros ->. cbn [tell mbind M_bind].
  by destruct (get_value key name).
Qed.

Lemma msvc9_find_vcvarsall_outcome (h : Host) (l : Legacy) (version : Q)
    (get_value : str → str → option str) :
  Reg l = Some get_value →
  msvc9_find_vcvarsall h l version
  = match nonempty (registered get_value version) with
    | Some d =>
        if isfile h (join h d [lit "vcvarsall.bat"])
        then (Returns (Some (join h d [lit "vcvarsall.bat"])),
              keys_read get_value version)
        else after (keys_read get_value version)
               (unpatched_msvc9_find_vcvarsall l version)
    | None => after (keys_read get_value version)
                (unpatched_msvc9_find_vcvarsall l version)
    end.
Proof.
  intros HR. unfold msvc9_find_vcvarsall, registered, keys_read, after.
  fold (user_key version) (all_users_key version) installdir.
  rewrite !(Reg_get_value_bound _ _ _ _ HR).
  destruct (get_value (user_key version) installdir) as [d|].
  - cbn [fmap M_fmap try_except mbind M_bind].
    destruct (nonempty (Some d)) as [d'|].
    + destruct (isfile h _); [reflexivity|].
      by destruct (unpatched_msvc9_find_vcvarsall l version).
    + by destruct (unpatched_msvc9_find_vcvarsall l version).
  - cbn [fmap M_fmap]. rewrite try_except_caught by reflexivity.
    destruct (get_value (all_users_key version) installdir) as [d|].
    + cbn [fmap M_fmap try_except mbind M_bind app].
      destruct (nonempty (Some d)) as [d'|].
      * destruct (isfile h _); [reflexivity|].
        by destruct (unpatched_msvc9_find_vcvarsall l version).
      * by destruct (unpatched_msvc9_find_vcvarsall l version).
    + cbn [fmap M_fmap]. rewrite try_except_caught by reflexivity.
      cbn [mret M_ret mbind M_bind app nonempty].
      by destruct (unpatched_msvc9_find_vcvarsall l version).
Qed.

Lemma msvc9_find_vcvarsall_unbound (h : Host) (l : Legacy) (version : Q) :
  Reg l = None →
  msvc9_find_vcvarsall h l version = (Raises Reg_NameError, []).
Proof.
  intros HR. unfold msvc9_find_vcvarsall, Reg_get_value. by rewrite HR.
Qed.

(** X17: what [msvc9_find_vcvarsall] returns is either the script
    [vcvarsall.bat] of the standalone compiler, an existing file in the
    non-empty directory that the registry gives for the version (the per-user
    key, or the key of a 64-bit system when the per-user key is not there),
    found without calling distutils, or what distutils' [find_vcvarsall]
    returns for the version after the keys were read. *)
Theorem msvc9_find_vcvarsall_sound (h : Host) (l : Legacy) (version : Q)
    (r : option str) (t : list event) :
  msvc9_find_vcvarsall h l version = (Returns r, t) →
  ∃ get_value,
    Reg l = Some get_value
    ∧ ((∃ d, registered get_value version = Some d
             ∧ d ≠ []
             ∧ isfile h (join h d [lit "vcvarsall.bat"]) = true
             ∧ r = Some (join h d [lit "vcvarsall.bat"])
             ∧ t = keys_read get_value version)
       ∨ (∃ t', unpatched_msvc9_find_vcvarsall l version = (Returns r, t')
                ∧ t = keys_read get_value version ++ t')).
Proof.
  intros H. destruct (Reg l) as [get_value|] eqn:HR.
  2: { by rewrite (msvc9_find_vcvarsall_unbound _ _ _ HR) in H. }
  exists get_value. split; [done|].
  rewrite (msvc9_find_vcvarsall_outcome _ _ _ _ HR) in H.
  assert (Hafter : after (keys_read get_value version)
                     (unpatched_msvc9_find_vcvarsall l version)
                   = (Returns r, t) →
                   ∃ t', unpatched_msvc9_find_vcvarsall l version
                         = (Returns r, t')
                         ∧ t = keys_read get_value version ++ t').
  { unfold after.
    destruct (unpatched_msvc9_find_vcvarsall l version) as [o t'].
    cbn [fst snd]. intros [= -> <-]. by exists t'. }
  destruct (nonempty (registered get_value version)) as [d|] eqn:Hd;
    [|right; by apply Hafter].
  apply nonempty_Some in Hd as [Hd Hne].
  destruct (isfile h _) eqn:Hf; [|right; by apply Hafter].
  injection H as <- <-. left. by exists d.
Qed.

Lemma msvc9_find_vcvarsall_sound_witness :
  ∃ get_value,
    Reg (legacy_of None (Some vcforpython_dir) (mret None)) = Some get_value
    ∧ ((∃ d, registered get_value (9 # 1) = Some d
             ∧ d ≠ []
             ∧ isfile python27_host (join python27_host d [lit "vcvarsall.bat"])
               = true
             ∧ Some vcforpython_script
               = Some (join python27_host d [lit "vcvarsall.bat"])
             ∧ [RegOpenKey (user_key (9 # 1));
                RegOpenKey (all_users_key (9 # 1))]
               = keys_read get_value (9 # 1))
       ∨ (∃ t', unpatched_msvc9_find_vcvarsall
                  (legacy_of None (Some vcforpython_dir) (mret None)) (9 # 1)
                = (Returns (Some vcforpython_script), t')
                ∧ [RegOpenKey (user_key (9 # 1));
                   RegOpenKey (all_users_key (9 # 1))]
                  = keys_read get_value (9 # 1) ++ t')).
Proof.
  apply (msvc9_find_vcvarsall_sound python27_host
           (legacy_of None (Some vcforpython_dir) (mret None)) (9 # 1)).
  vm_compute. reflexivity.
Defined.

(** X18: [msvc9_find_vcvarsall] adds one failure to those of distutils'
    [find_vcvarsall]: the [NameError] for [Reg], raised before anything is
    read when the import of [distutils.msvc9compiler] was suppressed. The
    [KeyError] of a key that is not in the registry never reaches the caller.
    *)
Theorem msvc9_find_vcvarsall_failures (h : Host) (l : Legacy) (version : Q)
    (e : pyexc) (t : list event) :
  msvc9_find_vcvarsall h l version = (Raises e, t) →
  (Reg l = None ∧ e = Reg_NameError ∧ t = [])
  ∨ (∃ get_value t',
       Reg l = Some get_value
       ∧ unpatched_msvc9_find_vcvarsall l version = (Raises e, t')
       ∧ t = keys_read get_value version ++ t').
Proof.
  intros H. destruct (Reg l) as [get_value|] eqn:HR.
  2: { rewrite (msvc9_find_vcvarsall_unbound _ _ _ HR) in H.
       injection H as <- <-. by left. }
  right. exists get_value.
  rewrite (msvc9_find_vcvarsall_outcome _ _ _ _ HR) in H.
  assert (Hafter : after (keys_read get_value version)
                     (unpatched_msvc9_find_vcvarsall l version)
                   = (Raises e, t) →
                   ∃ t', Some get_value = Some get_value
                         ∧ unpatched_msvc9_find_vcvarsall l version
                           = (Raises e, t')
                         ∧ t = keys_read get_value version ++ t').
  { unfold after.
    destruct (unpatched_msvc9_find_vcvarsall l version) as [o t'].
    cbn [fst snd]. intros [= -> <-]. by exists t'. }
  destruct (nonempty (registered get_value version)) as [d|];
    [|by apply Hafter].
  destruct (isfile h _); [done|by apply Hafter].
Qed.

Lemma msvc9_find_vcvarsall_failures_witness :
  (Reg {| Reg := None; unpatched_msvc9_find_vcvarsall := fun _ => mret None |}
   = None
   ∧ Reg_NameError = Reg_NameError ∧ @nil event = [])
  ∨ (∃ get_value t',
       Reg {| Reg := None;
              unpatched_msvc9_find_vcvarsall := fun _ => mret None |}
       = Some get_value
       ∧ unpatched_msvc9_find_vcvarsall
           {| Reg := None;
              unpatched_msvc9_find_vcvarsall := fun _ => mret None |} (9 # 1)
         = (Raises Reg_NameError, t')
       ∧ [] = keys_read get_value (9 # 1) ++ t').
Proof.
  apply (msvc9_find_vcvarsall_failures python27_host
           {| Reg := None; unpatched_msvc9_find_vcvarsall := fun _ => mret None |}
           (9 # 1)).
  reflexivity.
Defined.

(** X19: a registration for the user decides alone. When the per-user key
    gives a directory, the key of a 64-bit system is not read: the result is
    the script in that directory when the directory is not empty and the
    script exists, and otherwise what distutils' [find_vcvarsall] gives, also
    when the other key names a directory that has the script. *)
Theorem msvc9_per_user_key_decides (h : Host) (l : Legacy) (version : Q)
    (get_value : str → str → option str) (d : str) :
  Reg l = Some get_value →
  get_value (user_key version) installdir = Some d →
  msvc9_find_vcvarsall h l version
  = if bool_decide (d ≠ []) && isfile h (join h d [lit "vcvarsall.bat"])
    then (Returns (Some (join h d [lit "vcvarsall.bat"])),
          [RegOpenKey (user_key version)])
    else after [RegOpenKey (user_key version)]
           (unpatched_msvc9_find_vcvarsall l version).
Proof.
  intros HR Hu. rewrite (msvc9_find_vcvarsall_outcome _ _ _ _ HR).
  unfold registered, keys_read. rewrite Hu.
  destruct d as [|c d]; [reflexivity|]. cbn [nonempty].
  rewrite bool_decide_true by done. reflexivity.
Qed.

Lemma msvc9_per_user_key_decides_witness :
  msvc9_find_vcvarsall python27_host
    (legacy_of (Some (lit "C:\Users\me\VCForPython27")) (Some vcforpython_dir)
       (mret (Some vs2008_script))) (9 # 1)
  = if bool_decide (lit "C:\Users\me\VCForPython27" ≠ [])
       && isfile python27_host
            (join python27_host (lit "C:\Users\me\VCForPython27")
               [lit "vcvarsall.bat"])
    then (Returns (Some (join python27_host (lit "C:\Users\me\VCForPython27")
                           [lit "vcvarsall.bat"])),
          [RegOpenKey (user_key (9 # 1))])
    else after [RegOpenKey (user_key (9 # 1))]
           (unpatched_msvc9_find_vcvarsall
              (legacy_of (Some (lit "C:\Users\me\VCForPython27"))
                 (Some vcforpython_dir) (mret (Some vs2008_script))) (9 # 1)).
Proof.
  eapply (msvc9_per_user_key_decides python27_host
           (legacy_of (Some (lit "C:\Users\me\VCForPython27"))
              (Some vcforpython_dir) (mret (Some vs2008_script))) (9 # 1)).
  - reflexivity.
  - vm_compute. reflexivity.
Defined.
